(** * Settlement core of the fibre piecework tracker (src/main.py)

    A shallow embedding of the period calculator, the rubric evaluator, the
    rate resolver, the approval endpoints and the payroll endpoints, with the
    properties of the specification checked against them.

    Modelling conventions.
    - [Decimal] values are exact rationals ([Q]); the 28-digit context
      precision of Python's decimal module and the [float(...)] conversion of
      response fields are not represented.  [quantize] is written out with
      its rounding mode.
    - A [date] is a (year, month, day) record of the proleptic Gregorian
      calendar; the MINYEAR/MAXYEAR bounds of [datetime.date] are not
      represented.  [date + timedelta(days=n)] steps day by day.
    - A table is the list of its rows; a query walks the rows, an [ORDER BY]
      only permutes them and is not represented.
    - [with engine.begin() as conn] commits when the block returns and rolls
      back when it raises. *)

From Stdlib Require Import ZArith QArith List String Bool Lia Lqa.
Import ListNotations.
Open Scope Z_scope.

(* ------------------------------------------------------------------ *)
(** ** Calendar: [datetime.date], [timedelta], [calendar.monthrange]   *)
(* ------------------------------------------------------------------ *)

Module Calendar.

Record date := mkdate { year : Z; month : Z; day : Z }.

Definition is_leap (y : Z) : bool :=
  ((y mod 4 =? 0) && negb (y mod 100 =? 0)) || (y mod 400 =? 0).

(** [calendar.monthrange(y, m)[1]]: the number of days of month [m]. *)
Definition monthrange_last (y m : Z) : Z :=
  match m with
  | 2 => if is_leap y then 29 else 28
  | 4 | 6 | 9 | 11 => 30
  | _ => 31
  end.

Definition valid_date (d : date) : Prop :=
  1 <= month d <= 12 /\ 1 <= day d <= monthrange_last (year d) (month d).

Definition valid_dateb (d : date) : bool :=
  (1 <=? month d) && (month d <=? 12) && (1 <=? day d)
  && (day d <=? monthrange_last (year d) (month d)).

Definition days_before_year (y : Z) : Z :=
  let y' := y - 1 in y' * 365 + y' / 4 - y' / 100 + y' / 400.

Definition days_before_month (y m : Z) : Z :=
  let l := if is_leap y then 1 else 0 in
  match m with
  | 1 => 0    | 2 => 31      | 3 => 59 + l   | 4 => 90 + l
  | 5 => 120 + l | 6 => 151 + l | 7 => 181 + l | 8 => 212 + l
  | 9 => 243 + l | 10 => 273 + l | 11 => 304 + l | _ => 334 + l
  end.

(** [d.toordinal()] *)
Definition toordinal (d : date) : Z :=
  days_before_year (year d) + days_before_month (year d) (month d) + day d.

(** Comparison of dates is the comparison of (year, month, day). *)
Definition date_ltb (a b : date) : bool :=
  (year a <? year b)
  || ((year a =? year b)
      && ((month a <? month b) || ((month a =? month b) && (day a <? day b)))).

Definition date_leb (a b : date) : bool := negb (date_ltb b a).

Definition next_day (d : date) : date :=
  if day d <? monthrange_last (year d) (month d)
  then mkdate (year d) (month d) (day d + 1)
  else if month d <? 12 then mkdate (year d) (month d + 1) 1
  else mkdate (year d + 1) 1 1.

Definition prev_day (d : date) : date :=
  if 1 <? day d then mkdate (year d) (month d) (day d - 1)
  else if 1 <? month d
       then mkdate (year d) (month d - 1) (monthrange_last (year d) (month d - 1))
  else mkdate (year d - 1) 12 31.

(** [d + timedelta(days=n)] *)
Definition add_days (d : date) (n : Z) : date :=
  match n with
  | Z0 => d
  | Zpos p => Pos.iter next_day d p
  | Zneg p => Pos.iter prev_day d p
  end.

(** [(a - b).days] *)
Definition days_between (a b : date) : Z := toordinal a - toordinal b.

(** [min(a, b)] on dates: the first argument unless the second is smaller. *)
Definition date_min (a b : date) : date := if date_ltb b a then b else a.

(** [d.replace(day=k)] *)
Definition replace_day (d : date) (k : Z) : date := mkdate (year d) (month d) k.

End Calendar.
Import Calendar.

(* ------------------------------------------------------------------ *)
(** ** Period calculators                                              *)
(* ------------------------------------------------------------------ *)

Inductive FREQ := weekly | biweekly | monthly.

(** [period_for_worker]: the period used by the payroll views and by the
    payroll run. *)
Definition period_for_worker (freq : FREQ) (anchor as_of : date) : date * date :=
  match freq with
  | monthly => (replace_day as_of 1, as_of)
  | _ =>
    let block := match freq with weekly => 7 | _ => 14 end in
    let delta_days := days_between as_of anchor in
    if delta_days <? 0 then
      (anchor, date_min as_of (add_days anchor (block - 1)))
    else
      let block_index := delta_days / block in
      let start := add_days anchor (block_index * block) in
      let end_ := add_days start (block - 1) in
      (start, if date_ltb as_of end_ then as_of else end_)
  end.

(** [add_month], the helper nested in [compute_period]. *)
Definition add_month (d : date) : date :=
  let y := year d + month d / 12 in
  let m := month d mod 12 + 1 in
  let last := monthrange_last y m in
  mkdate y m (Z.min (day d) last).

(** [compute_period]: the period used by the payroll-due listing. *)
Definition compute_period (payout : FREQ) (anchor as_of : date) : date * date :=
  match payout with
  | monthly =>
    let anchor_dom := day anchor in
    let last := monthrange_last (year as_of) (month as_of) in
    let cand := mkdate (year as_of) (month as_of) (Z.min anchor_dom last) in
    let cand :=
      if date_ltb as_of cand then
        let y := if 1 <? month as_of then year as_of else year as_of - 1 in
        let m := if 1 <? month as_of then month as_of - 1 else 12 in
        let last2 := monthrange_last y m in
        mkdate y m (Z.min anchor_dom last2)
      else cand in
    let start := cand in
    let next_anchor := add_month start in
    (start, add_days next_anchor (-1))
  | _ =>
    let days := match payout with weekly => 7 | _ => 14 end in
    let delta := days_between as_of anchor in
    let start :=
      if delta <? 0 then
        let blocks := (Z.abs delta + days - 1) / days in
        add_days anchor (- (blocks * days))
      else
        let blocks := delta / days in
        add_days anchor (blocks * days) in
    (start, add_days start (days - 1))
  end.

(** Length in days of a fixed block: [7 if freq == "weekly" else 14]. *)
Definition block_of (freq : FREQ) : Z := match freq with weekly => 7 | _ => 14 end.

(** The anchor day-of-month [dom] placed in month [m] of year [y], clamped to
    the last day of that month. *)
Definition anchor_day_in (y m dom : Z) : date :=
  mkdate y m (Z.min dom (monthrange_last y m)).


(* ------------------------------------------------------------------ *)
(** ** Decimal arithmetic                                              *)
(* ------------------------------------------------------------------ *)

Definition Qlt_bool (a b : Q) : bool := negb (Qle_bool b a).

(** [x.quantize(Decimal("0.01"), rounding=ROUND_HALF_UP)]: two decimal places,
    ties away from zero. *)
Definition quantize_half_up (x : Q) : Q :=
  let a := Z.abs (Qnum x) * 100 in
  let d := Zpos (Qden x) in
  (Z.sgn (Qnum x) * ((2 * a + d) / (2 * d))) # 100.

(** [x.quantize(Decimal("0.01"))]: the rounding of the default context,
    ROUND_HALF_EVEN. *)
Definition quantize_half_even (x : Q) : Q :=
  let a := Z.abs (Qnum x) * 100 in
  let d := Zpos (Qden x) in
  let q := a / d in
  let r := a mod d in
  let q' := if 2 * r <? d then q
            else if d <? 2 * r then q + 1
            else if Z.even q then q else q + 1 in
  (Z.sgn (Qnum x) * q') # 100.

(** What [sum(...)] can return: it starts from the integer [0] unless a
    start value is given, so over no rows it is an [int], not a [Decimal]. *)
Inductive pynum :=
| PyInt (n : Z)
| PyDecimal (q : Q).

Definition pynum_value (v : pynum) : Q :=
  match v with PyInt n => inject_Z n | PyDecimal q => q end.

Definition py_add (acc : pynum) (x : Q) : pynum :=
  PyDecimal (Qred (pynum_value acc + x)).

Definition py_sum (start : pynum) (xs : list Q) : pynum :=
  fold_left py_add xs start.

(* ------------------------------------------------------------------ *)
(** ** Rubric evaluator                                                *)
(* ------------------------------------------------------------------ *)

Definition DAILY_TARGET_KG_EQUIV : Q := 1.
Definition METRES_PER_KG_EQUIV : Q := 60.

Record rubric := mkrubric {
  progress_kg_equiv : Q;
  target_met : bool;
  weaving_needed_m : Q;
  combing_needed_kg : Q
}.

Definition rubric_from_logged (combed_kg woven_m : Q) : rubric :=
  let progress := (combed_kg + woven_m / METRES_PER_KG_EQUIV)%Q in
  let target_met := Qle_bool DAILY_TARGET_KG_EQUIV progress in
  let weaving_needed :=
    if Qlt_bool combed_kg 1 then
      let w := ((1 - combed_kg) * METRES_PER_KG_EQUIV)%Q in
      if Qlt_bool w 0 then 0%Q else w
    else 0%Q in
  let combing_needed :=
    if Qlt_bool woven_m METRES_PER_KG_EQUIV then
      let c := ((METRES_PER_KG_EQUIV - woven_m) / METRES_PER_KG_EQUIV)%Q in
      if Qlt_bool c 0 then 0%Q else c
    else 0%Q in
  mkrubric progress target_met weaving_needed combing_needed.

(* ------------------------------------------------------------------ *)
(** ** Stored data                                                     *)
(* ------------------------------------------------------------------ *)

(** Identifiers are UUIDs; only their equality matters. *)
Definition uuid := N.
Bind Scope N_scope with uuid.

Inductive STATUS := pending | approved | rejected.
Inductive ROLE := admin | supervisor.

Definition STATUS_eqb (a b : STATUS) : bool :=
  match a, b with
  | pending, pending | approved, approved | rejected, rejected => true
  | _, _ => false
  end.

Definition is_some {A} (o : option A) : bool :=
  match o with Some _ => true | None => false end.

Record worker_row := mkworker {
  w_id : uuid;
  w_full_name : string;
  w_payout : FREQ;
  w_payout_anchor_date : option date;
  w_factory_id : option uuid;
  w_is_active : bool
}.

(** [task_types]: the code reads the rate under two column names,
    [default_rate_ngn] (rate resolver) and [rate_ngn_per_unit] (single decision,
    payroll due); both are kept. *)
Record task_type_row := mktasktype {
  tt_id : uuid;
  tt_code : string;
  tt_default_rate_ngn : Q;
  tt_rate_ngn_per_unit : Q
}.

Record worker_rate_row := mkworkerrate {
  wr_worker_id : uuid;
  wr_task_type_id : uuid;
  wr_rate_ngn : Q
}.

Record work_day_row := mkworkday {
  wd_id : uuid;
  wd_worker_id : uuid;
  wd_work_date : date;
  wd_logged_by : uuid;
  wd_is_closed : bool
}.

Record work_task_row := mkworktask {
  wt_id : uuid;
  wt_work_day_id : uuid;
  wt_task_type_id : uuid;
  wt_quantity : Q;
  wt_note : option string;
  wt_status : STATUS;
  wt_decided_by : option uuid;
  wt_decided_at : option Z;
  wt_decision_reason : option string;
  wt_approved_pay_ngn : Q;
  wt_paid_run_id : option uuid;
  wt_paid_at : option Z;
  wt_updated_at : option Z;
  wt_updated_by : option uuid
}.

Record payroll_run_row := mkrun {
  pr_id : uuid;
  pr_as_of : date;
  pr_created_by : uuid;
  pr_note : option string
}.

Record payroll_run_item_row := mkrunitem {
  pri_run_id : uuid;
  pri_worker_id : uuid;
  pri_worker_name : string;
  pri_payout : FREQ;
  pri_period_start : date;
  pri_period_end : date;
  pri_approved_total_pay_ngn : Q;
  pri_approved_combed_kg : Q;
  pri_approved_woven_m : Q
}.

(** An audit event; its JSON metadata is not represented. *)
Record audit_row := mkaudit {
  al_actor_id : uuid;
  al_actor_role : ROLE;
  al_action : string;
  al_entity_type : string;
  al_entity_id : option uuid
}.

Record store := mkstore {
  workers : list worker_row;
  task_types : list task_type_row;
  worker_rates : list worker_rate_row;
  work_days : list work_day_row;
  work_tasks : list work_task_row;
  payroll_runs : list payroll_run_row;
  payroll_run_items : list payroll_run_item_row;
  audit_logs : list audit_row
}.

Definition set_work_tasks (s : store) (ts : list work_task_row) : store :=
  mkstore (workers s) (task_types s) (worker_rates s) (work_days s) ts
          (payroll_runs s) (payroll_run_items s) (audit_logs s).

Definition set_payroll_runs (s : store) (rs : list payroll_run_row) : store :=
  mkstore (workers s) (task_types s) (worker_rates s) (work_days s) (work_tasks s)
          rs (payroll_run_items s) (audit_logs s).

Definition set_payroll_run_items (s : store) (items : list payroll_run_item_row)
  : store :=
  mkstore (workers s) (task_types s) (worker_rates s) (work_days s) (work_tasks s)
          (payroll_runs s) items (audit_logs s).

Definition set_audit_logs (s : store) (ls : list audit_row) : store :=
  mkstore (workers s) (task_types s) (worker_rates s) (work_days s) (work_tasks s)
          (payroll_runs s) (payroll_run_items s) ls.

(** The authenticated caller: [{"id", "role"}], and the factory scope that
    [get_current_user] adds. *)
Record user := mkuser {
  u_id : uuid;
  u_role : ROLE;
  u_factory_id : option uuid
}.

(* ------------------------------------------------------------------ *)
(** ** Exceptions and transactions                                     *)
(* ------------------------------------------------------------------ *)

Inductive exn :=
| HTTPException (status_code : Z) (detail : string)
| NameError (name : string)
| AttributeError (what : string)
| TypeError (what : string)
| InvalidOperation.

Definition status_code_of (e : exn) : option Z :=
  match e with HTTPException c _ => Some c | _ => None end.

(** Code running on an open connection: it reads and writes the store and
    either returns or raises; the store at the raise is still visible to an
    enclosing [try]. *)
Definition tx (A : Type) : Type := store -> (exn + A) * store.

Definition ret {A} (a : A) : tx A := fun s => (inr a, s).
Definition raise {A} (e : exn) : tx A := fun s => (inl e, s).
Definition bind {A B} (m : tx A) (k : A -> tx B) : tx B :=
  fun s => match m s with
           | (inl e, s') => (inl e, s')
           | (inr a, s') => k a s'
           end.
Definition gets {A} (f : store -> A) : tx A := fun s => (inr (f s), s).
Definition modify (f : store -> store) : tx unit := fun s => (inr tt, f s).

Notation "x <- m ;; k" := (bind m (fun x => k))
  (at level 61, m at next level, right associativity).
Notation "m ;;; k" := (bind m (fun _ => k))
  (at level 61, right associativity).

(** [with engine.begin() as conn: body]: commit on return, roll back on raise. *)
Definition begin {A} (body : tx A) : tx A :=
  fun s => match body s with
           | (inl e, _) => (inl e, s)
           | (inr a, s') => (inr a, s')
           end.

(** [try: m except HTTPException: ...]: only an [HTTPException] is caught. *)
Definition try_http {A} (m : tx A) : tx (option A) :=
  fun s => match m s with
           | (inl (HTTPException _ _), s') => (inr None, s')
           | (inl e, s') => (inl e, s')
           | (inr a, s') => (inr (Some a), s')
           end.

(** [for x in xs: ...] threading an accumulator. *)
Fixpoint for_fold {A B} (xs : list A) (acc : B) (body : B -> A -> tx B) : tx B :=
  match xs with
  | [] => ret acc
  | x :: xs' => acc' <- body acc x ;; for_fold xs' acc' body
  end.

Definition for_each {A} (xs : list A) (body : A -> tx unit) : tx unit :=
  for_fold xs tt (fun _ x => body x).

(** [.fetchone()] *)
Definition fetchone {A} (rows : list A) : option A := hd_error rows.

Definition audit (actor_id : uuid) (actor_role : ROLE) (action entity_type : string)
    (entity_id : option uuid) : tx unit :=
  modify (fun s => set_audit_logs s
    (audit_logs s ++ [mkaudit actor_id actor_role action entity_type entity_id])).

(* ------------------------------------------------------------------ *)
(** ** Rate resolver                                                   *)
(* ------------------------------------------------------------------ *)

Definition effective_rate (s : store) (worker_id task_type_id : uuid) : Q :=
  match fetchone (filter (fun r => (wr_worker_id r =? worker_id)%N
                                   && (wr_task_type_id r =? task_type_id)%N)
                         (worker_rates s)) with
  | Some r => wr_rate_ngn r
  | None =>
    match fetchone (filter (fun t => (tt_id t =? task_type_id)%N) (task_types s)) with
    | Some d => tt_default_rate_ngn d
    | None => 0%Q
    end
  end.

(* ------------------------------------------------------------------ *)
(** ** Joins used by the queries                                       *)
(* ------------------------------------------------------------------ *)

(** [work_tasks wt join work_days wd on wd.id = wt.work_day_id] *)
Definition tasks_with_days (s : store) : list (work_task_row * work_day_row) :=
  flat_map (fun wt =>
    map (fun wd => (wt, wd))
        (filter (fun wd => (wd_id wd =? wt_work_day_id wt)%N) (work_days s)))
    (work_tasks s).

(** [work_tasks wt join task_types tt on tt.id = wt.task_type_id] *)
Definition tasks_with_types (s : store) : list (work_task_row * task_type_row) :=
  flat_map (fun wt =>
    map (fun tt => (wt, tt))
        (filter (fun tt => (tt_id tt =? wt_task_type_id wt)%N) (task_types s)))
    (work_tasks s).

(** [work_tasks wt join work_days wd ... join task_types tt ...] *)
Definition tasks_days_types (s : store)
  : list (work_task_row * work_day_row * task_type_row) :=
  flat_map (fun p =>
    map (fun tt => (fst p, snd p, tt))
        (filter (fun tt => (tt_id tt =? wt_task_type_id (fst p))%N) (task_types s)))
    (tasks_with_days s).

(** [wd.worker_id = :wid and wd.work_date between :s and :e] *)
Definition in_period (wid : uuid) (ps pe : date) (wd : work_day_row) : bool :=
  (wd_worker_id wd =? wid)%N
  && date_leb ps (wd_work_date wd) && date_leb (wd_work_date wd) pe.

(** The eligibility filter shared by the single-worker view, the payroll
    run and the payroll-due listing. *)
Definition approved_unpaid_in (wid : uuid) (ps pe : date)
    (r : work_task_row * work_day_row * task_type_row) : bool :=
  let '(wt, wd, _) := r in
  in_period wid ps pe wd
  && STATUS_eqb (wt_status wt) approved
  && negb (is_some (wt_paid_run_id wt)).


(** [period_for_worker(w[2], w[3], as_of)] on a stored worker row, whose
    anchor column may be null: the fixed-block branches subtract the anchor. *)
Definition call_period_for_worker (freq : FREQ) (anchor : option date) (as_of : date)
  : tx (date * date) :=
  match anchor with
  | Some a => ret (period_for_worker freq a as_of)
  | None =>
    match freq with
    | monthly => ret (replace_day as_of 1, as_of)
    | _ => raise (TypeError "unsupported operand type(s) for -: 'datetime.date' and 'NoneType'")
    end
  end.

(* ------------------------------------------------------------------ *)
(** ** Day lock                                                        *)
(* ------------------------------------------------------------------ *)

(** The rows of [select wd.is_closed from work_tasks wt join work_days wd ...
    where wt.id = :tid]. *)
Definition task_day_closed_rows (s : store) (tid : uuid) : list bool :=
  map (fun p => wd_is_closed (snd p))
      (filter (fun p => (wt_id (fst p) =? tid)%N) (tasks_with_days s)).

Definition assert_workday_open_by_task (task_id : uuid) : tx unit :=
  row <- gets (fun s => fetchone (task_day_closed_rows s task_id)) ;;
  match row with
  | None => raise (HTTPException 404 "Task not found")
  | Some true => raise (HTTPException 400 "Work day is closed")
  | Some false => ret tt
  end.

(* ------------------------------------------------------------------ *)
(** ** Work logging                                                    *)
(* ------------------------------------------------------------------ *)

Record WorkTaskCreateIn := mkcreate {
  c_id : option uuid;
  c_work_day_id : uuid;
  c_task_type_id : uuid;
  c_quantity : Q;
  c_note : option string
}.

(** [insert into work_tasks (id, work_day_id, task_type_id, quantity, note)
    ... on conflict (id) do nothing]; the other columns take their defaults
    (status pending, no decision, pay 0, not paid). *)
Definition insert_work_task (tid : uuid) (body : WorkTaskCreateIn) (s : store) : store :=
  if existsb (fun t => (wt_id t =? tid)%N) (work_tasks s) then s
  else set_work_tasks s
         (work_tasks s ++
          [mkworktask tid (c_work_day_id body) (c_task_type_id body) (c_quantity body)
                      (c_note body) pending None None None 0%Q None None None None]).

(** [add_work_task]; [fresh] is the identifier [uuid4()] would draw. *)
Definition add_work_task (fresh : uuid) (body : WorkTaskCreateIn) (u : user) : tx uuid :=
  if Qlt_bool (c_quantity body) 0 then
    raise (HTTPException 400 "Quantity cannot be negative")
  else
    let tid := match c_id body with Some i => i | None => fresh end in
    begin (
      wd <- gets (fun s => fetchone
               (map wd_is_closed
                    (filter (fun d => (wd_id d =? c_work_day_id body)%N) (work_days s)))) ;;
      match wd with
      | None => raise (HTTPException 404 "Work day not found")
      | Some true => raise (HTTPException 400 "Work day is closed")
      | Some false =>
        modify (insert_work_task tid body) ;;;
        audit (u_id u) (u_role u) "TASK_CREATE" "work_task" (Some tid) ;;;
        ret tid
      end).

Record WorkTaskUpdateIn := mkupdate {
  up_quantity : option (option Q);      (* unset, null, or a number *)
  up_note : option (option string);
  up_task_type_id : option uuid
}.

Definition apply_edit (now : Z) (by_ : uuid) (body : WorkTaskUpdateIn)
    (quantity : option Q) (t : work_task_row) : work_task_row :=
  mkworktask (wt_id t) (wt_work_day_id t)
    (match up_task_type_id body with Some i => i | None => wt_task_type_id t end)
    (match quantity with Some q => q | None => wt_quantity t end)
    (match up_note body with Some n => n | None => wt_note t end)
    (wt_status t) (wt_decided_by t) (wt_decided_at t) (wt_decision_reason t)
    (wt_approved_pay_ngn t) (wt_paid_run_id t) (wt_paid_at t)
    (Some now) (Some by_).

Definition update_pending_task (now : Z) (task_id : uuid) (body : WorkTaskUpdateIn)
    (u : user) : tx unit :=
  begin (
    assert_workday_open_by_task task_id ;;;
    row <- gets (fun s => fetchone
              (filter (fun p => (wt_id (fst p) =? task_id)%N) (tasks_with_days s))) ;;
    match row with
    | None => raise (HTTPException 404 "Task not found")
    | Some (wt, wd) =>
      if negb (STATUS_eqb (wt_status wt) pending) then
        raise (HTTPException 400 "Only pending tasks can be edited")
      else if match u_role u with
              | supervisor => negb (wd_logged_by wd =? u_id u)%N
              | admin => false
              end then
        raise (HTTPException 403 "Supervisors can only edit tasks they logged")
      else
        match up_quantity body with
        | Some None => raise (HTTPException 400 "Quantity must be >= 0")
        | Some (Some q) =>
          if Qlt_bool q 0 then raise (HTTPException 400 "Quantity must be >= 0")
          else
            modify (fun s => set_work_tasks s
              (map (fun t => if (wt_id t =? task_id)%N
                             then apply_edit now (u_id u) body (Some q) t else t)
                   (work_tasks s))) ;;;
            audit (u_id u) (u_role u) "TASK_EDIT" "work_task" (Some task_id)
        | None =>
          if negb (is_some (up_note body)) && negb (is_some (up_task_type_id body))
          then ret tt
          else
            modify (fun s => set_work_tasks s
              (map (fun t => if (wt_id t =? task_id)%N
                             then apply_edit now (u_id u) body None t else t)
                   (work_tasks s))) ;;;
            audit (u_id u) (u_role u) "TASK_EDIT" "work_task" (Some task_id)
        end
    end).

Definition delete_pending_task (task_id : uuid) (u : user) : tx unit :=
  begin (
    assert_workday_open_by_task task_id ;;;
    row <- gets (fun s => fetchone
              (filter (fun p => (wt_id (fst p) =? task_id)%N) (tasks_with_days s))) ;;
    match row with
    | None => raise (HTTPException 404 "Task not found")
    | Some (wt, wd) =>
      if negb (STATUS_eqb (wt_status wt) pending) then
        raise (HTTPException 400 "Only pending tasks can be deleted")
      else if match u_role u with
              | supervisor => negb (wd_logged_by wd =? u_id u)%N
              | admin => false
              end then
        raise (HTTPException 403 "Supervisors can only delete tasks they logged")
      else
        modify (fun s => set_work_tasks s
          (filter (fun t => negb (wt_id t =? task_id)%N) (work_tasks s))) ;;;
        audit (u_id u) (u_role u) "TASK_DELETE" "work_task" (Some task_id)
    end).

(* ------------------------------------------------------------------ *)
(** ** Approval                                                        *)
(* ------------------------------------------------------------------ *)

(** The request's [status: Literal["approved", "rejected"]]. *)
Inductive decision := decide_approved | decide_rejected.

Definition status_of_decision (d : decision) : STATUS :=
  match d with decide_approved => approved | decide_rejected => rejected end.

Record WorkTaskDecisionIn := mkdecision {
  d_status : decision;
  d_decision_reason : option string
}.

Record BulkDecisionIn := mkbulk {
  b_task_ids : list uuid;
  b_status : decision;
  b_decision_reason : option string
}.

(** [update work_tasks set status, decided_by, decided_at = now(),
    decision_reason, approved_pay_ngn where id = :id] *)
Definition set_decision (st : STATUS) (by_ : uuid) (now : Z) (reason : option string)
    (pay : Q) (t : work_task_row) : work_task_row :=
  mkworktask (wt_id t) (wt_work_day_id t) (wt_task_type_id t) (wt_quantity t) (wt_note t)
    st (Some by_) (Some now) reason pay
    (wt_paid_run_id t) (wt_paid_at t) (wt_updated_at t) (wt_updated_by t).

Definition update_decision (task_id : uuid) (st : STATUS) (by_ : uuid) (now : Z)
    (reason : option string) (pay : Q) (s : store) : store :=
  set_work_tasks s
    (map (fun t => if (wt_id t =? task_id)%N
                   then set_decision st by_ now reason pay t else t)
         (work_tasks s)).

Definition decision_action (d : decision) : string :=
  match d with decide_approved => "TASK_APPROVE" | decide_rejected => "TASK_REJECT" end.

(** [decide_task]; returns the [approved_pay_ngn] of the response. *)
Definition decide_task (now : Z) (task_id : uuid) (body : WorkTaskDecisionIn)
    (u : user) : tx Q :=
  begin (
    assert_workday_open_by_task task_id ;;;
    row <- gets (fun s => fetchone
              (filter (fun p => (wt_id (fst p) =? task_id)%N) (tasks_with_types s))) ;;
    match row with
    | None => raise (HTTPException 404 "Task not found")
    | Some (wt, ty) =>
      if is_some (wt_paid_run_id wt) then
        raise (HTTPException 409 "Task already paid; cannot change decision")
      else
        let approved_pay :=
          match d_status body with
          | decide_approved =>
            let qty := wt_quantity wt in
            let rate := tt_rate_ngn_per_unit ty in
            quantize_half_up (qty * rate)
          | decide_rejected => 0%Q
          end in
        modify (update_decision task_id (status_of_decision (d_status body)) (u_id u)
                  now (d_decision_reason body) approved_pay) ;;;
        audit (u_id u) (u_role u) (decision_action (d_status body)) "work_task"
              (Some task_id) ;;;
        ret approved_pay
    end).

Definition can_decide_task (s : store) (decider_id : uuid) (decider_role : ROLE)
    (task_id : uuid) : bool :=
  match decider_role with
  | admin => true
  | supervisor =>
    match fetchone (filter (fun p => (wt_id (fst p) =? task_id)%N) (tasks_with_days s)) with
    | None => false
    | Some (_, wd) => (wd_logged_by wd =? decider_id)%N
    end
  end.

(** One turn of the loop of [bulk_decide]; [updated] is the running count. *)
Definition bulk_decide_one (now : Z) (body : BulkDecisionIn) (u : user)
    (updated : Z) (tid : uuid) : tx Z :=
  open <- try_http (assert_workday_open_by_task tid) ;;
  match open with
  | None => ret updated
  | Some _ =>
    allowed <- gets (fun s => can_decide_task s (u_id u) (u_role u) tid) ;;
    if negb allowed then ret updated
    else
      t <- gets (fun s => fetchone
             (filter (fun p => (wt_id (fst p) =? tid)%N) (tasks_with_days s))) ;;
      match t with
      | None => ret updated
      | Some (wt, wd) =>
        let worker_id := wd_worker_id wd in
        rate <- gets (fun s => effective_rate s worker_id (wt_task_type_id wt)) ;;
        let qty := wt_quantity wt in
        let approved_pay :=
          match b_status body with
          | decide_approved => quantize_half_even (qty * rate)
          | decide_rejected => 0%Q
          end in
        modify (update_decision tid (status_of_decision (b_status body)) (u_id u)
                  now (b_decision_reason body) approved_pay) ;;;
        audit (u_id u) (u_role u) (decision_action (b_status body)) "work_task"
              (Some tid) ;;;
        ret (updated + 1)
      end
  end.

(** [bulk_decide]; returns the [updated] count of the response. *)
Definition bulk_decide (now : Z) (body : BulkDecisionIn) (u : user) : tx Z :=
  match b_task_ids body with
  | [] => ret 0
  | _ => begin (for_fold (b_task_ids body) 0 (bulk_decide_one now body u))
  end.

(* ------------------------------------------------------------------ *)
(** ** Payroll views                                                   *)
(* ------------------------------------------------------------------ *)

(** Columns of a three-column result row: [r[0]], [r[1]], [r[2]]. *)
Definition col0 {A B C} (r : A * B * C) : A := fst (fst r).
Definition col1 {A B C} (r : A * B * C) : B := snd (fst r).
Definition col2 {A B C} (r : A * B * C) : C := snd r.

(** [v.quantize(Decimal("0.01"))] on what [sum] returned. *)
Definition py_quantize (v : pynum) : tx Q :=
  match v with
  | PyDecimal q => ret (quantize_half_even q)
  | PyInt _ => raise (AttributeError "'int' object has no attribute 'quantize'")
  end.

Record PayrollOut := mkpayrollout {
  po_worker_id : uuid;
  po_full_name : string;
  po_payout : FREQ;
  po_period_start : date;
  po_period_end : date;
  po_approved_total_pay_ngn : Q;
  po_approved_combed_kg : Q;
  po_approved_woven_m : Q
}.

(** [select tt.code, wt.quantity, wt.approved_pay_ngn ...] of the
    single-worker view. *)
Definition payroll_rows (s : store) (wid : uuid) (ps pe : date)
  : list (string * Q * Q) :=
  map (fun r => (tt_code (col2 r), wt_quantity (col0 r), wt_approved_pay_ngn (col0 r)))
      (filter (approved_unpaid_in wid ps pe) (tasks_days_types s)).

Definition payroll (worker_id : uuid) (as_of : date) (u : user) : tx PayrollOut :=
  begin (
    w <- gets (fun s => fetchone (filter (fun w => (w_id w =? worker_id)%N) (workers s))) ;;
    match w with
    | None => raise (HTTPException 404 "Worker not found")
    | Some w =>
      let freq := w_payout w in
      p <- call_period_for_worker freq (w_payout_anchor_date w) as_of ;;
      rows <- gets (fun s => payroll_rows s worker_id (fst p) (snd p)) ;;
      let total_pay := py_sum (PyDecimal 0) (map col2 rows) in
      let combed := py_sum (PyDecimal 0)
                      (map col1 (filter (fun r => String.eqb (col0 r) "COMBING") rows)) in
      let woven := py_sum (PyDecimal 0)
                      (map col1 (filter (fun r => String.eqb (col0 r) "WEAVING") rows)) in
      total <- py_quantize total_pay ;;
      ret (mkpayrollout (w_id w) (w_full_name w) freq (fst p) (snd p)
                        total (pynum_value combed) (pynum_value woven))
    end).




(* ------------------------------------------------------------------ *)
(** ** Payroll run                                                     *)
(* ------------------------------------------------------------------ *)

Record PayrollRunCreateIn := mkruncreate {
  rc_as_of : date;
  rc_note : option string
}.

(** [select wt.id, tt.code, wt.quantity ... and wt.status = 'approved' and
    wt.paid_run_id is null] *)
Definition run_rows (s : store) (worker_id : uuid) (ps pe : date)
  : list (uuid * string * Q) :=
  map (fun r => (wt_id (col0 r), tt_code (col2 r), wt_quantity (col0 r)))
      (filter (approved_unpaid_in worker_id ps pe) (tasks_days_types s)).

(** [r[0] == "COMBING"] with [r[0]] the task's UUID: an identifier is never
    equal to a task code. *)
Definition uuid_eq_str (i : uuid) (code : string) : bool := false.

(** [sum(Decimal(str(r[1])) for r in rows ...)] with [r[1]] the task code: the
    integer 0 over no rows; a task code is not a decimal literal. *)
Definition sum_codes (rows : list (uuid * string * Q)) : tx pynum :=
  match rows with
  | [] => ret (PyInt 0)
  | _ :: _ => raise InvalidOperation
  end.

(** [insert into payroll_run_items ... on conflict (run_id, worker_id) do
    nothing] *)
Definition insert_run_item (item : payroll_run_item_row) (s : store) : store :=
  if existsb (fun i => (pri_run_id i =? pri_run_id item)%N
                       && (pri_worker_id i =? pri_worker_id item)%N)
             (payroll_run_items s)
  then s
  else set_payroll_run_items s (payroll_run_items s ++ [item]).

Definition set_paid (run_id : uuid) (paid_at : Z) (t : work_task_row) : work_task_row :=
  mkworktask (wt_id t) (wt_work_day_id t) (wt_task_type_id t) (wt_quantity t) (wt_note t)
    (wt_status t) (wt_decided_by t) (wt_decided_at t) (wt_decision_reason t)
    (wt_approved_pay_ngn t) (Some run_id) (Some paid_at)
    (wt_updated_at t) (wt_updated_by t).

(** [update work_tasks set paid_run_id = :run_id, paid_at = :paid_at
    where id = any(:task_ids) and status = 'approved' and paid_run_id is null] *)
Definition mark_paid_one (run_id : uuid) (paid_at : Z) (task_ids : list uuid)
    (t : work_task_row) : work_task_row :=
  if existsb (fun i => (wt_id t =? i)%N) task_ids
     && STATUS_eqb (wt_status t) approved
     && negb (is_some (wt_paid_run_id t))
  then set_paid run_id paid_at t else t.

Definition mark_paid (run_id : uuid) (paid_at : Z) (task_ids : list uuid) (s : store)
  : store :=
  set_work_tasks s (map (mark_paid_one run_id paid_at task_ids) (work_tasks s)).

(** The parameter dictionary of the eligibility query,
    [{"worker_id": str(worker_id), "start": period_start, "end": period_end}].
    The loop binds [wid], [start] and [end]; the names [worker_id],
    [period_start] and [period_end] are bound neither in [create_payroll_run]
    nor at module level, so evaluating the first entry raises. *)
Definition run_query_params : tx (uuid * date * date) :=
  raise (NameError "worker_id").

(** The rest of the loop body, from the eligibility query on, for the
    parameter values [q] = (worker_id, period_start, period_end). *)
Definition settle_worker (run_id : uuid) (now : Z) (w : worker_row) (wid : uuid)
    (start end_ : date) (q : uuid * date * date) : tx unit :=
  rows <- gets (fun s => run_rows s (col0 q) (col1 q) (col2 q)) ;;
  total_pay <- py_quantize (py_sum (PyInt 0) (map col2 rows)) ;;
  combed <- sum_codes (filter (fun r => uuid_eq_str (col0 r) "COMBING") rows) ;;
  woven <- sum_codes (filter (fun r => uuid_eq_str (col0 r) "WEAVING") rows) ;;
  modify (insert_run_item
            (mkrunitem run_id wid (w_full_name w) (w_payout w) start end_
                       total_pay (pynum_value combed) (pynum_value woven))) ;;;
  let task_ids := map col0 rows in
  match task_ids with
  | [] => ret tt
  | _ :: _ => modify (mark_paid run_id now task_ids)
  end.

(** [create_payroll_run]; [run_id] is the identifier [uuid4()] would draw. *)
Definition create_payroll_run (run_id : uuid) (now : Z) (body : PayrollRunCreateIn)
    (u : user) : tx uuid :=
  begin (
    modify (fun s => set_payroll_runs s
      (payroll_runs s ++ [mkrun run_id (rc_as_of body) (u_id u) (rc_note body)])) ;;;
    workers_rows <- gets (fun s => filter w_is_active (workers s)) ;;
    for_each workers_rows (fun w =>
      let wid := w_id w in
      p <- call_period_for_worker (w_payout w) (w_payout_anchor_date w) (rc_as_of body) ;;
      q <- run_query_params ;;
      settle_worker run_id now w wid (fst p) (snd p) q) ;;;
    audit (u_id u) (u_role u) "PAYROLL_RUN_CREATE" "payroll_run" (Some run_id) ;;;
    ret run_id).

(* ------------------------------------------------------------------ *)
(** ** Payroll due                                                     *)
(* ------------------------------------------------------------------ *)

Record due_row := mkdue {
  due_worker_id : uuid;
  due_full_name : string;
  due_payout : FREQ;
  due_period_start : date;
  due_period_end : date;
  due_approved_combed_kg : Q;
  due_approved_woven_m : Q;
  due_approved_total_pay_ngn : Q
}.

(** [coalesce(sum(case when cond then val else 0 end), 0)] *)
Definition sum_case {A} (cond : A -> bool) (val : A -> Q) (rows : list A) : Q :=
  fold_right (fun r acc => ((if cond r then val r else 0) + acc)%Q) 0%Q rows.

Definition code_in (codes : list string) (ty : task_type_row) : bool :=
  existsb (String.eqb (tt_code ty)) codes.

Definition due_workers (s : store) (u : user) : list worker_row :=
  match u_role u, u_factory_id u with
  | supervisor, Some fid =>
    filter (fun w => w_is_active w
                     && match w_factory_id w with
                        | Some f => (f =? fid)%N
                        | None => false
                        end) (workers s)
  | _, _ => filter w_is_active (workers s)
  end.

(** The aggregate row of the payroll-due query for one worker and period:
    (combed_kg, woven_m, total_pay). *)
Definition due_totals (s : store) (wid : uuid) (pstart pend : date) : Q * Q * Q :=
  let rows := filter (approved_unpaid_in wid pstart pend) (tasks_days_types s) in
  let amount r := (wt_quantity (col0 r) * tt_rate_ngn_per_unit (col2 r))%Q in
  let qty (r : work_task_row * work_day_row * task_type_row) := wt_quantity (col0 r) in
  (sum_case (fun r => code_in ["COMBING"]%string (col2 r)) qty rows,
   sum_case (fun r => code_in ["WEAVING"; "TWISTING"]%string (col2 r)) qty rows,
   (sum_case (fun r => code_in ["COMBING"]%string (col2 r)) amount rows
    + sum_case (fun r => code_in ["WEAVING"; "TWISTING"]%string (col2 r)) amount rows
    + sum_case (fun r => negb (code_in ["COMBING"; "WEAVING"; "TWISTING"]%string (col2 r)))
               amount rows)%Q).

(** One turn of the loop of [payroll_due]: the entries appended for [r]. *)
Definition due_entry (s : store) (as_of : date) (r : worker_row) : list due_row :=
  match w_payout_anchor_date r with
  | None => []
  | Some anchor =>
    let p := compute_period (w_payout r) anchor as_of in
    let pstart := fst p in
    let pend := snd p in
    if date_ltb as_of pend then []
    else
      let x := due_totals s (w_id r) pstart pend in
      let total_pay := col2 x in
      if Qlt_bool 0 total_pay then
        [mkdue (w_id r) (w_full_name r) (w_payout r) pstart pend
               (col0 x) (col1 x) total_pay]
      else []
  end.

Definition payroll_due (as_of : date) (u : user) : tx (list due_row) :=
  begin (
    wrows <- gets (fun s => due_workers s u) ;;
    for_fold wrows [] (fun due r =>
      entry <- gets (fun s => due_entry s as_of r) ;;
      ret (due ++ entry))).

(* ------------------------------------------------------------------ *)
(** ** Predicates on stored data used by the statements               *)
(* ------------------------------------------------------------------ *)

(** The work day [day_id] exists and is closed. *)
Definition day_closed (s : store) (day_id : uuid) : Prop :=
  (exists d, In d (work_days s) /\ wd_id d = day_id) /\
  (forall d, In d (work_days s) -> wd_id d = day_id -> wd_is_closed d = true).

(** The task [tid] exists, belongs to a stored work day, and that day is
    closed. *)
Definition task_on_closed_day (s : store) (tid : uuid) : Prop :=
  (exists t d, In t (work_tasks s) /\ wt_id t = tid /\
               In d (work_days s) /\ wd_id d = wt_work_day_id t) /\
  (forall t d, In t (work_tasks s) -> wt_id t = tid ->
               In d (work_days s) -> wd_id d = wt_work_day_id t ->
               wd_is_closed d = true).

(** Every stored row of task [tid] carries a paid-run reference. *)
Definition task_paid (s : store) (tid : uuid) : Prop :=
  forall t, In t (work_tasks s) -> wt_id t = tid -> wt_paid_run_id t <> None.

(** HTTP 409, the status the code raises for an already paid task. *)
Definition HTTP_409_CONFLICT : Z := 409.

Definition is_conflict (e : exn) : bool :=
  match e with
  | HTTPException c _ => c =? HTTP_409_CONFLICT
  | _ => false
  end.

(* ------------------------------------------------------------------ *)
(** ** A small factory to evaluate the endpoints on                    *)
(* ------------------------------------------------------------------ *)

Module Sample.

Definition boss : user := mkuser 900 admin None.

Definition combing : task_type_row := mktasktype 10 "COMBING" 100 100.
Definition weaving : task_type_row := mktasktype 11 "WEAVING" 5 5.

(** A worker paid weekly from Monday 2024-01-01. *)
Definition ada : worker_row :=
  mkworker 1 "Ada" weekly (Some (mkdate 2024 1 1)) None true.

Definition wednesday : work_day_row := mkworkday 20 1 (mkdate 2024 1 3) 900 false.

(** The same day after it has been closed. *)
Definition wednesday_closed : work_day_row :=
  mkworkday 20 1 (mkdate 2024 1 3) 900 true.

Definition task (id : uuid) (qty : Q) (st : STATUS) (pay : Q) (paid : option uuid)
  : work_task_row :=
  mkworktask id 20 10 qty None st None None None pay paid
             (match paid with Some _ => Some 0 | None => None end) None None.

Definition factory (rates : list worker_rate_row) (day : work_day_row)
    (tasks : list work_task_row) : store :=
  mkstore [ada] [combing; weaving] rates [day] tasks [] [] [].

End Sample.

(* ------------------------------------------------------------------ *)
(** ** Worker rates                                                    *)
(* ------------------------------------------------------------------ *)

Definition set_worker_rates (s : store) (rs : list worker_rate_row) : store :=
  mkstore (workers s) (task_types s) rs (work_days s) (work_tasks s)
          (payroll_runs s) (payroll_run_items s) (audit_logs s).

Definition set_work_days (s : store) (ds : list work_day_row) : store :=
  mkstore (workers s) (task_types s) (worker_rates s) ds (work_tasks s)
          (payroll_runs s) (payroll_run_items s) (audit_logs s).

Record WorkerRateUpsertIn := mkrateupsert {
  ru_worker_id : uuid;
  ru_task_type_id : uuid;
  ru_rate_ngn : Q
}.

(** [insert into worker_rates (worker_id, task_type_id, rate_ngn) ...
    on conflict (worker_id, task_type_id) do update set rate_ngn =
    excluded.rate_ngn] *)
Definition upsert_rate_rows (w t : uuid) (r : Q) (rows : list worker_rate_row)
  : list worker_rate_row :=
  let hit x := ((wr_worker_id x =? w)%N && (wr_task_type_id x =? t)%N) in
  if existsb hit rows
  then map (fun x => if hit x
                     then mkworkerrate (wr_worker_id x) (wr_task_type_id x) r
                     else x) rows
  else rows ++ [mkworkerrate w t r].

Definition upsert_worker_rate (body : WorkerRateUpsertIn) : tx unit :=
  begin (
    modify (fun s => set_worker_rates s
      (upsert_rate_rows (ru_worker_id body) (ru_task_type_id body) (ru_rate_ngn body)
                        (worker_rates s)))).

(* ------------------------------------------------------------------ *)
(** ** Closing and reopening a day                                     *)
(* ------------------------------------------------------------------ *)

(** [update work_days set is_closed = :c ... where id = :id]; the columns
    [closed_by] and [closed_at] are not among the represented ones. *)
Definition set_day_closed (work_day_id : uuid) (c : bool) (s : store) : store :=
  set_work_days s
    (map (fun d => if (wd_id d =? work_day_id)%N
                   then mkworkday (wd_id d) (wd_worker_id d) (wd_work_date d)
                                  (wd_logged_by d) c
                   else d)
         (work_days s)).

Definition close_day (work_day_id : uuid) (u : user) : tx unit :=
  begin (
    wd <- gets (fun s => fetchone
             (map wd_is_closed
                  (filter (fun d => (wd_id d =? work_day_id)%N) (work_days s)))) ;;
    match wd with
    | None => raise (HTTPException 404 "Work day not found")
    | Some true => ret tt
    | Some false =>
      modify (set_day_closed work_day_id true) ;;;
      audit (u_id u) (u_role u) "WORKDAY_CLOSE" "work_day" (Some work_day_id)
    end).

Definition reopen_day (work_day_id : uuid) (u : user) : tx unit :=
  begin (
    wd <- gets (fun s => fetchone
             (map wd_is_closed
                  (filter (fun d => (wd_id d =? work_day_id)%N) (work_days s)))) ;;
    match wd with
    | None => raise (HTTPException 404 "Work day not found")
    | Some false => ret tt
    | Some true =>
      modify (set_day_closed work_day_id false) ;;;
      audit (u_id u) (u_role u) "WORKDAY_REOPEN" "work_day" (Some work_day_id)
    end).

(* ------------------------------------------------------------------ *)
(** ** Predicates for the further properties                           *)
(* ------------------------------------------------------------------ *)

(** The row test and the row update of the rate upsert. *)
Definition rate_hit (w t : uuid) (x : worker_rate_row) : bool :=
  (wr_worker_id x =? w)%N && (wr_task_type_id x =? t)%N.

Definition rate_set (w t : uuid) (r : Q) (x : worker_rate_row) : worker_rate_row :=
  if rate_hit w t x then mkworkerrate (wr_worker_id x) (wr_task_type_id x) r else x.

(** A property of the store that a piece of code keeps, whether it returns
    or raises. *)
Definition keeps {A} (P : store -> Prop) (m : tx A) : Prop :=
  forall s, P s -> P (snd (m s)).

(** What a decision leaves alone in a task: everything but the status, the
    decision metadata and the settled pay. *)
Definition task_skeleton (t : work_task_row)
  : uuid * uuid * uuid * Q * option string * option uuid * option Z
    * option Z * option uuid :=
  (wt_id t, wt_work_day_id t, wt_task_type_id t, wt_quantity t, wt_note t,
   wt_paid_run_id t, wt_paid_at t, wt_updated_at t, wt_updated_by t).

(** [s'] differs from [s] at most in the decision columns of tasks and in the
    audit log. *)
Definition decision_frame (s s' : store) : Prop :=
  workers s' = workers s /\ task_types s' = task_types s /\
  worker_rates s' = worker_rates s /\ work_days s' = work_days s /\
  payroll_runs s' = payroll_runs s /\ payroll_run_items s' = payroll_run_items s /\
  map task_skeleton (work_tasks s') = map task_skeleton (work_tasks s).

Definition quantities_nonneg (s : store) : Prop :=
  forall t, In t (work_tasks s) -> (0 <= wt_quantity t)%Q.

(** Every stored row of task [tid] has been decided. *)
Definition task_decided (s : store) (tid : uuid) : Prop :=
  forall t, In t (work_tasks s) -> wt_id t = tid -> wt_status t <> pending.

(** The pay a single decision settles for the fetched task and type rows. *)
Definition decided_pay (d : decision) (wt : work_task_row) (ty : task_type_row) : Q :=
  match d with
  | decide_approved => quantize_half_up (wt_quantity wt * tt_rate_ngn_per_unit ty)
  | decide_rejected => 0%Q
  end.

Definition settled_pay (d : decision) (quantity rate : Q) : Q :=
  match d with
  | decide_approved => quantize_half_up (quantity * rate)
  | decide_rejected => 0%Q
  end.

(** The single decision finds task [tid] on an open day, with a task type
    and without paid-run reference; [quantity] and [rate] are the task's
    quantity and the type's [rate_ngn_per_unit]. *)
Definition open_for_decision (s : store) (tid : uuid) (quantity rate : Q) : Prop :=
  fetchone (task_day_closed_rows s tid) = Some false /\
  exists wt ty,
    fetchone (filter (fun p => (wt_id (fst p) =? tid)%N) (tasks_with_types s))
    = Some (wt, ty) /\
    wt_paid_run_id wt = None /\ wt_quantity wt = quantity /\
    tt_rate_ngn_per_unit ty = rate.

(** The row update of closing or reopening day [x]. *)
Definition day_flag (x : uuid) (c : bool) (d : work_day_row) : work_day_row :=
  if (wd_id d =? x)%N
  then mkworkday (wd_id d) (wd_worker_id d) (wd_work_date d) (wd_logged_by d) c
  else d.

(** Task [tid] exists and every stored row of it is logged on day [day_id]. *)
Definition task_on_day (s : store) (tid day_id : uuid) : Prop :=
  (exists t, In t (work_tasks s) /\ wt_id t = tid) /\
  (forall t, In t (work_tasks s) -> wt_id t = tid -> wt_work_day_id t = day_id).

(** The work day [day_id] exists and is open. *)
Definition day_open (s : store) (day_id : uuid) : Prop :=
  (exists d, In d (work_days s) /\ wd_id d = day_id) /\
  (forall d, In d (work_days s) -> wd_id d = day_id -> wd_is_closed d = false).


(* ------------------------------------------------------------------ *)
(** ** Day views with their rubrics                                    *)
(* ------------------------------------------------------------------ *)

Record task_view := mktaskview {
  tv_id : uuid;
  tv_code : string;
  tv_quantity : Q;
  tv_status : STATUS;
  tv_approved_pay_ngn : Q;
  tv_note : option string;
  tv_decided_at : option Z;
  tv_decision_reason : option string
}.

Record day_view := mkdayview {
  dv_work_day_id : uuid;
  dv_work_date : date;
  dv_rubric_logged : rubric;
  dv_rubric_approved : rubric;
  dv_is_closed : bool;
  dv_tasks : list task_view
}.

(** [select ... from work_tasks wt join task_types tt on tt.id =
    wt.task_type_id where wt.work_day_id = :wd] *)
Definition day_tasks (s : store) (day_id : uuid)
  : list (work_task_row * task_type_row) :=
  filter (fun p => (wt_work_day_id (fst p) =? day_id)%N) (tasks_with_types s).

Definition code_is (code : string) (p : work_task_row * task_type_row) : bool :=
  String.eqb (tt_code (snd p)) code.

Definition is_approved (p : work_task_row * task_type_row) : bool :=
  STATUS_eqb (wt_status (fst p)) approved.

(** One turn of the loop of [get_worker_days]: the entry built for day [d]. *)
Definition day_view_of (s : store) (d : work_day_row) : day_view :=
  let tasks := day_tasks s (wd_id d) in
  let quantity (p : work_task_row * task_type_row) := wt_quantity (fst p) in
  let combed_logged :=
    py_sum (PyInt 0) (map quantity (filter (code_is "COMBING") tasks)) in
  let woven_logged :=
    py_sum (PyInt 0) (map quantity (filter (code_is "WEAVING") tasks)) in
  let rubric_logged :=
    rubric_from_logged (pynum_value combed_logged) (pynum_value woven_logged) in
  let combed_appr :=
    py_sum (PyInt 0)
      (map quantity (filter (fun p => code_is "COMBING" p && is_approved p) tasks)) in
  let woven_appr :=
    py_sum (PyInt 0)
      (map quantity (filter (fun p => code_is "WEAVING" p && is_approved p) tasks)) in
  let rubric_approved :=
    rubric_from_logged (pynum_value combed_appr) (pynum_value woven_appr) in
  mkdayview (wd_id d) (wd_work_date d) rubric_logged rubric_approved (wd_is_closed d)
    (map (fun p => mktaskview (wt_id (fst p)) (tt_code (snd p)) (wt_quantity (fst p))
                     (wt_status (fst p)) (wt_approved_pay_ngn (fst p))
                     (wt_note (fst p)) (wt_decided_at (fst p))
                     (wt_decision_reason (fst p)))
         tasks).

(** [where wd.worker_id = :wid [and wd.work_date >= :s] [and wd.work_date <= :e]] *)
Definition worker_day_filter (worker_id : uuid) (start end_ : option date)
    (d : work_day_row) : bool :=
  (wd_worker_id d =? worker_id)%N
  && match start with Some st => date_leb st (wd_work_date d) | None => true end
  && match end_ with Some en => date_leb (wd_work_date d) en | None => true end.

Definition get_worker_days (worker_id : uuid) (start end_ : option date) (u : user)
  : tx (list day_view) :=
  begin (
    days <- gets (fun s => filter (worker_day_filter worker_id start end_)
                                  (work_days s)) ;;
    for_fold days [] (fun out d =>
      v <- gets (fun s => day_view_of s d) ;;
      ret (out ++ [v]))).

(** The sum of a list of decimals. *)
Definition sumQ (xs : list Q) : Q := fold_right Qplus 0%Q xs.

(* ------------------------------------------------------------------ *)
(** ** The approval queue                                              *)
(* ------------------------------------------------------------------ *)

Record PendingOut := mkpendingout {
  pq_task_id : uuid;
  pq_work_date : date;
  pq_worker_id : uuid;
  pq_worker_name : string;
  pq_task_code : string;
  pq_quantity : Q;
  pq_note : option string;
  pq_status : STATUS
}.

(** [work_tasks wt join work_days wd ... join workers w on w.id =
    wd.worker_id join task_types tt ...] *)
Definition tasks_days_types_workers (s : store)
  : list (work_task_row * work_day_row * task_type_row * worker_row) :=
  flat_map (fun r =>
    map (fun w => (r, w))
        (filter (fun w => (w_id w =? wd_worker_id (snd (fst r)))%N) (workers s)))
    (tasks_days_types s).

(** The [where] clause as [pending_tasks] assembles it: the status test,
    then one conjunct per given parameter, then the supervisor's scope. *)
Definition pending_filter (worker_id : option uuid) (start end_ : option date)
    (u : user) (r : work_task_row * work_day_row * task_type_row * worker_row)
  : bool :=
  let '(wt, wd, _, _) := r in
  STATUS_eqb (wt_status wt) pending
  && match worker_id with Some wid => (wd_worker_id wd =? wid)%N | None => true end
  && match start with Some st => date_leb st (wd_work_date wd) | None => true end
  && match end_ with Some en => date_leb (wd_work_date wd) en | None => true end
  && match u_role u with
     | supervisor => (wd_logged_by wd =? u_id u)%N
     | admin => true
     end.

Definition pending_out (r : work_task_row * work_day_row * task_type_row * worker_row)
  : PendingOut :=
  let '(wt, wd, ty, w) := r in
  mkpendingout (wt_id wt) (wd_work_date wd) (wd_worker_id wd) (w_full_name w)
               (tt_code ty) (wt_quantity wt) (wt_note wt) (wt_status wt).

Definition pending_tasks (worker_id : option uuid) (start end_ : option date)
    (u : user) : tx (list PendingOut) :=
  rows <- begin (gets (fun s =>
            filter (pending_filter worker_id start end_ u)
                   (tasks_days_types_workers s))) ;;
  ret (map pending_out rows).

(** Primary keys: no two tasks and no two days share an identifier. *)
Definition keys_unique (s : store) : Prop :=
  NoDup (map wt_id (work_tasks s)) /\ NoDup (map wd_id (work_days s)).

(* ------------------------------------------------------------------ *)
(** ** Opening a work day                                              *)
(* ------------------------------------------------------------------ *)

Definition date_eqb (a b : date) : bool :=
  (year a =? year b) && (month a =? month b) && (day a =? day b).

(** [workstation_id] and [day_note] are not among the represented columns. *)
Record WorkDayCreateIn := mkdaycreate {
  dc_worker_id : uuid;
  dc_work_date : date
}.

(** The conflict target of the upsert: [(worker_id, work_date)]. *)
Definition same_day_key (body : WorkDayCreateIn) (d : work_day_row) : bool :=
  (wd_worker_id d =? dc_worker_id body)%N && date_eqb (wd_work_date d) (dc_work_date body).

(** [create_work_day]: [insert into work_days (worker_id, work_date,
    logged_by, ...) ... on conflict (worker_id, work_date) do update set
    workstation_id = ..., day_note = ... returning id].  On a conflict only
    columns outside the represented ones are rewritten; [fresh] is the
    identifier the table would draw for a new row, which starts open. *)
Definition create_work_day (fresh : uuid) (body : WorkDayCreateIn) (u : user)
  : tx uuid :=
  begin (
    existing <- gets (fun s => fetchone (filter (same_day_key body) (work_days s))) ;;
    row <- match existing with
           | Some d => ret (wd_id d)
           | None =>
             modify (fun s => set_work_days s
               (work_days s ++
                [mkworkday fresh (dc_worker_id body) (dc_work_date body) (u_id u) false])) ;;;
             ret fresh
           end ;;
    audit (u_id u) (u_role u) "WORKDAY_UPSERT" "work_day" (Some row) ;;;
    ret row).

(* ------------------------------------------------------------------ *)
(** ** Stored anchors                                                  *)
(* ------------------------------------------------------------------ *)

(** Every stored anchor is a calendar date, and the anchor of a monthly
    worker falls on a day every month has. *)
Definition anchors_regular (s : store) : Prop :=
  forall w a, In w (workers s) -> w_payout_anchor_date w = Some a ->
    valid_date a /\ (w_payout w = monthly -> day a <= 28).
(* ------------------------------------------------------------------ *)
(** ** Calendar facts                                                  *)
(* ------------------------------------------------------------------ *)

Lemma month_cases m : 1 <= m <= 12 ->
  m = 1 \/ m = 2 \/ m = 3 \/ m = 4 \/ m = 5 \/ m = 6 \/
  m = 7 \/ m = 8 \/ m = 9 \/ m = 10 \/ m = 11 \/ m = 12.
Proof. lia. Qed.

Ltac split_month H :=
  apply month_cases in H;
  repeat (destruct H as [H | H]); subst.

Section CalendarFacts.

Lemma valid_dateb_spec d : valid_dateb d = true <-> valid_date d.
Proof.
  unfold valid_dateb, valid_date.
  rewrite !andb_true_iff, !Z.leb_le. tauto.
Qed.

Lemma monthrange_last_bounds y m : 28 <= monthrange_last y m <= 31.
Proof.
  unfold monthrange_last.
  destruct m as [|p|p]; try lia.
  do 4 (try destruct p as [p|p|]; try lia); destruct (is_leap y); lia.
Qed.

Lemma days_before_year_succ y :
  days_before_year (y + 1) = days_before_year y + 365 + (if is_leap y then 1 else 0).
Proof.
  unfold days_before_year, is_leap.
  replace (y + 1 - 1) with y by lia.
  destruct (y mod 4 =? 0) eqn:E4; destruct (y mod 100 =? 0) eqn:E100;
    destruct (y mod 400 =? 0) eqn:E400; cbn [andb orb negb];
    rewrite ?Z.eqb_eq, ?Z.eqb_neq in *;
    Z.div_mod_to_equations; lia.
Qed.

Lemma days_before_year_mono y1 y2 :
  y1 <= y2 -> days_before_year y1 <= days_before_year y2.
Proof.
  unfold days_before_year. intros. Z.div_mod_to_equations. lia.
Qed.

Lemma days_before_month_succ y m : 1 <= m < 12 ->
  days_before_month y (m + 1) = days_before_month y m + monthrange_last y m.
Proof.
  intros H. assert (H' : 1 <= m <= 12) by lia.
  split_month H'; try lia; cbn; destruct (is_leap y); lia.
Qed.

Lemma days_before_month_last y :
  days_before_month y 12 + 31 = 365 + (if is_leap y then 1 else 0).
Proof. cbn. destruct (is_leap y); lia. Qed.

Lemma days_before_month_mono y m1 m2 :
  1 <= m1 -> m1 < m2 -> m2 <= 12 ->
  days_before_month y m1 + monthrange_last y m1 <= days_before_month y m2.
Proof.
  intros H1 H2 H3.
  assert (Ha : 1 <= m1 <= 12) by lia. assert (Hb : 1 <= m2 <= 12) by lia.
  split_month Ha; split_month Hb; try lia; cbn; destruct (is_leap y); lia.
Qed.

Lemma days_before_month_range y m : 1 <= m <= 12 ->
  0 <= days_before_month y m /\
  days_before_month y m + monthrange_last y m <= 365 + (if is_leap y then 1 else 0).
Proof.
  intros H. split_month H; cbn; destruct (is_leap y); lia.
Qed.

Lemma toordinal_next_day d : valid_date d ->
  valid_date (next_day d) /\ toordinal (next_day d) = toordinal d + 1.
Proof.
  destruct d as [y m dd]. unfold valid_date, next_day, toordinal. cbn [year month day].
  intros [Hm Hd].
  destruct (dd <? monthrange_last y m) eqn:E1; cbn [year month day].
  - apply Z.ltb_lt in E1. split; lia.
  - apply Z.ltb_ge in E1. assert (dd = monthrange_last y m) by lia. subst dd.
    destruct (m <? 12) eqn:E2; cbn [year month day].
    + apply Z.ltb_lt in E2. rewrite days_before_month_succ by lia.
      pose proof (monthrange_last_bounds y (m + 1)). split; lia.
    + apply Z.ltb_ge in E2. assert (m = 12) by lia. subst m.
      rewrite days_before_year_succ.
      pose proof (days_before_month_last y).
      change (monthrange_last y 12) with 31.
      change (days_before_month (y + 1) 1) with 0.
      change (monthrange_last (y + 1) 1) with 31. split; lia.
Qed.

Lemma toordinal_prev_day d : valid_date d ->
  valid_date (prev_day d) /\ toordinal (prev_day d) = toordinal d - 1.
Proof.
  destruct d as [y m dd]. unfold valid_date, prev_day, toordinal. cbn [year month day].
  intros [Hm Hd].
  destruct (1 <? dd) eqn:E1; cbn [year month day].
  - apply Z.ltb_lt in E1. split; lia.
  - apply Z.ltb_ge in E1. assert (dd = 1) by lia. subst dd.
    destruct (1 <? m) eqn:E2; cbn [year month day].
    + apply Z.ltb_lt in E2.
      pose proof (days_before_month_succ y (m - 1)) as Hs.
      replace (m - 1 + 1) with m in Hs by lia.
      pose proof (monthrange_last_bounds y (m - 1)). split; lia.
    + apply Z.ltb_ge in E2. assert (m = 1) by lia. subst m.
      pose proof (days_before_year_succ (y - 1)) as Hs.
      replace (y - 1 + 1) with y in Hs by lia.
      pose proof (days_before_month_last (y - 1)).
      change (days_before_month y 1) with 0.
      change (monthrange_last (y - 1) 12) with 31. split; lia.
Qed.

Lemma add_days_spec d n : valid_date d ->
  valid_date (add_days d n) /\ toordinal (add_days d n) = toordinal d + n.
Proof.
  intros Hd. destruct n as [|p|p]; cbn [add_days].
  - split; [assumption | lia].
  - pattern p, (Pos.iter next_day d p). apply Pos.iter_ind.
    + destruct (toordinal_next_day d Hd). split; [assumption | lia].
    + intros q a [Ha He]. destruct (toordinal_next_day a Ha). split; [assumption | lia].
  - pattern p, (Pos.iter prev_day d p). apply Pos.iter_ind.
    + destruct (toordinal_prev_day d Hd). split; [assumption | lia].
    + intros q a [Ha He]. destruct (toordinal_prev_day a Ha). split; [assumption | lia].
Qed.

(** On valid dates the tuple order and the ordinal order coincide. *)
Lemma date_ltb_toordinal a b : valid_date a -> valid_date b ->
  date_ltb a b = (toordinal a <? toordinal b).
Proof.
  destruct a as [y1 m1 d1], b as [y2 m2 d2].
  unfold valid_date, date_ltb, toordinal. cbn [year month day].
  intros [Hm1 Hd1] [Hm2 Hd2].
  pose proof (days_before_month_range y1 m1 Hm1) as R1.
  pose proof (days_before_month_range y2 m2 Hm2) as R2.
  destruct (Z.lt_trichotomy y1 y2) as [Hy | [Hy | Hy]].
  - replace (y1 <? y2) with true by (symmetry; apply Z.ltb_lt; lia). cbn [orb].
    symmetry. apply Z.ltb_lt.
    pose proof (days_before_year_succ y1).
    pose proof (days_before_year_mono (y1 + 1) y2 ltac:(lia)). lia.
  - subst y2. rewrite Z.ltb_irrefl, Z.eqb_refl. cbn [orb andb].
    destruct (Z.lt_trichotomy m1 m2) as [Hm | [Hm | Hm]].
    + replace (m1 <? m2) with true by (symmetry; apply Z.ltb_lt; lia). cbn [orb].
      symmetry. apply Z.ltb_lt.
      pose proof (days_before_month_mono y1 m1 m2 ltac:(lia) Hm ltac:(lia)). lia.
    + subst m2. rewrite Z.ltb_irrefl, Z.eqb_refl. cbn [orb andb].
      destruct (d1 <? d2) eqn:E; symmetry.
      * apply Z.ltb_lt in E. apply Z.ltb_lt. lia.
      * apply Z.ltb_ge in E. apply Z.ltb_ge. lia.
    + replace (m1 <? m2) with false by (symmetry; apply Z.ltb_ge; lia).
      replace (m1 =? m2) with false by (symmetry; apply Z.eqb_neq; lia). cbn [orb andb].
      symmetry. apply Z.ltb_ge.
      pose proof (days_before_month_mono y1 m2 m1 ltac:(lia) Hm ltac:(lia)). lia.
  - replace (y1 <? y2) with false by (symmetry; apply Z.ltb_ge; lia).
    replace (y1 =? y2) with false by (symmetry; apply Z.eqb_neq; lia). cbn [orb andb].
    symmetry. apply Z.ltb_ge.
    pose proof (days_before_year_succ y2).
    pose proof (days_before_year_mono (y2 + 1) y1 ltac:(lia)). lia.
Qed.

Lemma date_leb_toordinal a b : valid_date a -> valid_date b ->
  date_leb a b = (toordinal a <=? toordinal b).
Proof.
  intros Ha Hb. unfold date_leb. rewrite (date_ltb_toordinal b a Hb Ha).
  rewrite Z.leb_antisym. reflexivity.
Qed.

End CalendarFacts.

(* ------------------------------------------------------------------ *)
(** ** Facts about the period calculators                              *)
(* ------------------------------------------------------------------ *)

Lemma date_ltb_iff a b :
  date_ltb a b = true <->
  year a < year b \/
  (year a = year b /\ (month a < month b \/ (month a = month b /\ day a < day b))).
Proof.
  unfold date_ltb.
  rewrite !orb_true_iff, !andb_true_iff, !orb_true_iff, !andb_true_iff,
          !Z.ltb_lt, !Z.eqb_eq. tauto.
Qed.

Lemma date_leb_iff a b :
  date_leb a b = true <->
  year a < year b \/
  (year a = year b /\ (month a < month b \/ (month a = month b /\ day a <= day b))).
Proof.
  unfold date_leb. rewrite negb_true_iff.
  destruct (date_ltb b a) eqn:E.
  - apply date_ltb_iff in E. split; [discriminate | lia].
  - split; [intros _ | reflexivity].
    assert (N : ~ (year b < year a \/
      (year b = year a /\ (month b < month a \/ (month b = month a /\ day b < day a))))).
    { intro H. apply date_ltb_iff in H. congruence. }
    lia.
Qed.


Lemma weekly_block_start anchor delta block :
  valid_date anchor -> 0 < block ->
  let start := add_days anchor (delta / block * block) in
  valid_date start /\
  toordinal start <= toordinal anchor + delta < toordinal start + block.
Proof.
  intros Ha Hb start.
  destruct (add_days_spec anchor (delta / block * block) Ha) as [Hv Ho].
  fold start in Hv, Ho. split; [assumption|].
  rewrite Ho. pose proof (Z.mul_div_le delta block Hb).
  pose proof (Z.mul_succ_div_gt delta block Hb). lia.
Qed.

Lemma compute_period_fixed_block freq anchor as_of :
  freq <> monthly -> valid_date anchor -> valid_date as_of ->
  let p := compute_period freq anchor as_of in
  valid_date (fst p) /\ valid_date (snd p) /\
  toordinal (snd p) = toordinal (fst p) + block_of freq - 1 /\
  toordinal (fst p) <= toordinal as_of <= toordinal (snd p).
Proof.
  intros Hf Ha Hs.
  assert (Hcp : compute_period freq anchor as_of =
    let days := block_of freq in
    let delta := days_between as_of anchor in
    let start :=
      if delta <? 0 then add_days anchor (- ((Z.abs delta + days - 1) / days * days))
      else add_days anchor (delta / days * days) in
    (start, add_days start (days - 1))).
  { destruct freq; try reflexivity. contradiction. }
  rewrite Hcp; clear Hcp. cbv zeta. cbn [fst snd].
  assert (Hb : 0 < block_of freq) by (destruct freq; cbn; lia).
  set (days := block_of freq) in *. unfold days_between.
  set (delta := toordinal as_of - toordinal anchor).
  match goal with |- valid_date ?s /\ _ => set (start := s) end.
  assert (Hstart : valid_date start /\
                   toordinal start <= toordinal as_of < toordinal start + days).
  { unfold start. destruct (delta <? 0) eqn:E.
    - apply Z.ltb_lt in E.
      destruct (add_days_spec anchor (- ((Z.abs delta + days - 1) / days * days)) Ha)
        as [Hv Ho]. split; [assumption|]. rewrite Ho.
      pose proof (Z.mul_div_le (Z.abs delta + days - 1) days Hb).
      pose proof (Z.mul_succ_div_gt (Z.abs delta + days - 1) days Hb). lia.
    - apply Z.ltb_ge in E.
      destruct (weekly_block_start anchor delta days Ha Hb) as [Hv Ho].
      split; [assumption | lia]. }
  destruct Hstart as [Hv Hr].
  destruct (add_days_spec start (days - 1) Hv) as [Hv2 Ho2].
  split; [exact Hv|]. split; [exact Hv2|]. unfold delta in *. split; lia.
Qed.

Lemma add_month_after d : valid_date d ->
  valid_date (add_month d) /\ date_ltb d (add_month d) = true /\
  (month d < 12 /\ year (add_month d) = year d /\ month (add_month d) = month d + 1 \/
   month d = 12 /\ year (add_month d) = year d + 1 /\ month (add_month d) = 1).
Proof.
  destruct d as [y m dd]. unfold valid_date, add_month. cbn [year month day].
  intros [Hm Hd].
  assert (C : m < 12 /\ m / 12 = 0 /\ m mod 12 = m \/ m = 12 /\ m / 12 = 1 /\ m mod 12 = 0).
  { destruct (Z.eq_dec m 12) as [->|]; [right; repeat split; reflexivity|].
    left. rewrite Z.div_small, Z.mod_small by lia. lia. }
  pose proof (monthrange_last_bounds (y + m / 12) (m mod 12 + 1)).
  split; [|split].
  - lia.
  - apply date_ltb_iff. cbn [year month day]. lia.
  - lia.
Qed.

Lemma monthly_start_shape anchor as_of :
  valid_date anchor -> valid_date as_of ->
  let s := fst (compute_period monthly anchor as_of) in
  valid_date s /\
  s = anchor_day_in (year s) (month s) (day anchor) /\
  date_leb s as_of = true /\
  (forall y m, 1 <= m <= 12 ->
     date_leb (anchor_day_in y m (day anchor)) as_of = true ->
     date_leb (anchor_day_in y m (day anchor)) s = true).
Proof.
  destruct anchor as [ya ma dom], as_of as [y0 m0 d0].
  unfold valid_date. cbn [year month day]. intros [Hma Hda] [Hm0 Hd0].
  cbn [compute_period fst year month day].
  set (cand := mkdate y0 m0 (Z.min dom (monthrange_last y0 m0))).
  set (yp := if 1 <? m0 then y0 else y0 - 1).
  set (mp := if 1 <? m0 then m0 - 1 else 12).
  assert (Hp : 1 <= mp <= 12 /\
               (yp < y0 \/ (yp = y0 /\ mp < m0)) /\
               forall y m, 1 <= m <= 12 -> (y < y0 \/ (y = y0 /\ m < m0)) ->
                 y < yp \/ (y = yp /\ m < mp) \/ (y = yp /\ m = mp)).
  { unfold yp, mp. destruct (1 <? m0) eqn:E;
      [apply Z.ltb_lt in E | apply Z.ltb_ge in E]; repeat split; intros; lia. }
  destruct Hp as (Hmp & Hlt & Hprev).
  pose proof (monthrange_last_bounds y0 m0) as B0.
  pose proof (monthrange_last_bounds yp mp) as Bp.
  destruct (date_ltb (mkdate y0 m0 d0) cand) eqn:E.
  - (* the anchor day of this month lies after as_of: previous month *)
    apply date_ltb_iff in E. unfold cand in E. cbn [year month day] in E.
    cbn [year month day]. unfold anchor_day_in.
    split; [lia|]. split; [reflexivity|]. split.
    + apply date_leb_iff. cbn [year month day]. lia.
    + intros y m Hm Hle. apply date_leb_iff in Hle. cbn [year month day] in Hle.
      apply date_leb_iff. cbn [year month day].
      assert (Hc : y < y0 \/ (y = y0 /\ m < m0)).
      { destruct Hle as [?|[? [?|[? ?]]]]; try lia.
        subst y m. exfalso. lia. }
      destruct (Hprev y m Hm Hc) as [?|[[? ?]|[? ?]]]; try lia.
      subst y m. lia.
  - assert (N : ~ (y0 < year cand \/ (y0 = year cand /\
                 (m0 < month cand \/ (m0 = month cand /\ d0 < day cand))))).
    { intro H. apply (proj2 (date_ltb_iff (mkdate y0 m0 d0) cand)) in H. congruence. }
    unfold cand in N |- *. cbn [year month day] in N |- *. unfold anchor_day_in.
    split; [lia|]. split; [reflexivity|]. split.
    + apply date_leb_iff. cbn [year month day]. lia.
    + intros y m Hm Hle. apply date_leb_iff in Hle. cbn [year month day] in Hle.
      apply date_leb_iff. cbn [year month day].
      destruct (Z.eq_dec y y0) as [->|]; [|lia].
      destruct (Z.eq_dec m m0) as [->|]; lia.
Qed.

Lemma compute_period_monthly_end anchor as_of :
  valid_date anchor -> valid_date as_of ->
  let p := compute_period monthly anchor as_of in
  snd p = add_days (add_month (fst p)) (-1) /\
  valid_date (snd p) /\ date_leb (fst p) (snd p) = true.
Proof.
  intros Ha Hs p.
  destruct (monthly_start_shape anchor as_of Ha Hs) as (Hv & _).
  fold p in Hv. split; [reflexivity|].
  change (snd p) with (add_days (add_month (fst p)) (-1)).
  destruct (add_month_after (fst p) Hv) as (Hv2 & Hlt & _).
  destruct (add_days_spec (add_month (fst p)) (-1) Hv2) as [Hv3 Ho].
  split; [assumption|].
  rewrite date_leb_toordinal by assumption.
  rewrite date_ltb_toordinal in Hlt by assumption.
  apply Z.ltb_lt in Hlt. apply Z.leb_le. lia.
Qed.

Lemma FREQ_monthly_dec (freq : FREQ) : {freq = monthly} + {freq <> monthly}.
Proof. destruct freq; (left; reflexivity) || (right; discriminate). Qed.

Lemma period_for_worker_fixed_block freq anchor as_of :
  freq <> monthly ->
  period_for_worker freq anchor as_of =
    let block := block_of freq in
    let delta_days := days_between as_of anchor in
    if delta_days <? 0 then
      (anchor, date_min as_of (add_days anchor (block - 1)))
    else
      let start := add_days anchor (delta_days / block * block) in
      let end_ := add_days start (block - 1) in
      (start, if date_ltb as_of end_ then as_of else end_).
Proof. destruct freq; try reflexivity. contradiction. Qed.


Lemma period_for_worker_before_anchor freq anchor as_of :
  freq <> monthly -> valid_date anchor -> valid_date as_of ->
  date_ltb as_of anchor = true ->
  period_for_worker freq anchor as_of = (anchor, as_of).
Proof.
  intros Hf Ha Hs Hlt.
  rewrite (period_for_worker_fixed_block _ _ _ Hf). cbv zeta.
  assert (Hb : 0 < block_of freq) by (destruct freq; cbn; lia).
  set (block := block_of freq) in *. unfold days_between.
  rewrite date_ltb_toordinal in Hlt by assumption. apply Z.ltb_lt in Hlt.
  replace (toordinal as_of - toordinal anchor <? 0) with true
    by (symmetry; apply Z.ltb_lt; lia).
  destruct (add_days_spec anchor (block - 1) Ha) as [Hv Ho].
  unfold date_min. rewrite (date_ltb_toordinal _ as_of Hv Hs).
  replace (toordinal (add_days anchor (block - 1)) <? toordinal as_of) with false
    by (symmetry; apply Z.ltb_ge; lia).
  reflexivity.
Qed.

Lemma period_for_worker_monthly anchor as_of :
  period_for_worker monthly anchor as_of =
    (mkdate (year as_of) (month as_of) 1, as_of).
Proof. reflexivity. Qed.

(** An anchor on the 31st: the start is clamped to 28 February, and the end is
    then taken one month after the clamped day, so that 29 March falls in no
    period at all. *)
Example compute_period_clamped_start_drifts :
  compute_period monthly (mkdate 2023 1 31) (mkdate 2023 3 29)
  = (mkdate 2023 2 28, mkdate 2023 3 27).
Proof. reflexivity. Qed.


(* ------------------------------------------------------------------ *)
(** ** More facts about dates and fixed blocks                         *)
(* ------------------------------------------------------------------ *)

Lemma toordinal_inj a b :
  valid_date a -> valid_date b -> toordinal a = toordinal b -> a = b.
Proof.
  intros Ha Hb E.
  pose proof (date_ltb_toordinal a b Ha Hb) as H1.
  pose proof (date_ltb_toordinal b a Hb Ha) as H2.
  rewrite E, Z.ltb_irrefl in H1, H2.
  assert (N1 : ~ (year a < year b \/ (year a = year b /\
             (month a < month b \/ (month a = month b /\ day a < day b))))).
  { intro H. apply date_ltb_iff in H. congruence. }
  assert (N2 : ~ (year b < year a \/ (year b = year a /\
             (month b < month a \/ (month b = month a /\ day b < day a))))).
  { intro H. apply date_ltb_iff in H. congruence. }
  destruct a as [y1 m1 d1], b as [y2 m2 d2]. cbn [year month day] in *.
  f_equal; lia.
Qed.

Lemma date_leb_ord a b : valid_date a -> valid_date b ->
  (date_leb a b = true <-> toordinal a <= toordinal b).
Proof.
  intros Ha Hb. rewrite date_leb_toordinal by assumption. apply Z.leb_le.
Qed.

Lemma date_ltb_ord a b : valid_date a -> valid_date b ->
  (date_ltb a b = true <-> toordinal a < toordinal b).
Proof.
  intros Ha Hb. rewrite date_ltb_toordinal by assumption. apply Z.ltb_lt.
Qed.

(** The start of a fixed block, in both branches of [compute_period], is the
    anchor moved by the floor of the day offset. *)
Lemma compute_period_fixed_start freq anchor as_of :
  freq <> monthly -> valid_date anchor -> valid_date as_of ->
  let p := compute_period freq anchor as_of in
  let b := block_of freq in
  valid_date (fst p) /\
  toordinal (fst p) = toordinal anchor + (toordinal as_of - toordinal anchor) / b * b /\
  snd p = add_days (fst p) (b - 1).
Proof.
  intros Hf Ha Hs.
  assert (Hcp : compute_period freq anchor as_of =
    let days := block_of freq in
    let delta := days_between as_of anchor in
    let start :=
      if delta <? 0 then add_days anchor (- ((Z.abs delta + days - 1) / days * days))
      else add_days anchor (delta / days * days) in
    (start, add_days start (days - 1))).
  { destruct freq; try reflexivity. contradiction. }
  rewrite Hcp; clear Hcp. cbv zeta. cbn [fst snd].
  assert (Hb : 0 < block_of freq) by (destruct freq; cbn; lia).
  set (days := block_of freq) in *. unfold days_between.
  set (delta := toordinal as_of - toordinal anchor).
  destruct (delta <? 0) eqn:E.
  - apply Z.ltb_lt in E.
    destruct (add_days_spec anchor (- ((Z.abs delta + days - 1) / days * days)) Ha)
      as [Hv Ho].
    split; [exact Hv|]. split; [|reflexivity]. rewrite Ho.
    assert (Hq : (Z.abs delta + days - 1) / days = - (delta / days)).
    { replace (Z.abs delta) with (- delta) by lia.
      pose proof (Z.div_mod delta days ltac:(lia)) as D.
      pose proof (Z.mod_pos_bound delta days Hb) as M.
      symmetry. apply (Z.div_unique _ _ _ (days - 1 - delta mod days)); lia. }
    rewrite Hq. lia.
  - destruct (add_days_spec anchor (delta / days * days) Ha) as [Hv Ho].
    split; [exact Hv|]. split; [exact Ho | reflexivity].
Qed.

Lemma date_ltb_irrefl a : date_ltb a a = false.
Proof.
  destruct (date_ltb a a) eqn:E; [|reflexivity].
  apply date_ltb_iff in E. lia.
Qed.

Lemma period_for_worker_end freq anchor as_of :
  valid_date anchor -> valid_date as_of ->
  snd (period_for_worker freq anchor as_of) = as_of.
Proof.
  intros Ha Hs.
  destruct (FREQ_monthly_dec freq) as [->|Hf]; [reflexivity|].
  destruct (date_ltb as_of anchor) eqn:L.
  - rewrite (period_for_worker_before_anchor freq anchor as_of Hf Ha Hs L). reflexivity.
  - rewrite (period_for_worker_fixed_block _ _ _ Hf). cbv zeta.
    assert (Hb : 0 < block_of freq) by (destruct freq; cbn; lia).
    set (block := block_of freq) in *. unfold days_between.
    rewrite date_ltb_toordinal in L by assumption. apply Z.ltb_ge in L.
    set (delta := toordinal as_of - toordinal anchor).
    replace (delta <? 0) with false by (symmetry; apply Z.ltb_ge; unfold delta; lia).
    destruct (weekly_block_start anchor delta block Ha Hb) as [Hv Ho].
    set (start := add_days anchor (delta / block * block)) in *.
    destruct (add_days_spec start (block - 1) Hv) as [Hv2 Ho2].
    cbn [snd].
    destruct (date_ltb as_of (add_days start (block - 1))) eqn:E; [reflexivity|].
    rewrite date_ltb_toordinal in E by assumption. apply Z.ltb_ge in E.
    apply toordinal_inj; try assumption. unfold delta in Ho. lia.
Qed.

Lemma period_for_worker_start freq anchor as_of :
  freq <> monthly -> valid_date anchor -> valid_date as_of ->
  date_leb anchor as_of = true ->
  fst (period_for_worker freq anchor as_of) = fst (compute_period freq anchor as_of).
Proof.
  intros Hf Ha Hs Hle.
  apply date_leb_ord in Hle; try assumption.
  assert (E : (days_between as_of anchor <? 0) = false).
  { apply Z.ltb_ge. unfold days_between. lia. }
  destruct freq; try contradiction;
    cbn [period_for_worker compute_period]; rewrite E; reflexivity.
Qed.

Lemma compute_period_fixed_stable freq anchor as_of x :
  freq <> monthly -> valid_date anchor -> valid_date as_of -> valid_date x ->
  date_leb (fst (compute_period freq anchor as_of)) x = true ->
  date_leb x (snd (compute_period freq anchor as_of)) = true ->
  compute_period freq anchor x = compute_period freq anchor as_of.
Proof.
  intros Hf Ha Hs Hx H1 H2.
  destruct (compute_period_fixed_start freq anchor as_of Hf Ha Hs) as (Hv & Ho & He).
  destruct (compute_period_fixed_start freq anchor x Hf Ha Hx) as (Hv' & Ho' & He').
  destruct (compute_period_fixed_block freq anchor as_of Hf Ha Hs) as (_ & Hve & Hl & _).
  assert (Hb : 0 < block_of freq) by (destruct freq; cbn; lia).
  apply date_leb_ord in H1; try assumption.
  apply date_leb_ord in H2; try assumption.
  set (b := block_of freq) in *.
  set (k := (toordinal as_of - toordinal anchor) / b) in *.
  assert (Hk : (toordinal x - toordinal anchor) / b = k).
  { symmetry. apply (Z.div_unique _ _ _ (toordinal x - toordinal anchor - k * b)); lia. }
  assert (Hst : fst (compute_period freq anchor x) = fst (compute_period freq anchor as_of)).
  { apply toordinal_inj; try assumption. rewrite Ho, Ho', Hk. reflexivity. }
  rewrite (surjective_pairing (compute_period freq anchor x)).
  rewrite (surjective_pairing (compute_period freq anchor as_of)).
  rewrite He', He, Hst. reflexivity.
Qed.

Lemma compute_period_monthly_on_anchor_day anchor y m :
  1 <= day anchor <= 28 ->
  fst (compute_period monthly anchor (mkdate y m (day anchor))) = mkdate y m (day anchor).
Proof.
  intros H. cbn [compute_period fst year month day].
  pose proof (monthrange_last_bounds y m).
  rewrite Z.min_l by lia. rewrite date_ltb_irrefl. reflexivity.
Qed.

Lemma compute_period_monthly_small_anchor anchor as_of :
  valid_date anchor -> valid_date as_of -> day anchor <= 28 ->
  let p := compute_period monthly anchor as_of in
  day (fst p) = day anchor /\
  date_leb (fst p) as_of = true /\ date_leb as_of (snd p) = true /\
  add_days (snd p) 1 = add_month (fst p) /\
  day (add_month (fst p)) = day anchor.
Proof.
  intros Ha Hs Hd p.
  destruct (monthly_start_shape anchor as_of Ha Hs) as (Hv & Hshape & Hle & Hrecent).
  destruct (compute_period_monthly_end anchor as_of Ha Hs) as (Hend & Hve & _).
  fold p in Hv, Hshape, Hle, Hrecent, Hend, Hve.
  destruct (add_month_after (fst p) Hv) as (Hvn & Hlt & Hnext).
  assert (Hday : day (fst p) = day anchor).
  { rewrite Hshape. unfold anchor_day_in. cbn [day].
    pose proof (monthrange_last_bounds (year (fst p)) (month (fst p))). lia. }
  assert (Hnx : add_month (fst p)
                = anchor_day_in (year (add_month (fst p))) (month (add_month (fst p)))
                                (day anchor)).
  { unfold add_month, anchor_day_in. cbn [year month day]. rewrite Hday. reflexivity. }
  assert (Hdn : day (add_month (fst p)) = day anchor).
  { rewrite Hnx. unfold anchor_day_in. cbn [day].
    pose proof (monthrange_last_bounds (year (add_month (fst p)))
                                       (month (add_month (fst p)))). lia. }
  destruct (add_days_spec (add_month (fst p)) (-1) Hvn) as [Hv3 Ho3].
  rewrite <- Hend in Hv3, Ho3.
  destruct (add_days_spec (snd p) 1 Hve) as [Hv4 Ho4].
  split; [exact Hday|]. split; [exact Hle|]. split; [|split; [|exact Hdn]].
  - apply date_leb_ord; try assumption.
    assert (L : date_ltb as_of (add_month (fst p)) = true).
    { destruct (date_ltb as_of (add_month (fst p))) eqn:E; [reflexivity|].
      assert (Hm : 1 <= month (add_month (fst p)) <= 12) by (destruct Hvn; assumption).
      assert (Hc : date_leb (add_month (fst p)) as_of = true)
        by (unfold date_leb; rewrite E; reflexivity).
      rewrite Hnx in Hc. apply (Hrecent _ _ Hm) in Hc. rewrite <- Hnx in Hc.
      unfold date_leb in Hc. rewrite Hlt in Hc. discriminate. }
    apply date_ltb_ord in L; try assumption. lia.
  - apply toordinal_inj; try assumption. lia.
Qed.

(* ------------------------------------------------------------------ *)
(** ** Facts about the rubric evaluator                                *)
(* ------------------------------------------------------------------ *)

Lemma Qlt_bool_iff a b : Qlt_bool a b = true <-> (a < b)%Q.
Proof.
  unfold Qlt_bool. rewrite negb_true_iff.
  destruct (Qle_bool b a) eqn:E.
  - apply Qle_bool_iff in E. split; [discriminate|].
    intros H. exfalso. apply (Qlt_not_le _ _ H E).
  - split; [intros _ | reflexivity].
    apply Qnot_le_lt. intro H. apply Qle_bool_iff in H. congruence.
Qed.

Lemma Qlt_bool_false_iff a b : Qlt_bool a b = false <-> (b <= a)%Q.
Proof.
  unfold Qlt_bool. rewrite negb_false_iff. apply Qle_bool_iff.
Qed.

Lemma weaving_needed_cases a b :
  ((a < 1)%Q ->
   weaving_needed_m (rubric_from_logged a b) = ((1 - a) * METRES_PER_KG_EQUIV)%Q) /\
  ((1 <= a)%Q -> weaving_needed_m (rubric_from_logged a b) = 0%Q).
Proof.
  unfold rubric_from_logged. cbn [weaving_needed_m]. split; intros H.
  - rewrite (proj2 (Qlt_bool_iff a 1) H).
    assert (Hw : (0 <= (1 - a) * METRES_PER_KG_EQUIV)%Q).
    { apply Qmult_le_0_compat; [|unfold METRES_PER_KG_EQUIV; discriminate].
      apply Qlt_le_weak in H. unfold Qminus. rewrite <- (Qplus_opp_r a).
      apply Qplus_le_compat; [exact H | apply Qle_refl]. }
    rewrite (proj2 (Qlt_bool_false_iff _ 0) Hw). reflexivity.
  - rewrite (proj2 (Qlt_bool_false_iff a 1) H). reflexivity.
Qed.

Lemma combing_needed_cases a b :
  ((b < METRES_PER_KG_EQUIV)%Q ->
   combing_needed_kg (rubric_from_logged a b)
   = ((METRES_PER_KG_EQUIV - b) / METRES_PER_KG_EQUIV)%Q) /\
  ((METRES_PER_KG_EQUIV <= b)%Q -> combing_needed_kg (rubric_from_logged a b) = 0%Q).
Proof.
  unfold rubric_from_logged. cbn [combing_needed_kg]. split; intros H.
  - rewrite (proj2 (Qlt_bool_iff b _) H).
    assert (Hc : (0 <= (METRES_PER_KG_EQUIV - b) / METRES_PER_KG_EQUIV)%Q).
    { unfold Qdiv. apply Qmult_le_0_compat; [|unfold METRES_PER_KG_EQUIV; discriminate].
      apply Qlt_le_weak in H. unfold Qminus. rewrite <- (Qplus_opp_r b).
      apply Qplus_le_compat; [exact H | apply Qle_refl]. }
    rewrite (proj2 (Qlt_bool_false_iff _ 0) Hc). reflexivity.
  - rewrite (proj2 (Qlt_bool_false_iff b _) H). reflexivity.
Qed.

(* ------------------------------------------------------------------ *)
(** ** Facts about queries                                             *)
(* ------------------------------------------------------------------ *)

Lemma in_tasks_with_days s t d :
  In (t, d) (tasks_with_days s) <->
  In t (work_tasks s) /\ In d (work_days s) /\ wd_id d = wt_work_day_id t.
Proof.
  unfold tasks_with_days. rewrite in_flat_map. split.
  - intros (t0 & Ht & Hin). apply in_map_iff in Hin.
    destruct Hin as (d0 & Heq & Hd). inversion Heq; subst.
    apply filter_In in Hd. destruct Hd as [Hd E]. apply N.eqb_eq in E. auto.
  - intros (Ht & Hd & E). exists t. split; [assumption|].
    apply in_map_iff. exists d. split; [reflexivity|].
    apply filter_In. split; [assumption | apply N.eqb_eq; assumption].
Qed.

Lemma in_tasks_with_types s t ty :
  In (t, ty) (tasks_with_types s) <->
  In t (work_tasks s) /\ In ty (task_types s) /\ tt_id ty = wt_task_type_id t.
Proof.
  unfold tasks_with_types. rewrite in_flat_map. split.
  - intros (t0 & Ht & Hin). apply in_map_iff in Hin.
    destruct Hin as (y & Heq & Hy). inversion Heq; subst.
    apply filter_In in Hy. destruct Hy as [Hy E]. apply N.eqb_eq in E. auto.
  - intros (Ht & Hy & E). exists t. split; [assumption|].
    apply in_map_iff. exists ty. split; [reflexivity|].
    apply filter_In. split; [assumption | apply N.eqb_eq; assumption].
Qed.

Lemma in_tasks_days_types s t d ty :
  In (t, d, ty) (tasks_days_types s) <->
  In t (work_tasks s) /\ In d (work_days s) /\ wd_id d = wt_work_day_id t /\
  In ty (task_types s) /\ tt_id ty = wt_task_type_id t.
Proof.
  unfold tasks_days_types. rewrite in_flat_map. split.
  - intros ([t0 d0] & Hp & Hin). apply in_map_iff in Hin.
    destruct Hin as (y & Heq & Hy). cbn [fst snd] in *. inversion Heq; subst.
    apply filter_In in Hy. destruct Hy as [Hy E]. apply N.eqb_eq in E.
    apply in_tasks_with_days in Hp. tauto.
  - intros (Ht & Hd & E & Hy & E2). exists (t, d). split.
    + apply in_tasks_with_days. auto.
    + apply in_map_iff. exists ty. split; [reflexivity|].
      apply filter_In. split; [assumption | apply N.eqb_eq; assumption].
Qed.

Lemma fetchone_in {A} (l : list A) (x : A) : fetchone l = Some x -> In x l.
Proof. destruct l; cbn; [discriminate | intros [= ->]; left; reflexivity]. Qed.

Lemma fetchone_all {A} (l : list A) (x : A) :
  l <> [] -> (forall y, In y l -> y = x) -> fetchone l = Some x.
Proof.
  destruct l as [|a l]; [congruence|]. intros _ H. cbn.
  rewrite (H a); [reflexivity | left; reflexivity].
Qed.

Lemma filter_nil_of {A} (f : A -> bool) (l : list A) :
  (forall x, In x l -> f x = false) -> filter f l = [].
Proof.
  induction l as [|a l IH]; intros H; [reflexivity|]. cbn.
  rewrite (H a) by (left; reflexivity). apply IH. intros x Hx. apply H. right. exact Hx.
Qed.


Lemma task_on_closed_day_query s tid :
  task_on_closed_day s tid -> fetchone (task_day_closed_rows s tid) = Some true.
Proof.
  intros [(t & d & Ht & Hid & Hd & Hwd) Hall]. apply fetchone_all.
  - unfold task_day_closed_rows. intro E. apply map_eq_nil in E.
    assert (Hin : In (t, d) (filter (fun p => (wt_id (fst p) =? tid)%N) (tasks_with_days s))).
    { apply filter_In. split; [apply in_tasks_with_days; auto|].
      cbn. apply N.eqb_eq. exact Hid. }
    rewrite E in Hin. exact Hin.
  - intros b Hb. unfold task_day_closed_rows in Hb. apply in_map_iff in Hb.
    destruct Hb as ([t' d'] & <- & Hin). apply filter_In in Hin.
    destruct Hin as [Hin E]. cbn in E. apply N.eqb_eq in E.
    apply in_tasks_with_days in Hin. destruct Hin as (H1 & H2 & H3).
    cbn [snd]. apply (Hall t' d'); assumption.
Qed.

Lemma day_closed_query s day_id :
  day_closed s day_id ->
  fetchone (map wd_is_closed (filter (fun d => (wd_id d =? day_id)%N) (work_days s)))
  = Some true.
Proof.
  intros [(d & Hd & Hid) Hall]. apply fetchone_all.
  - intro E. apply map_eq_nil in E.
    assert (Hin : In d (filter (fun d => (wd_id d =? day_id)%N) (work_days s))).
    { apply filter_In. split; [assumption | apply N.eqb_eq; assumption]. }
    rewrite E in Hin. exact Hin.
  - intros b Hb. apply in_map_iff in Hb. destruct Hb as (d' & <- & Hin).
    apply filter_In in Hin. destruct Hin as [Hin E]. apply N.eqb_eq in E.
    apply Hall; assumption.
Qed.

(** The day lock raises before anything is written. *)
Lemma assert_workday_open_closed s tid :
  task_on_closed_day s tid ->
  assert_workday_open_by_task tid s = (inl (HTTPException 400 "Work day is closed"), s).
Proof.
  intros H. unfold assert_workday_open_by_task, bind, gets.
  rewrite (task_on_closed_day_query s tid H). reflexivity.
Qed.

Lemma begin_after_raise {A B} (m : tx A) (k : A -> tx B) (e : exn) (s : store) :
  m s = (inl e, s) -> begin (bind m k) s = (inl e, s).
Proof. intros H. unfold begin, bind. rewrite H. reflexivity. Qed.

(* ------------------------------------------------------------------ *)
(** ** Facts about the single decision                                 *)
(* ------------------------------------------------------------------ *)

(** A single decision on a paid task always raises, and the store is left as
    it was: 409 once the day lock and the task lookup have passed. *)
Lemma decide_task_paid_unchanged now tid body u s :
  task_paid s tid ->
  exists e, decide_task now tid body u s = (inl e, s) /\
            (e = HTTPException 404 "Task not found" \/
             e = HTTPException 400 "Work day is closed" \/
             e = HTTPException 409 "Task already paid; cannot change decision").
Proof.
  intros Hpaid. unfold decide_task, begin, bind.
  unfold assert_workday_open_by_task at 1. unfold bind, gets.
  destruct (fetchone (task_day_closed_rows s tid)) as [[|]|]; cbn [raise ret].
  - eexists; split; [reflexivity | auto].
  - destruct (fetchone (filter (fun p => (wt_id (fst p) =? tid)%N) (tasks_with_types s)))
      as [[wt ty]|] eqn:E; cbn [raise].
    + apply fetchone_in in E. apply filter_In in E. destruct E as [Hin Hid].
      cbn in Hid. apply N.eqb_eq in Hid. apply in_tasks_with_types in Hin.
      destruct Hin as (Ht & _).
      pose proof (Hpaid wt Ht Hid) as Hp.
      destruct (wt_paid_run_id wt) eqn:P; [|congruence]. cbn [is_some raise].
      eexists; split; [reflexivity | auto].
    + eexists; split; [reflexivity | auto].
  - eexists; split; [reflexivity | auto].
Qed.

(* ------------------------------------------------------------------ *)
(** ** Facts about the closed-day lock                                 *)
(* ------------------------------------------------------------------ *)

Lemma add_work_task_closed fresh body u s :
  day_closed s (c_work_day_id body) ->
  add_work_task fresh body u s
  = (inl (HTTPException 400
            (if Qlt_bool (c_quantity body) 0
             then "Quantity cannot be negative" else "Work day is closed")), s).
Proof.
  intros H. unfold add_work_task.
  destruct (Qlt_bool (c_quantity body) 0); [reflexivity|].
  unfold begin, bind, gets. rewrite (day_closed_query s _ H). reflexivity.
Qed.

Lemma update_pending_task_closed now tid body u s :
  task_on_closed_day s tid ->
  update_pending_task now tid body u s
  = (inl (HTTPException 400 "Work day is closed"), s).
Proof.
  intros H. unfold update_pending_task.
  apply begin_after_raise, assert_workday_open_closed, H.
Qed.

Lemma delete_pending_task_closed tid u s :
  task_on_closed_day s tid ->
  delete_pending_task tid u s = (inl (HTTPException 400 "Work day is closed"), s).
Proof.
  intros H. unfold delete_pending_task.
  apply begin_after_raise, assert_workday_open_closed, H.
Qed.

Lemma decide_task_closed now tid body u s :
  task_on_closed_day s tid ->
  decide_task now tid body u s = (inl (HTTPException 400 "Work day is closed"), s).
Proof.
  intros H. unfold decide_task.
  apply begin_after_raise, assert_workday_open_closed, H.
Qed.

Lemma bulk_decide_one_closed now body u updated tid s :
  task_on_closed_day s tid ->
  bulk_decide_one now body u updated tid s = (inr updated, s).
Proof.
  intros H. unfold bulk_decide_one, bind, try_http.
  rewrite (assert_workday_open_closed s tid H). reflexivity.
Qed.

Lemma bulk_decide_loop_closed now body u s ids :
  (forall tid, In tid ids -> task_on_closed_day s tid) ->
  forall updated,
    for_fold ids updated (bulk_decide_one now body u) s = (inr updated, s).
Proof.
  induction ids as [|tid ids IH]; intros H updated; [reflexivity|].
  cbn [for_fold]. unfold bind.
  rewrite (bulk_decide_one_closed now body u updated tid s) by (apply H; left; reflexivity).
  apply IH. intros t Ht. apply H. right. exact Ht.
Qed.

Lemma bulk_decide_closed now body u s :
  (forall tid, In tid (b_task_ids body) -> task_on_closed_day s tid) ->
  bulk_decide now body u s = (inr 0, s).
Proof.
  intros H. unfold bulk_decide.
  destruct (b_task_ids body) as [|tid ids] eqn:E; [reflexivity|].
  unfold begin. rewrite (bulk_decide_loop_closed now body u s (tid :: ids) H 0).
  reflexivity.
Qed.

(* ------------------------------------------------------------------ *)
(** ** Facts about the payroll run                                     *)
(* ------------------------------------------------------------------ *)






(** What a payroll run does as a whole: with no active worker it stores the
    run header and the audit event; with an active worker the first turn of
    the loop raises and the transaction is rolled back. *)
Lemma create_payroll_run_outcome run now body u s :
  (filter w_is_active (workers s) = [] /\
   create_payroll_run run now body u s
   = (inr run,
      set_audit_logs
        (set_payroll_runs s
           (payroll_runs s ++ [mkrun run (rc_as_of body) (u_id u) (rc_note body)]))
        (audit_logs s
         ++ [mkaudit (u_id u) (u_role u) "PAYROLL_RUN_CREATE" "payroll_run" (Some run)])))
  \/
  (filter w_is_active (workers s) <> [] /\
   exists e, create_payroll_run run now body u s = (inl e, s) /\
             (e = NameError "worker_id" \/ exists m, e = TypeError m)).
Proof.
  unfold create_payroll_run, begin, bind, modify, gets.
  cbn [workers set_payroll_runs].
  destruct (filter w_is_active (workers s)) as [|w ws] eqn:E.
  - left. split; reflexivity.
  - right. split; [discriminate|].
    cbn [for_each for_fold]. unfold bind.
    destruct (w_payout_anchor_date w) as [a|]; cbn [call_period_for_worker].
    + exists (NameError "worker_id"). split; [reflexivity | left; reflexivity].
    + destruct (w_payout w); cbn [ret raise run_query_params];
        eexists; (split; [reflexivity|]); (left; reflexivity) || (right; eexists; reflexivity).
Qed.

Lemma create_payroll_run_keeps_tasks_and_items run now body u s :
  work_tasks (snd (create_payroll_run run now body u s)) = work_tasks s /\
  payroll_run_items (snd (create_payroll_run run now body u s)) = payroll_run_items s.
Proof.
  destruct (create_payroll_run_outcome run now body u s)
    as [[_ ->] | [_ (e & -> & _)]]; split; reflexivity.
Qed.

Lemma settle_worker_nothing_selected run now w wid st en q s :
  run_rows s (col0 q) (col1 q) (col2 q) = [] ->
  settle_worker run now w wid st en q s
  = (inl (AttributeError "'int' object has no attribute 'quantize'"), s).
Proof.
  intros H. unfold settle_worker, bind, gets. rewrite H. reflexivity.
Qed.

(* ------------------------------------------------------------------ *)
(** ** Facts about the payroll-due listing                             *)
(* ------------------------------------------------------------------ *)

Lemma payroll_due_loop s as_of ws :
  forall due,
    for_fold ws due (fun due r =>
      entry <- gets (fun s => due_entry s as_of r) ;; ret (due ++ entry)) s
    = (inr (due ++ flat_map (due_entry s as_of) ws), s).
Proof.
  induction ws as [|w ws IH]; intros due; cbn [for_fold flat_map].
  - rewrite app_nil_r. reflexivity.
  - unfold bind at 1. unfold bind at 1. unfold gets, ret.
    rewrite IH, app_assoc. reflexivity.
Qed.

Lemma payroll_due_value as_of u s :
  payroll_due as_of u s = (inr (flat_map (due_entry s as_of) (due_workers s u)), s).
Proof.
  unfold payroll_due, begin. unfold bind at 1. unfold gets at 1.
  rewrite payroll_due_loop. reflexivity.
Qed.

Lemma due_workers_active s u w :
  In w (due_workers s u) -> In w (workers s) /\ w_is_active w = true.
Proof.
  unfold due_workers. destruct (u_role u), (u_factory_id u); intros H;
    apply filter_In in H; destruct H as [H1 H2];
    try apply andb_true_iff in H2; tauto.
Qed.

Lemma due_entry_positive s as_of r e :
  In e (due_entry s as_of r) ->
  (0 < due_approved_total_pay_ngn e)%Q /\
  date_leb (due_period_end e) as_of = true /\
  due_worker_id e = w_id r /\
  due_approved_total_pay_ngn e
  = col2 (due_totals s (w_id r) (due_period_start e) (due_period_end e)).
Proof.
  unfold due_entry. destruct (w_payout_anchor_date r) as [anchor|]; [|intros []].
  cbv zeta.
  destruct (date_ltb as_of (snd (compute_period (w_payout r) anchor as_of))) eqn:L;
    [intros []|].
  destruct (Qlt_bool 0 _) eqn:P; [|intros []].
  intros [<-|[]]. cbn [due_approved_total_pay_ngn due_period_end due_period_start
                         due_worker_id].
  split; [apply Qlt_bool_iff; exact P|].
  split; [unfold date_leb; rewrite L; reflexivity|].
  split; reflexivity.
Qed.

(* ------------------------------------------------------------------ *)
(** ** Keeping a property of the store                                 *)
(* ------------------------------------------------------------------ *)

Section Keeps.

Variable P : store -> Prop.

Lemma keeps_ret {A} (a : A) : keeps P (ret a).
Proof. intros s H. exact H. Qed.

Lemma keeps_raise {A} (e : exn) : keeps P (@raise A e).
Proof. intros s H. exact H. Qed.

Lemma keeps_gets {A} (f : store -> A) : keeps P (gets f).
Proof. intros s H. exact H. Qed.

Lemma keeps_modify (f : store -> store) :
  (forall s, P s -> P (f s)) -> keeps P (modify f).
Proof. intros Hf s H. apply Hf, H. Qed.

Lemma keeps_bind {A B} (m : tx A) (k : A -> tx B) :
  keeps P m -> (forall a, keeps P (k a)) -> keeps P (bind m k).
Proof.
  intros Hm Hk s H. unfold bind. specialize (Hm s H).
  destruct (m s) as [[e|a] s']; cbn [snd] in *; [exact Hm | apply Hk, Hm].
Qed.

Lemma keeps_begin {A} (m : tx A) : keeps P m -> keeps P (begin m).
Proof.
  intros Hm s H. unfold begin. specialize (Hm s H).
  destruct (m s) as [[e|a] s']; cbn [snd] in *; assumption.
Qed.

Lemma keeps_try_http {A} (m : tx A) : keeps P m -> keeps P (try_http m).
Proof.
  intros Hm s H. unfold try_http. specialize (Hm s H).
  destruct (m s) as [[[]|a] s']; cbn [snd] in *; assumption.
Qed.

Lemma keeps_for_fold {A B} (xs : list A) (body : B -> A -> tx B) :
  (forall acc x, keeps P (body acc x)) -> forall acc, keeps P (for_fold xs acc body).
Proof.
  intros Hb. induction xs as [|x xs IH]; intros acc; cbn [for_fold].
  - apply keeps_ret.
  - apply keeps_bind; [apply Hb | intros a; apply IH].
Qed.

Lemma keeps_audit a r act ety eid :
  (forall s l, P s -> P (set_audit_logs s l)) -> keeps P (audit a r act ety eid).
Proof. intros Hf. apply keeps_modify. intros s H. apply Hf, H. Qed.

Lemma keeps_assert_workday_open tid : keeps P (assert_workday_open_by_task tid).
Proof.
  unfold assert_workday_open_by_task. apply keeps_bind; [apply keeps_gets|].
  intros [[|]|]; (apply keeps_raise || apply keeps_ret).
Qed.

(** The approval endpoints write through [update_decision] and [audit]
    only. *)
Lemma keeps_decide_task now tid body u :
  (forall s l, P s -> P (set_audit_logs s l)) ->
  (forall s st by_ t reason pay, P s -> P (update_decision tid st by_ t reason pay s)) ->
  keeps P (decide_task now tid body u).
Proof.
  intros Ha Hu. unfold decide_task. apply keeps_begin.
  apply keeps_bind; [apply keeps_assert_workday_open | intros _].
  apply keeps_bind; [apply keeps_gets | intros [[wt ty]|]]; [|apply keeps_raise].
  destruct (is_some (wt_paid_run_id wt)); [apply keeps_raise|].
  apply keeps_bind; [apply keeps_modify; intros; apply Hu; assumption | intros _].
  apply keeps_bind; [apply keeps_audit, Ha | intros _]. apply keeps_ret.
Qed.

Lemma keeps_bulk_decide_one now body u updated tid :
  (forall s l, P s -> P (set_audit_logs s l)) ->
  (forall s st by_ t reason pay, P s -> P (update_decision tid st by_ t reason pay s)) ->
  keeps P (bulk_decide_one now body u updated tid).
Proof.
  intros Ha Hu. unfold bulk_decide_one.
  apply keeps_bind; [apply keeps_try_http, keeps_assert_workday_open | intros [_|]];
    [|apply keeps_ret].
  apply keeps_bind; [apply keeps_gets | intros allowed].
  destruct (negb allowed); [apply keeps_ret|].
  apply keeps_bind; [apply keeps_gets | intros [[wt wd]|]]; [|apply keeps_ret].
  apply keeps_bind; [apply keeps_gets | intros rate].
  apply keeps_bind; [apply keeps_modify; intros; apply Hu; assumption | intros _].
  apply keeps_bind; [apply keeps_audit, Ha | intros _]. apply keeps_ret.
Qed.

Lemma keeps_bulk_decide now body u :
  (forall s l, P s -> P (set_audit_logs s l)) ->
  (forall tid s st by_ t reason pay,
     P s -> P (update_decision tid st by_ t reason pay s)) ->
  keeps P (bulk_decide now body u).
Proof.
  intros Ha Hu. unfold bulk_decide.
  destruct (b_task_ids body) as [|i ids]; [apply keeps_ret|].
  apply keeps_begin, keeps_for_fold. intros acc x.
  apply keeps_bulk_decide_one; [exact Ha | apply Hu].
Qed.

End Keeps.

(* ------------------------------------------------------------------ *)
(** ** What a decision leaves alone                                    *)
(* ------------------------------------------------------------------ *)

Lemma set_decision_skeleton st by_ now reason pay t :
  task_skeleton (set_decision st by_ now reason pay t) = task_skeleton t.
Proof. reflexivity. Qed.

Lemma update_decision_skeleton tid st by_ now reason pay s :
  map task_skeleton (work_tasks (update_decision tid st by_ now reason pay s))
  = map task_skeleton (work_tasks s).
Proof.
  unfold update_decision. cbn [work_tasks set_work_tasks]. rewrite map_map.
  apply map_ext. intros t. destruct (wt_id t =? tid)%N; reflexivity.
Qed.

Lemma decision_frame_refl s : decision_frame s s.
Proof. repeat split. Qed.

Lemma decision_frame_audit s0 s l :
  decision_frame s0 s -> decision_frame s0 (set_audit_logs s l).
Proof. intros H. exact H. Qed.

Lemma decision_frame_update s0 tid s st by_ now reason pay :
  decision_frame s0 s -> decision_frame s0 (update_decision tid st by_ now reason pay s).
Proof.
  intros (H1 & H2 & H3 & H4 & H5 & H6 & H7). repeat split; try assumption.
  rewrite update_decision_skeleton. exact H7.
Qed.

(* ------------------------------------------------------------------ *)
(** ** The bulk decision never raises                                  *)
(* ------------------------------------------------------------------ *)



(* ------------------------------------------------------------------ *)
(** ** Facts about the rate resolver                                   *)
(* ------------------------------------------------------------------ *)

Lemma existsb_false_filter {A} (f : A -> bool) (l : list A) :
  existsb f l = false -> filter f l = [].
Proof.
  induction l as [|a l IH]; cbn; [reflexivity|].
  destruct (f a); cbn; [discriminate | exact IH].
Qed.

Lemma existsb_true_filter {A} (f : A -> bool) (l : list A) :
  existsb f l = true -> exists x, fetchone (filter f l) = Some x /\ f x = true.
Proof.
  induction l as [|a l IH]; cbn; [discriminate|].
  destruct (f a) eqn:Fa; cbn.
  - intros _. exists a. split; [reflexivity | exact Fa].
  - exact IH.
Qed.

Lemma filter_map_same {A} (f : A -> bool) (g : A -> A) (l : list A) :
  (forall x, f (g x) = f x) -> filter f (map g l) = map g (filter f l).
Proof.
  intros H. induction l as [|a l IH]; [reflexivity|]. cbn.
  rewrite H. destruct (f a); cbn; rewrite IH; reflexivity.
Qed.

Lemma map_id_on {A} (g : A -> A) (l : list A) :
  (forall x, In x l -> g x = x) -> map g l = l.
Proof.
  intros H. induction l as [|a l IH]; [reflexivity|]. cbn.
  rewrite (H a) by (left; reflexivity). f_equal. apply IH.
  intros x Hx. apply H. right. exact Hx.
Qed.

Lemma fetchone_map {A B} (g : A -> B) (l : list A) :
  fetchone (map g l) = option_map g (fetchone l).
Proof. destruct l; reflexivity. Qed.

Lemma rate_hit_set w t r w' t' x : rate_hit w' t' (rate_set w t r x) = rate_hit w' t' x.
Proof. unfold rate_set. destruct (rate_hit w t x); reflexivity. Qed.

Lemma rate_hit_exclusive w t w' t' x :
  (w', t') <> (w, t) -> rate_hit w t x = true -> rate_hit w' t' x = false.
Proof.
  intros Hne Hx. unfold rate_hit in *. apply andb_true_iff in Hx.
  destruct Hx as [H1 H2]. apply N.eqb_eq in H1, H2.
  destruct (wr_worker_id x =? w')%N eqn:E1; [|reflexivity].
  destruct (wr_task_type_id x =? t')%N eqn:E2; [|reflexivity].
  apply N.eqb_eq in E1, E2. exfalso. apply Hne. congruence.
Qed.

Lemma upsert_rate_rows_unfold w t r rows :
  upsert_rate_rows w t r rows
  = if existsb (rate_hit w t) rows then map (rate_set w t r) rows
    else rows ++ [mkworkerrate w t r].
Proof. reflexivity. Qed.

Lemma upsert_rate_rows_hit w t r rows :
  exists x, fetchone (filter (rate_hit w t) (upsert_rate_rows w t r rows)) = Some x /\
            wr_rate_ngn x = r.
Proof.
  rewrite upsert_rate_rows_unfold.
  destruct (existsb (rate_hit w t) rows) eqn:E.
  - rewrite filter_map_same by (intros; apply rate_hit_set).
    destruct (existsb_true_filter _ _ E) as (x & Hx & Hh).
    rewrite fetchone_map, Hx. cbn [option_map].
    exists (rate_set w t r x). split; [reflexivity|].
    unfold rate_set. rewrite Hh. reflexivity.
  - rewrite filter_app, (existsb_false_filter _ rows E). cbn [filter app].
    assert (Hh : rate_hit w t (mkworkerrate w t r) = true).
    { unfold rate_hit. cbn. rewrite !N.eqb_refl. reflexivity. }
    rewrite Hh. eexists. split; reflexivity.
Qed.

Lemma upsert_rate_rows_other w t r w' t' rows :
  (w', t') <> (w, t) ->
  filter (rate_hit w' t') (upsert_rate_rows w t r rows) = filter (rate_hit w' t') rows.
Proof.
  intros Hne. rewrite upsert_rate_rows_unfold.
  destruct (existsb (rate_hit w t) rows).
  - rewrite filter_map_same by (intros; apply rate_hit_set).
    apply map_id_on. intros x Hx. apply filter_In in Hx. destruct Hx as [_ Hx].
    unfold rate_set. destruct (rate_hit w t x) eqn:E; [|reflexivity].
    rewrite (rate_hit_exclusive w t w' t' x Hne E) in Hx. discriminate.
  - rewrite filter_app. cbn [filter].
    assert (Hh : rate_hit w' t' (mkworkerrate w t r) = false).
    { apply (rate_hit_exclusive w t w' t' _ Hne).
      unfold rate_hit. cbn. rewrite !N.eqb_refl. reflexivity. }
    rewrite Hh, app_nil_r. reflexivity.
Qed.

Lemma effective_rate_unfold s w t :
  effective_rate s w t
  = match fetchone (filter (rate_hit w t) (worker_rates s)) with
    | Some r => wr_rate_ngn r
    | None =>
      match fetchone (filter (fun ty => (tt_id ty =? t)%N) (task_types s)) with
      | Some d => tt_default_rate_ngn d
      | None => 0%Q
      end
    end.
Proof. reflexivity. Qed.

(* ------------------------------------------------------------------ *)
(** ** Facts about work logging                                        *)
(* ------------------------------------------------------------------ *)

Lemma quantities_nonneg_audit s l :
  quantities_nonneg s -> quantities_nonneg (set_audit_logs s l).
Proof. intros H. exact H. Qed.

Lemma quantities_nonneg_update_decision tid st by_ now reason pay s :
  quantities_nonneg s ->
  quantities_nonneg (update_decision tid st by_ now reason pay s).
Proof.
  intros H t Ht. unfold update_decision in Ht. cbn [work_tasks set_work_tasks] in Ht.
  apply in_map_iff in Ht. destruct Ht as (t0 & <- & Ht0).
  destruct (wt_id t0 =? tid)%N; apply (H t0 Ht0).
Qed.

Lemma quantities_nonneg_insert tid body s :
  Qlt_bool (c_quantity body) 0 = false ->
  quantities_nonneg s -> quantities_nonneg (insert_work_task tid body s).
Proof.
  intros Hq H t Ht. unfold insert_work_task in Ht.
  destruct (existsb (fun t => (wt_id t =? tid)%N) (work_tasks s)); [apply H, Ht|].
  cbn [work_tasks set_work_tasks] in Ht. apply in_app_or in Ht.
  destruct Ht as [Ht | [<- | []]]; [apply H, Ht|].
  cbn [wt_quantity]. apply Qlt_bool_false_iff. exact Hq.
Qed.

Lemma keeps_nonneg_add_work_task fresh body u :
  keeps quantities_nonneg (add_work_task fresh body u).
Proof.
  unfold add_work_task.
  destruct (Qlt_bool (c_quantity body) 0) eqn:Hq; [apply keeps_raise|].
  apply keeps_begin.
  apply keeps_bind; [apply keeps_gets | intros [[|]|]]; try apply keeps_raise.
  apply keeps_bind;
    [apply keeps_modify; intros; apply quantities_nonneg_insert; assumption | intros _].
  apply keeps_bind; [apply keeps_audit; intros; assumption | intros _].
  apply keeps_ret.
Qed.

Lemma quantities_nonneg_edit now by_ body q tid s :
  (forall x, q = Some x -> (0 <= x)%Q) ->
  quantities_nonneg s ->
  quantities_nonneg
    (set_work_tasks s
       (map (fun t => if (wt_id t =? tid)%N then apply_edit now by_ body q t else t)
            (work_tasks s))).
Proof.
  intros Hq H t Ht. cbn [work_tasks set_work_tasks] in Ht.
  apply in_map_iff in Ht. destruct Ht as (t0 & <- & Ht0).
  destruct (wt_id t0 =? tid)%N; [|apply (H t0 Ht0)].
  unfold apply_edit. cbn [wt_quantity].
  destruct q as [x|]; [apply Hq; reflexivity | apply (H t0 Ht0)].
Qed.

Lemma keeps_nonneg_update_pending_task now tid body u :
  keeps quantities_nonneg (update_pending_task now tid body u).
Proof.
  unfold update_pending_task. apply keeps_begin.
  apply keeps_bind; [apply keeps_assert_workday_open | intros _].
  apply keeps_bind; [apply keeps_gets | intros [[wt wd]|]]; [|apply keeps_raise].
  destruct (negb (STATUS_eqb (wt_status wt) pending)); [apply keeps_raise|].
  match goal with |- keeps _ (if ?c then _ else _) => destruct c end;
    [apply keeps_raise|].
  destruct (up_quantity body) as [[q|]|].
  - destruct (Qlt_bool q 0) eqn:Hq; [apply keeps_raise|].
    apply keeps_bind; [|intros _; apply keeps_audit; intros; assumption].
    apply keeps_modify. intros s H. apply quantities_nonneg_edit; [|exact H].
    intros x [= <-]. apply Qlt_bool_false_iff. exact Hq.
  - apply keeps_raise.
  - destruct (negb (is_some (up_note body)) && negb (is_some (up_task_type_id body)));
      [apply keeps_ret|].
    apply keeps_bind; [|intros _; apply keeps_audit; intros; assumption].
    apply keeps_modify. intros s H. apply quantities_nonneg_edit; [|exact H].
    intros x [=].
Qed.

Lemma keeps_nonneg_delete_pending_task tid u :
  keeps quantities_nonneg (delete_pending_task tid u).
Proof.
  unfold delete_pending_task. apply keeps_begin.
  apply keeps_bind; [apply keeps_assert_workday_open | intros _].
  apply keeps_bind; [apply keeps_gets | intros [[wt wd]|]]; [|apply keeps_raise].
  destruct (negb (STATUS_eqb (wt_status wt) pending)); [apply keeps_raise|].
  match goal with |- keeps _ (if ?c then _ else _) => destruct c end;
    [apply keeps_raise|].
  apply keeps_bind; [|intros _; apply keeps_audit; intros; assumption].
  apply keeps_modify. intros s H t Ht. cbn [work_tasks set_work_tasks] in Ht.
  apply filter_In in Ht. apply H, Ht.
Qed.

(** Editing and deleting stop at the first failed check. *)
Lemma edit_delete_of_decided_task tid s :
  task_decided s tid ->
  forall row,
    fetchone (filter (fun p => (wt_id (fst p) =? tid)%N) (tasks_with_days s)) = Some row ->
    negb (STATUS_eqb (wt_status (fst row)) pending) = true.
Proof.
  intros Hd [wt wd] E. apply fetchone_in in E. apply filter_In in E.
  destruct E as [Hin Hid]. cbn in Hid. apply N.eqb_eq in Hid.
  apply in_tasks_with_days in Hin. destruct Hin as (Ht & _).
  pose proof (Hd wt Ht Hid) as Hs. cbn [fst].
  destruct (wt_status wt); cbn; congruence.
Qed.

Lemma update_pending_task_decided now tid body u s :
  task_decided s tid ->
  exists e, update_pending_task now tid body u s = (inl e, s) /\
            (e = HTTPException 404 "Task not found" \/
             e = HTTPException 400 "Work day is closed" \/
             e = HTTPException 400 "Only pending tasks can be edited").
Proof.
  intros Hd. unfold update_pending_task, begin, bind.
  unfold assert_workday_open_by_task at 1. unfold bind, gets.
  destruct (fetchone (task_day_closed_rows s tid)) as [[|]|]; cbn [raise ret].
  - eexists; split; [reflexivity | auto].
  - destruct (fetchone (filter (fun p => (wt_id (fst p) =? tid)%N) (tasks_with_days s)))
      as [[wt wd]|] eqn:E; cbn [raise].
    + pose proof (edit_delete_of_decided_task tid s Hd (wt, wd) E) as Hn.
      cbn [fst] in Hn. rewrite Hn. cbn [raise].
      eexists; split; [reflexivity | auto].
    + eexists; split; [reflexivity | auto].
  - eexists; split; [reflexivity | auto].
Qed.

Lemma delete_pending_task_decided tid u s :
  task_decided s tid ->
  exists e, delete_pending_task tid u s = (inl e, s) /\
            (e = HTTPException 404 "Task not found" \/
             e = HTTPException 400 "Work day is closed" \/
             e = HTTPException 400 "Only pending tasks can be deleted").
Proof.
  intros Hd. unfold delete_pending_task, begin, bind.
  unfold assert_workday_open_by_task at 1. unfold bind, gets.
  destruct (fetchone (task_day_closed_rows s tid)) as [[|]|]; cbn [raise ret].
  - eexists; split; [reflexivity | auto].
  - destruct (fetchone (filter (fun p => (wt_id (fst p) =? tid)%N) (tasks_with_days s)))
      as [[wt wd]|] eqn:E; cbn [raise].
    + pose proof (edit_delete_of_decided_task tid s Hd (wt, wd) E) as Hn.
      cbn [fst] in Hn. rewrite Hn. cbn [raise].
      eexists; split; [reflexivity | auto].
    + eexists; split; [reflexivity | auto].
  - eexists; split; [reflexivity | auto].
Qed.

(** What a successful creation leaves behind. *)
Lemma add_work_task_success fresh body u s tid s1 :
  add_work_task fresh body u s = (inr tid, s1) ->
  Qlt_bool (c_quantity body) 0 = false /\
  tid = match c_id body with Some i => i | None => fresh end /\
  fetchone (map wd_is_closed
              (filter (fun d => (wd_id d =? c_work_day_id body)%N) (work_days s)))
  = Some false /\
  s1 = set_audit_logs (insert_work_task tid body s)
         (audit_logs (insert_work_task tid body s)
          ++ [mkaudit (u_id u) (u_role u) "TASK_CREATE" "work_task" (Some tid)]).
Proof.
  unfold add_work_task.
  destruct (Qlt_bool (c_quantity body) 0); [discriminate|].
  unfold begin, bind, gets.
  destruct (fetchone (map wd_is_closed
              (filter (fun d => (wd_id d =? c_work_day_id body)%N) (work_days s))))
    as [[|]|]; cbn [raise]; try discriminate.
  cbn [modify audit ret]. intros [= <- <-]. repeat split.
Qed.

Lemma insert_work_task_present tid body s :
  exists t, In t (work_tasks (insert_work_task tid body s)) /\ wt_id t = tid.
Proof.
  unfold insert_work_task.
  destruct (existsb (fun t => (wt_id t =? tid)%N) (work_tasks s)) eqn:E.
  - apply existsb_exists in E. destruct E as (t & Ht & Hid).
    apply N.eqb_eq in Hid. exists t. auto.
  - eexists. split; [cbn [work_tasks set_work_tasks]; apply in_or_app; right; left;
                     reflexivity | reflexivity].
Qed.

Lemma add_work_task_replay fresh body u s i :
  c_id body = Some i ->
  (exists t, In t (work_tasks s) /\ wt_id t = i) ->
  work_tasks (snd (add_work_task fresh body u s)) = work_tasks s.
Proof.
  intros Hid (t & Ht & Hi). unfold add_work_task.
  destruct (Qlt_bool (c_quantity body) 0); [reflexivity|].
  rewrite Hid. unfold begin, bind, gets.
  destruct (fetchone (map wd_is_closed
              (filter (fun d => (wd_id d =? c_work_day_id body)%N) (work_days s))))
    as [[|]|]; cbn [raise snd]; try reflexivity.
  cbn [modify audit ret snd work_tasks set_audit_logs].
  unfold insert_work_task.
  assert (E : existsb (fun t => (wt_id t =? i)%N) (work_tasks s) = true).
  { apply existsb_exists. exists t. split; [exact Ht | apply N.eqb_eq; exact Hi]. }
  rewrite E. reflexivity.
Qed.

(* ------------------------------------------------------------------ *)
(** ** Task updates that keep the join keys                            *)
(* ------------------------------------------------------------------ *)

Lemma tasks_with_days_map (g : work_task_row -> work_task_row) s :
  (forall t, wt_work_day_id (g t) = wt_work_day_id t) ->
  tasks_with_days (set_work_tasks s (map g (work_tasks s)))
  = map (fun p => (g (fst p), snd p)) (tasks_with_days s).
Proof.
  intros Hk. unfold tasks_with_days. cbn [work_days work_tasks set_work_tasks].
  induction (work_tasks s) as [|a l IH]; [reflexivity|].
  cbn [map flat_map]. rewrite map_app, IH, Hk, map_map. reflexivity.
Qed.

Lemma tasks_with_types_map (g : work_task_row -> work_task_row) s :
  (forall t, wt_task_type_id (g t) = wt_task_type_id t) ->
  tasks_with_types (set_work_tasks s (map g (work_tasks s)))
  = map (fun p => (g (fst p), snd p)) (tasks_with_types s).
Proof.
  intros Hk. unfold tasks_with_types. cbn [task_types work_tasks set_work_tasks].
  induction (work_tasks s) as [|a l IH]; [reflexivity|].
  cbn [map flat_map]. rewrite map_app, IH, Hk, map_map. reflexivity.
Qed.

Lemma filter_task_id_map {B} (g : work_task_row -> work_task_row) tid
    (l : list (work_task_row * B)) :
  (forall t, wt_id (g t) = wt_id t) ->
  filter (fun p => (wt_id (fst p) =? tid)%N) (map (fun p => (g (fst p), snd p)) l)
  = map (fun p => (g (fst p), snd p)) (filter (fun p => (wt_id (fst p) =? tid)%N) l).
Proof.
  intros Hk. induction l as [|a l IH]; [reflexivity|]. cbn [map filter fst].
  rewrite Hk. destruct (wt_id (fst a) =? tid)%N; cbn [map]; rewrite IH; reflexivity.
Qed.

(** The row update of a decision on task [tid]. *)
Lemma update_decision_unfold tid st by_ now reason pay s :
  update_decision tid st by_ now reason pay s
  = set_work_tasks s
      (map (fun t => if (wt_id t =? tid)%N
                     then set_decision st by_ now reason pay t else t)
           (work_tasks s)).
Proof. reflexivity. Qed.

Section AfterDecision.

Variables (tid : uuid) (st : STATUS) (by_ : uuid) (now : Z) (reason : option string)
          (pay : Q).

Let g (t : work_task_row) : work_task_row :=
  if (wt_id t =? tid)%N then set_decision st by_ now reason pay t else t.

Lemma decision_keeps_id t : wt_id (g t) = wt_id t.
Proof. unfold g. destruct (wt_id t =? tid)%N; reflexivity. Qed.

Lemma decision_keeps_day t : wt_work_day_id (g t) = wt_work_day_id t.
Proof. unfold g. destruct (wt_id t =? tid)%N; reflexivity. Qed.

Lemma decision_keeps_type t : wt_task_type_id (g t) = wt_task_type_id t.
Proof. unfold g. destruct (wt_id t =? tid)%N; reflexivity. Qed.

Lemma closed_rows_after_decision s l :
  task_day_closed_rows
    (set_audit_logs (update_decision tid st by_ now reason pay s) l) tid
  = task_day_closed_rows s tid.
Proof.
  unfold task_day_closed_rows.
  change (tasks_with_days (set_audit_logs (update_decision tid st by_ now reason pay s) l))
    with (tasks_with_days (set_work_tasks s (map g (work_tasks s)))).
  rewrite (tasks_with_days_map g s decision_keeps_day).
  rewrite (filter_task_id_map g tid _ decision_keeps_id).
  rewrite map_map. reflexivity.
Qed.

Lemma typed_row_after_decision s l wt ty :
  fetchone (filter (fun p => (wt_id (fst p) =? tid)%N) (tasks_with_types s))
  = Some (wt, ty) ->
  fetchone (filter (fun p => (wt_id (fst p) =? tid)%N)
              (tasks_with_types
                 (set_audit_logs (update_decision tid st by_ now reason pay s) l)))
  = Some (set_decision st by_ now reason pay wt, ty).
Proof.
  intros E.
  change (tasks_with_types (set_audit_logs (update_decision tid st by_ now reason pay s) l))
    with (tasks_with_types (set_work_tasks s (map g (work_tasks s)))).
  rewrite (tasks_with_types_map g s decision_keeps_type).
  rewrite (filter_task_id_map g tid _ decision_keeps_id).
  rewrite fetchone_map, E. cbn [option_map fst snd].
  apply fetchone_in, filter_In in E. destruct E as [_ Hid]. cbn [fst] in Hid.
  unfold g. rewrite Hid. reflexivity.
Qed.

End AfterDecision.

(* ------------------------------------------------------------------ *)
(** ** When a single decision goes through                             *)
(* ------------------------------------------------------------------ *)

Lemma decide_task_success now tid body u s p s1 :
  decide_task now tid body u s = (inr p, s1) ->
  fetchone (task_day_closed_rows s tid) = Some false /\
  exists wt ty,
    fetchone (filter (fun p => (wt_id (fst p) =? tid)%N) (tasks_with_types s))
    = Some (wt, ty) /\
    wt_paid_run_id wt = None /\
    p = decided_pay (d_status body) wt ty /\
    s1 = set_audit_logs
           (update_decision tid (status_of_decision (d_status body)) (u_id u) now
                            (d_decision_reason body) p s)
           (audit_logs s
            ++ [mkaudit (u_id u) (u_role u) (decision_action (d_status body))
                        "work_task" (Some tid)]).
Proof.
  unfold decide_task, begin, bind.
  unfold assert_workday_open_by_task at 1. unfold bind, gets.
  destruct (fetchone (task_day_closed_rows s tid)) as [[|]|]; cbn [raise ret];
    try discriminate.
  destruct (fetchone (filter (fun p => (wt_id (fst p) =? tid)%N) (tasks_with_types s)))
    as [[wt ty]|]; cbn [raise]; [|discriminate].
  destruct (wt_paid_run_id wt) eqn:P; cbn [is_some raise]; [discriminate|].
  cbn [modify audit ret]. intros [= <- <-].
  split; [reflexivity|]. exists wt, ty. repeat split. exact P.
Qed.

Lemma decide_task_run now tid body u s wt ty :
  fetchone (task_day_closed_rows s tid) = Some false ->
  fetchone (filter (fun p => (wt_id (fst p) =? tid)%N) (tasks_with_types s))
  = Some (wt, ty) ->
  wt_paid_run_id wt = None ->
  decide_task now tid body u s
  = (inr (decided_pay (d_status body) wt ty),
     set_audit_logs
       (update_decision tid (status_of_decision (d_status body)) (u_id u) now
                        (d_decision_reason body) (decided_pay (d_status body) wt ty) s)
       (audit_logs s
        ++ [mkaudit (u_id u) (u_role u) (decision_action (d_status body))
                    "work_task" (Some tid)])).
Proof.
  intros Hc Hr Hp. unfold decide_task, begin, bind.
  unfold assert_workday_open_by_task at 1. unfold bind, gets.
  rewrite Hc. cbn [ret]. rewrite Hr, Hp. reflexivity.
Qed.

Lemma open_for_decision_of_success now tid body u s p s1 :
  decide_task now tid body u s = (inr p, s1) ->
  exists q r, open_for_decision s tid q r /\ p = settled_pay (d_status body) q r.
Proof.
  intros H. apply decide_task_success in H.
  destruct H as (Hc & wt & ty & Hr & Hp & -> & _).
  exists (wt_quantity wt), (tt_rate_ngn_per_unit ty). split.
  - split; [exact Hc|]. exists wt, ty. repeat split; assumption.
  - destruct (d_status body); reflexivity.
Qed.

(** A task that is open for decision is decided by every call, stays open for
    decision on the same quantity and rate, and carries what was decided. *)
Lemma decide_task_when_open now tid body u s q r :
  open_for_decision s tid q r ->
  exists s1,
    decide_task now tid body u s = (inr (settled_pay (d_status body) q r), s1) /\
    open_for_decision s1 tid q r /\
    (forall t, In t (work_tasks s1) -> wt_id t = tid ->
       wt_status t = status_of_decision (d_status body) /\
       wt_approved_pay_ngn t = settled_pay (d_status body) q r).
Proof.
  intros (Hc & wt & ty & Hr & Hp & Hq & Hrt).
  assert (Hpay : decided_pay (d_status body) wt ty = settled_pay (d_status body) q r).
  { unfold decided_pay, settled_pay. rewrite Hq, Hrt. reflexivity. }
  eexists. split; [|split].
  - rewrite (decide_task_run now tid body u s wt ty Hc Hr Hp), Hpay. reflexivity.
  - split; [rewrite closed_rows_after_decision; exact Hc|].
    eexists _, ty. split; [apply typed_row_after_decision; exact Hr|].
    repeat split; assumption.
  - intros t Ht Hid. cbn [work_tasks set_audit_logs] in Ht.
    rewrite update_decision_unfold in Ht. cbn [work_tasks set_work_tasks] in Ht.
    apply in_map_iff in Ht. destruct Ht as (t0 & <- & _).
    destruct (wt_id t0 =? tid)%N eqn:E.
    + split; reflexivity.
    + apply N.eqb_neq in E. contradiction.
Qed.

(* ------------------------------------------------------------------ *)
(** ** Facts about closing and reopening a day                         *)
(* ------------------------------------------------------------------ *)

Lemma NoDup_map_unique {A B} (f : A -> B) (l : list A) a b :
  NoDup (map f l) -> In a l -> In b l -> f a = f b -> a = b.
Proof.
  induction l as [|x l IH]; intros Hn Ha Hb E; [destruct Ha|].
  cbn [map] in Hn. inversion Hn as [|? ? Hx Hn']; subst.
  destruct Ha as [->|Ha], Hb as [->|Hb].
  - reflexivity.
  - exfalso. apply Hx. rewrite E. apply in_map. exact Hb.
  - exfalso. apply Hx. rewrite <- E. apply in_map. exact Ha.
  - apply IH; assumption.
Qed.

Lemma set_day_closed_unfold x c s :
  set_day_closed x c s = set_work_days s (map (day_flag x c) (work_days s)).
Proof. reflexivity. Qed.

Lemma day_flag_id x c d : wd_id (day_flag x c d) = wd_id d.
Proof. unfold day_flag. destruct (wd_id d =? x)%N; reflexivity. Qed.

Lemma day_flag_hit x c d : wd_id d = x -> wd_is_closed (day_flag x c d) = c.
Proof. intros <-. unfold day_flag. rewrite N.eqb_refl. reflexivity. Qed.

Lemma day_closed_after_flag x s l :
  (exists d, In d (work_days s) /\ wd_id d = x) ->
  day_closed (set_audit_logs (set_day_closed x true s) l) x.
Proof.
  intros (d & Hd & Hid). split.
  - exists (day_flag x true d). split; [|rewrite day_flag_id; exact Hid].
    cbn [work_days set_audit_logs]. rewrite set_day_closed_unfold.
    cbn [work_days set_work_days]. apply in_map. exact Hd.
  - intros d' Hd' Hid'. cbn [work_days set_audit_logs] in Hd'.
    rewrite set_day_closed_unfold in Hd'. cbn [work_days set_work_days] in Hd'.
    apply in_map_iff in Hd'. destruct Hd' as (d0 & <- & _).
    rewrite day_flag_id in Hid'. apply day_flag_hit. exact Hid'.
Qed.

Lemma day_query_nonempty x s :
  (exists d, In d (work_days s) /\ wd_id d = x) ->
  fetchone (map wd_is_closed (filter (fun d => (wd_id d =? x)%N) (work_days s))) <> None.
Proof.
  intros (d & Hd & Hid) E.
  assert (Hin : In (wd_is_closed d)
                   (map wd_is_closed (filter (fun d => (wd_id d =? x)%N) (work_days s)))).
  { apply in_map, filter_In. split; [exact Hd | apply N.eqb_eq; exact Hid]. }
  destruct (map wd_is_closed (filter (fun d => (wd_id d =? x)%N) (work_days s)));
    [exact Hin | discriminate].
Qed.

Lemma day_query_first x s c :
  fetchone (map wd_is_closed (filter (fun d => (wd_id d =? x)%N) (work_days s))) = Some c ->
  exists d, In d (work_days s) /\ wd_id d = x /\ wd_is_closed d = c.
Proof.
  intros E. rewrite fetchone_map in E.
  destruct (fetchone (filter (fun d => (wd_id d =? x)%N) (work_days s))) as [d|] eqn:F;
    [|discriminate].
  cbn in E. injection E as <-. apply fetchone_in, filter_In in F.
  destruct F as [Hd Hid]. apply N.eqb_eq in Hid. exists d. auto.
Qed.

Lemma close_day_result x u s :
  NoDup (map wd_id (work_days s)) ->
  (exists d, In d (work_days s) /\ wd_id d = x) ->
  exists s', close_day x u s = (inr tt, s') /\ day_closed s' x /\
             work_tasks s' = work_tasks s.
Proof.
  intros Hn Hex. unfold close_day, begin, bind, gets.
  destruct (fetchone (map wd_is_closed
              (filter (fun d => (wd_id d =? x)%N) (work_days s)))) as [[|]|] eqn:E.
  - exists s. cbn [ret]. split; [reflexivity|]. split; [|reflexivity].
    split; [exact Hex|]. intros d Hd Hid.
    destruct (day_query_first x s true E) as (d1 & Hd1 & Hid1 & Hc1).
    rewrite (NoDup_map_unique wd_id (work_days s) d d1 Hn Hd Hd1); [exact Hc1|].
    congruence.
  - eexists. cbn [modify audit ret]. split; [reflexivity|].
    split; [apply day_closed_after_flag; exact Hex | reflexivity].
  - exfalso. apply (day_query_nonempty x s Hex E).
Qed.

Lemma close_day_again x u s :
  day_closed s x -> close_day x u s = (inr tt, s).
Proof.
  intros H. unfold close_day, begin, bind, gets.
  rewrite (day_closed_query s x H). reflexivity.
Qed.

Lemma task_on_closed_day_of s tid x :
  day_closed s x -> task_on_day s tid x -> task_on_closed_day s tid.
Proof.
  intros [(d & Hd & Hid) Hall] [(t & Ht & Htid) Hon]. split.
  - exists t, d. repeat split; try assumption. rewrite Hid. symmetry. apply Hon; assumption.
  - intros t' d' Ht' Htid' Hd' Hj. apply Hall; [exact Hd'|].
    rewrite Hj. apply Hon; assumption.
Qed.

Lemma day_flag_round_trip x d :
  (wd_id d = x -> wd_is_closed d = false) ->
  day_flag x false (day_flag x true d) = d.
Proof.
  intros H. unfold day_flag. destruct (wd_id d =? x)%N eqn:E.
  - cbn [wd_id]. rewrite E. apply N.eqb_eq in E. specialize (H E).
    destruct d as [i w dt lb c]. cbn in *. subst c. reflexivity.
  - rewrite E. reflexivity.
Qed.

Lemma close_then_reopen x u1 u2 s :
  day_open s x ->
  exists s1 s2,
    close_day x u1 s = (inr tt, s1) /\ reopen_day x u2 s1 = (inr tt, s2) /\
    work_days s2 = work_days s /\ work_tasks s2 = work_tasks s.
Proof.
  intros [Hex Hall].
  assert (Q : fetchone (map wd_is_closed
                 (filter (fun d => (wd_id d =? x)%N) (work_days s))) = Some false).
  { apply fetchone_all.
    - intro E. apply (day_query_nonempty x s Hex). rewrite E. reflexivity.
    - intros b Hb. apply in_map_iff in Hb. destruct Hb as (d & <- & Hd).
      apply filter_In in Hd. destruct Hd as [Hd Hid]. apply N.eqb_eq in Hid.
      apply Hall; assumption. }
  eexists. eexists. split; [|split].
  - unfold close_day, begin, bind, gets. rewrite Q. cbn [modify audit ret]. reflexivity.
  - unfold reopen_day, begin, bind, gets.
    rewrite (day_closed_query _ x (day_closed_after_flag x s _ Hex)).
    cbn [modify audit ret]. reflexivity.
  - split; [|reflexivity].
    rewrite !set_day_closed_unfold.
    cbn [work_days set_work_days set_audit_logs]. rewrite map_map.
    apply map_id_on. intros d Hd. apply day_flag_round_trip. intros Hid.
    apply Hall; assumption.
Qed.

(* ------------------------------------------------------------------ *)
(** ** Facts about the all-workers listing                             *)
(* ------------------------------------------------------------------ *)




(* ------------------------------------------------------------------ *)
(** ** Facts about creating and then deleting a task                   *)
(* ------------------------------------------------------------------ *)

Lemma tasks_with_days_app s l1 l2 :
  tasks_with_days (set_work_tasks s (l1 ++ l2))
  = tasks_with_days (set_work_tasks s l1) ++ tasks_with_days (set_work_tasks s l2).
Proof.
  unfold tasks_with_days. cbn [work_days work_tasks set_work_tasks].
  apply flat_map_app.
Qed.

Lemma tasks_with_days_same_tasks s : tasks_with_days (set_work_tasks s (work_tasks s))
                                     = tasks_with_days s.
Proof. reflexivity. Qed.

Lemma insert_work_task_fresh tid body s :
  (forall t, In t (work_tasks s) -> wt_id t <> tid) ->
  insert_work_task tid body s
  = set_work_tasks s
      (work_tasks s ++
       [mkworktask tid (c_work_day_id body) (c_task_type_id body) (c_quantity body)
                   (c_note body) pending None None None 0%Q None None None None]).
Proof.
  intros H. unfold insert_work_task.
  destruct (existsb (fun t => (wt_id t =? tid)%N) (work_tasks s)) eqn:E; [|reflexivity].
  apply existsb_exists in E. destruct E as (t & Ht & Hid). apply N.eqb_eq in Hid.
  exfalso. apply (H t Ht Hid).
Qed.

Lemma rows_of_fresh_task tid body s l :
  (forall t, In t (work_tasks s) -> wt_id t <> tid) ->
  filter (fun p => (wt_id (fst p) =? tid)%N)
         (tasks_with_days (set_audit_logs (insert_work_task tid body s) l))
  = map (fun d =>
           (mkworktask tid (c_work_day_id body) (c_task_type_id body) (c_quantity body)
                       (c_note body) pending None None None 0%Q None None None None, d))
        (filter (fun d => (wd_id d =? c_work_day_id body)%N) (work_days s)).
Proof.
  intros H. rewrite (insert_work_task_fresh tid body s H).
  change (tasks_with_days (set_audit_logs (set_work_tasks s ?x) l))
    with (tasks_with_days (set_work_tasks s x)).
  rewrite tasks_with_days_app, tasks_with_days_same_tasks, filter_app.
  rewrite (filter_nil_of _ (tasks_with_days s)).
  - cbn [app]. unfold tasks_with_days.
    cbn [work_days work_tasks set_work_tasks flat_map wt_work_day_id].
    rewrite app_nil_r.
    induction (filter (fun wd => (wd_id wd =? c_work_day_id body)%N) (work_days s))
      as [|d ds IH]; [reflexivity|].
    cbn [map filter fst wt_id]. rewrite N.eqb_refl, IH. reflexivity.
  - intros [t d] Hin. apply in_tasks_with_days in Hin. destruct Hin as (Ht & _).
    cbn [fst]. apply N.eqb_neq. apply H, Ht.
Qed.

Lemma delete_after_add fresh body u s tid s1 u' :
  add_work_task fresh body u s = (inr tid, s1) ->
  (forall t, In t (work_tasks s) -> wt_id t <> tid) ->
  (u_role u' = admin \/
   forall d, In d (work_days s) -> wd_id d = c_work_day_id body ->
             wd_logged_by d = u_id u') ->
  exists s2, delete_pending_task tid u' s1 = (inr tt, s2) /\
             work_tasks s2 = work_tasks s /\ work_days s2 = work_days s.
Proof.
  intros Hadd Hfresh Hrole.
  apply add_work_task_success in Hadd. destruct Hadd as (_ & _ & Hq & ->).
  set (new := mkworktask tid (c_work_day_id body) (c_task_type_id body)
                (c_quantity body) (c_note body) pending None None None 0%Q
                None None None None).
  set (l := audit_logs (insert_work_task tid body s)
            ++ [mkaudit (u_id u) (u_role u) "TASK_CREATE" "work_task" (Some tid)]).
  pose proof (rows_of_fresh_task tid body s l Hfresh) as Hrows. fold new in Hrows.
  unfold delete_pending_task, begin, bind.
  unfold assert_workday_open_by_task at 1. unfold bind, gets.
  unfold task_day_closed_rows. rewrite Hrows, map_map. cbn [snd].
  change (map (fun x : work_day_row => wd_is_closed x)) with (map wd_is_closed).
  rewrite Hq. cbn [ret]. rewrite Hrows, fetchone_map.
  destruct (fetchone (filter (fun d => (wd_id d =? c_work_day_id body)%N) (work_days s)))
    as [d|] eqn:F.
  2:{ rewrite fetchone_map, F in Hq. discriminate. }
  cbn [option_map]. cbn [wt_status new STATUS_eqb negb].
  assert (Hr : match u_role u' with
               | supervisor => negb (wd_logged_by d =? u_id u')%N
               | admin => false
               end = false).
  { destruct (u_role u') eqn:R; [reflexivity|].
    destruct Hrole as [Hr|Hr]; [discriminate|].
    apply fetchone_in, filter_In in F. destruct F as [Hd Hid]. apply N.eqb_eq in Hid.
    rewrite (Hr d Hd Hid), N.eqb_refl. reflexivity. }
  rewrite Hr. cbn [modify audit ret]. eexists. split; [reflexivity|].
  split; [|rewrite (insert_work_task_fresh tid body s Hfresh); reflexivity].
  cbn [work_tasks set_audit_logs set_work_tasks].
  rewrite (insert_work_task_fresh tid body s Hfresh).
  cbn [work_tasks set_work_tasks]. rewrite filter_app. cbn [filter wt_id].
  rewrite N.eqb_refl. cbn [negb]. rewrite app_nil_r.
  clear - Hfresh. induction (work_tasks s) as [|t ts IH]; [reflexivity|].
  cbn [filter].
  assert (E : (wt_id t =? tid)%N = false)
    by (apply N.eqb_neq, Hfresh; left; reflexivity).
  rewrite E. cbn [negb]. f_equal. apply IH. intros x Hx. apply Hfresh. right. exact Hx.
Qed.

(* ------------------------------------------------------------------ *)
(** ** The single decision and its caller                              *)
(* ------------------------------------------------------------------ *)

Lemma decide_task_any_caller now tid body u u' s :
  fst (decide_task now tid body u s) = fst (decide_task now tid body u' s) /\
  map (fun t => (wt_id t, wt_status t, wt_approved_pay_ngn t))
      (work_tasks (snd (decide_task now tid body u s)))
  = map (fun t => (wt_id t, wt_status t, wt_approved_pay_ngn t))
        (work_tasks (snd (decide_task now tid body u' s))).
Proof.
  unfold decide_task, begin, bind.
  unfold assert_workday_open_by_task. unfold bind, gets.
  destruct (fetchone (task_day_closed_rows s tid)) as [[|]|]; cbn [raise ret fst snd];
    try (split; reflexivity).
  destruct (fetchone (filter (fun p => (wt_id (fst p) =? tid)%N) (tasks_with_types s)))
    as [[wt ty]|]; cbn [raise fst snd]; [|split; reflexivity].
  destruct (is_some (wt_paid_run_id wt)); cbn [raise fst snd]; [split; reflexivity|].
  cbn [modify audit ret fst snd]. split; [reflexivity|].
  cbn [work_tasks set_audit_logs]. rewrite !update_decision_unfold.
  cbn [work_tasks set_work_tasks]. rewrite !map_map. apply map_ext.
  intros t. destruct (wt_id t =? tid)%N; reflexivity.
Qed.

(* ------------------------------------------------------------------ *)
(** ** The bulk decision of a supervisor                               *)
(* ------------------------------------------------------------------ *)

Section SupervisorScope.

Variables (s0 : store) (u : user) (t : work_task_row).
Hypothesis Hsup : u_role u = supervisor.
Hypothesis Hforeign :
  forall d, In d (work_days s0) -> wd_id d = wt_work_day_id t ->
            wd_logged_by d <> u_id u.

(** The days are those of [s0], task identifiers are unique, and [t] is
    stored as it was. *)
Let untouched (s : store) : Prop :=
  work_days s = work_days s0 /\ NoDup (map wt_id (work_tasks s)) /\
  In t (work_tasks s).

Lemma untouched_after_update s tid st by_ now reason pay l :
  untouched s -> wt_id t <> tid ->
  untouched (set_audit_logs (update_decision tid st by_ now reason pay s) l).
Proof.
  intros (Hd & Hn & Ht) Hne. split; [exact Hd|]. split.
  - cbn [work_tasks set_audit_logs]. rewrite update_decision_unfold.
    cbn [work_tasks set_work_tasks]. rewrite map_map.
    rewrite (map_ext _ wt_id); [exact Hn|].
    intros x. destruct (wt_id x =? tid)%N; reflexivity.
  - cbn [work_tasks set_audit_logs]. rewrite update_decision_unfold.
    cbn [work_tasks set_work_tasks]. apply in_map_iff. exists t. split; [|exact Ht].
    apply N.eqb_neq in Hne. rewrite Hne. reflexivity.
Qed.

Lemma keeps_untouched_bulk_decide_one now body updated tid :
  keeps untouched (bulk_decide_one now body u updated tid).
Proof.
  intros s HP. unfold bulk_decide_one, bind, try_http.
  unfold assert_workday_open_by_task at 1. unfold bind, gets.
  destruct (fetchone (task_day_closed_rows s tid)) as [[|]|]; cbn [raise ret snd];
    try exact HP.
  unfold can_decide_task. rewrite Hsup.
  destruct (fetchone (filter (fun p => (wt_id (fst p) =? tid)%N) (tasks_with_days s)))
    as [[wt wd]|] eqn:F; cbn [negb ret snd]; [|exact HP].
  destruct (wd_logged_by wd =? u_id u)%N eqn:L; cbn [negb ret snd]; [|exact HP].
  rewrite F. cbn [modify audit ret snd]. apply untouched_after_update; [exact HP|].
  intros Hid. destruct HP as (Hd & Hn & Ht).
  apply fetchone_in, filter_In in F. destruct F as [Hin Hw]. cbn [fst] in Hw.
  apply N.eqb_eq in Hw. apply in_tasks_with_days in Hin.
  destruct Hin as (Hwt & Hwd & Hj).
  assert (E : t = wt).
  { apply (NoDup_map_unique wt_id (work_tasks s)); try assumption. congruence. }
  subst wt. rewrite Hd in Hwd. apply N.eqb_eq in L.
  apply (Hforeign wd Hwd Hj L).
Qed.

Lemma bulk_decide_leaves_foreign_task now body :
  NoDup (map wt_id (work_tasks s0)) -> In t (work_tasks s0) ->
  In t (work_tasks (snd (bulk_decide now body u s0))).
Proof.
  intros Hn Ht.
  assert (H0 : untouched s0) by (split; [reflexivity | split; assumption]).
  assert (K : keeps untouched (bulk_decide now body u)).
  { unfold bulk_decide. destruct (b_task_ids body) as [|i ids]; [apply keeps_ret|].
    apply keeps_begin, keeps_for_fold. intros acc x.
    apply keeps_untouched_bulk_decide_one. }
  apply (K s0 H0).
Qed.

End SupervisorScope.

(* ------------------------------------------------------------------ *)
(** ** Day views: sums and the two rubrics                             *)
(* ------------------------------------------------------------------ *)

Lemma py_sum_value xs : forall start,
  (pynum_value (py_sum start xs) == pynum_value start + sumQ xs)%Q.
Proof.
  unfold py_sum. induction xs as [|x xs IH]; intros start; cbn [fold_left sumQ fold_right].
  - lra.
  - rewrite IH. unfold py_add. cbn [pynum_value]. rewrite Qred_correct.
    fold (sumQ xs). lra.
Qed.

Lemma py_sum_from_zero xs : (pynum_value (py_sum (PyInt 0) xs) == sumQ xs)%Q.
Proof. rewrite py_sum_value. cbn [pynum_value]. unfold inject_Z. lra. Qed.

Lemma sumQ_nonneg xs : (forall x, In x xs -> (0 <= x)%Q) -> (0 <= sumQ xs)%Q.
Proof.
  induction xs as [|x xs IH]; intros H; cbn [sumQ fold_right].
  - lra.
  - fold (sumQ xs).
    assert (0 <= x)%Q by (apply H; left; reflexivity).
    assert (0 <= sumQ xs)%Q by (apply IH; intros y Hy; apply H; right; exact Hy).
    lra.
Qed.

(** A narrower selection of non-negative entries sums to no more. *)
Lemma sumQ_filter_le {A} (v : A -> Q) (f g : A -> bool) (l : list A) :
  (forall x, In x l -> (0 <= v x)%Q) ->
  (forall x, f x = true -> g x = true) ->
  (sumQ (map v (filter f l)) <= sumQ (map v (filter g l)))%Q.
Proof.
  intros Hv Hfg. induction l as [|x l IH]; cbn [filter map sumQ fold_right].
  - lra.
  - assert (IH' : (sumQ (map v (filter f l)) <= sumQ (map v (filter g l)))%Q)
      by (apply IH; intros y Hy; apply Hv; right; exact Hy).
    assert (Hx : (0 <= v x)%Q) by (apply Hv; left; reflexivity).
    destruct (f x) eqn:Ef.
    + rewrite (Hfg x Ef). cbn [map sumQ fold_right].
      fold (sumQ (map v (filter f l))). fold (sumQ (map v (filter g l))). lra.
    + destruct (g x); cbn [map sumQ fold_right];
        fold (sumQ (map v (filter f l))); fold (sumQ (map v (filter g l))); lra.
Qed.

Lemma progress_value a b :
  progress_kg_equiv (rubric_from_logged a b) = (a + b / METRES_PER_KG_EQUIV)%Q.
Proof. reflexivity. Qed.

Lemma target_met_iff a b :
  target_met (rubric_from_logged a b) = true <->
  (DAILY_TARGET_KG_EQUIV <= a + b / METRES_PER_KG_EQUIV)%Q.
Proof. unfold rubric_from_logged. cbn [target_met]. apply Qle_bool_iff. Qed.

Lemma div_metres x : (x / METRES_PER_KG_EQUIV)%Q = (x * (1 # 60))%Q.
Proof. reflexivity. Qed.

(** The rubric is monotone in both totals: more combed and more woven
    means more progress, a met target stays met, and nothing more is
    needed. *)
Lemma rubric_monotone a b a' b' :
  (a' <= a)%Q -> (b' <= b)%Q ->
  (progress_kg_equiv (rubric_from_logged a' b')
     <= progress_kg_equiv (rubric_from_logged a b))%Q /\
  (target_met (rubric_from_logged a' b') = true ->
   target_met (rubric_from_logged a b) = true) /\
  (weaving_needed_m (rubric_from_logged a b)
     <= weaving_needed_m (rubric_from_logged a' b'))%Q /\
  (combing_needed_kg (rubric_from_logged a b)
     <= combing_needed_kg (rubric_from_logged a' b'))%Q.
Proof.
  intros Ha Hb.
  assert (Hp : (a' + b' / METRES_PER_KG_EQUIV <= a + b / METRES_PER_KG_EQUIV)%Q).
  { rewrite !div_metres. lra. }
  split; [rewrite !progress_value; exact Hp|].
  split.
  { rewrite !target_met_iff. intros H. apply (Qle_trans _ _ _ H Hp). }
  split.
  - destruct (Qlt_le_dec a 1) as [H1|H1], (Qlt_le_dec a' 1) as [H2|H2].
    + rewrite (proj1 (weaving_needed_cases a b) H1),
              (proj1 (weaving_needed_cases a' b') H2).
      unfold METRES_PER_KG_EQUIV. lra.
    + lra.
    + rewrite (proj2 (weaving_needed_cases a b) H1),
              (proj1 (weaving_needed_cases a' b') H2).
      unfold METRES_PER_KG_EQUIV. lra.
    + rewrite (proj2 (weaving_needed_cases a b) H1),
              (proj2 (weaving_needed_cases a' b') H2). lra.
  - destruct (Qlt_le_dec b METRES_PER_KG_EQUIV) as [H1|H1],
             (Qlt_le_dec b' METRES_PER_KG_EQUIV) as [H2|H2].
    + rewrite (proj1 (combing_needed_cases a b) H1),
              (proj1 (combing_needed_cases a' b') H2).
      rewrite !div_metres. unfold METRES_PER_KG_EQUIV. lra.
    + unfold METRES_PER_KG_EQUIV in *. lra.
    + rewrite (proj2 (combing_needed_cases a b) H1),
              (proj1 (combing_needed_cases a' b') H2).
      rewrite !div_metres. unfold METRES_PER_KG_EQUIV in *. lra.
    + rewrite (proj2 (combing_needed_cases a b) H1),
              (proj2 (combing_needed_cases a' b') H2). lra.
Qed.

Lemma day_tasks_nonneg s day_id p :
  quantities_nonneg s -> In p (day_tasks s day_id) -> (0 <= wt_quantity (fst p))%Q.
Proof.
  intros Hq Hin. unfold day_tasks in Hin. apply filter_In in Hin as [Hin _].
  destruct p as [t ty]. apply in_tasks_with_types in Hin as [Ht _].
  cbn [fst]. apply Hq, Ht.
Qed.

Lemma get_worker_days_loop s days : forall out,
  for_fold days out (fun out d =>
      v <- gets (fun s => day_view_of s d) ;; ret (out ++ [v])) s
  = (inr (out ++ map (day_view_of s) days), s).
Proof.
  induction days as [|d days IH]; intros out; cbn [for_fold map].
  - rewrite app_nil_r. reflexivity.
  - unfold bind at 1. unfold bind at 1. unfold gets, ret. cbn [fst snd].
    rewrite IH. rewrite <- app_assoc. reflexivity.
Qed.

(** The listing only reads: it returns one view per selected day, in the
    order of the selection, and the store is as before. *)
Lemma get_worker_days_run worker_id start end_ u s :
  get_worker_days worker_id start end_ u s
  = (inr (map (day_view_of s)
              (filter (worker_day_filter worker_id start end_) (work_days s))), s).
Proof.
  unfold get_worker_days, begin. unfold bind at 1. unfold gets at 1. cbn [fst snd].
  rewrite get_worker_days_loop. reflexivity.
Qed.

(** In each view the approved totals are bounded by the logged ones. *)
Lemma day_view_of_rubrics s d :
  quantities_nonneg s ->
  let v := day_view_of s d in
  (progress_kg_equiv (dv_rubric_approved v)
     <= progress_kg_equiv (dv_rubric_logged v))%Q /\
  (target_met (dv_rubric_approved v) = true ->
   target_met (dv_rubric_logged v) = true) /\
  (weaving_needed_m (dv_rubric_logged v)
     <= weaving_needed_m (dv_rubric_approved v))%Q /\
  (combing_needed_kg (dv_rubric_logged v)
     <= combing_needed_kg (dv_rubric_approved v))%Q.
Proof.
  intros Hq. cbv zeta. unfold day_view_of.
  cbn [dv_rubric_logged dv_rubric_approved].
  apply rubric_monotone.
  - rewrite !py_sum_from_zero. apply sumQ_filter_le.
    + intros p Hp. exact (day_tasks_nonneg s _ p Hq Hp).
    + intros p Hp. apply andb_true_iff in Hp as [Hp _]. exact Hp.
  - rewrite !py_sum_from_zero. apply sumQ_filter_le.
    + intros p Hp. exact (day_tasks_nonneg s _ p Hq Hp).
    + intros p Hp. apply andb_true_iff in Hp as [Hp _]. exact Hp.
Qed.

(* ------------------------------------------------------------------ *)
(** ** The approval queue                                              *)
(* ------------------------------------------------------------------ *)

Lemma in_tasks_days_types_workers s t d ty w :
  In (t, d, ty, w) (tasks_days_types_workers s) <->
  In (t, d, ty) (tasks_days_types s) /\ In w (workers s) /\ w_id w = wd_worker_id d.
Proof.
  unfold tasks_days_types_workers. rewrite in_flat_map. split.
  - intros ([[t0 d0] y0] & Hr & Hin). apply in_map_iff in Hin.
    destruct Hin as (w0 & Heq & Hw). cbn [fst snd] in *. inversion Heq; subst.
    apply filter_In in Hw. destruct Hw as [Hw E]. apply N.eqb_eq in E. auto.
  - intros (Hr & Hw & E). exists (t, d, ty). split; [exact Hr|].
    apply in_map_iff. exists w. split; [reflexivity|].
    apply filter_In. cbn [fst snd]. split; [assumption | apply N.eqb_eq; assumption].
Qed.

(** With unique keys the join has one row per task. *)
Lemma task_day_row_unique s t d :
  keys_unique s -> In (t, d) (tasks_with_days s) ->
  fetchone (filter (fun p => (wt_id (fst p) =? wt_id t)%N) (tasks_with_days s))
  = Some (t, d).
Proof.
  intros [Ht Hd] Hin. apply fetchone_all.
  - intros E.
    assert (Hf : In (t, d) (filter (fun p => (wt_id (fst p) =? wt_id t)%N)
                                   (tasks_with_days s))).
    { apply filter_In. split; [exact Hin | cbn [fst]; apply N.eqb_refl]. }
    rewrite E in Hf. destruct Hf.
  - intros [t' d'] Hy. apply filter_In in Hy as [Hy E]. cbn [fst] in E.
    apply N.eqb_eq in E.
    apply in_tasks_with_days in Hy as (Ht' & Hd' & Hj').
    apply in_tasks_with_days in Hin as (Ht0 & Hd0 & Hj0).
    assert (t' = t) by (apply (NoDup_map_unique wt_id (work_tasks s)); assumption).
    subst t'.
    assert (d' = d).
    { apply (NoDup_map_unique wd_id (work_days s)); try assumption. congruence. }
    subst d'. reflexivity.
Qed.

Lemma pending_tasks_run worker_id start end_ u s :
  pending_tasks worker_id start end_ u s
  = (inr (map pending_out
              (filter (pending_filter worker_id start end_ u)
                      (tasks_days_types_workers s))), s).
Proof. reflexivity. Qed.

(** A row that passes the filter of the queue is pending and within the
    caller's scope of decision. *)
Lemma pending_filter_scope worker_id start end_ u s t d ty w :
  keys_unique s ->
  In (t, d, ty, w) (tasks_days_types_workers s) ->
  pending_filter worker_id start end_ u (t, d, ty, w) = true ->
  wt_status t = pending /\
  can_decide_task s (u_id u) (u_role u) (wt_id t) = true.
Proof.
  intros Hk Hin Hf. unfold pending_filter in Hf.
  apply andb_true_iff in Hf as [Hf Hscope].
  apply andb_true_iff in Hf as [Hf _].
  apply andb_true_iff in Hf as [Hf _].
  apply andb_true_iff in Hf as [Hst _].
  split.
  - destruct (wt_status t); cbn in Hst; congruence.
  - unfold can_decide_task. destruct (u_role u); [reflexivity|].
    apply in_tasks_days_types_workers in Hin as (Hin & _ & _).
    apply in_tasks_days_types in Hin as (Ht & Hd & Hj & _ & _).
    rewrite (task_day_row_unique s t d Hk); [exact Hscope|].
    apply in_tasks_with_days. auto.
Qed.

(** Conversely, a pending row within the caller's scope passes the filter
    when no parameter narrows the queue. *)
Lemma pending_filter_of_scope u s t d ty w :
  keys_unique s ->
  In (t, d, ty, w) (tasks_days_types_workers s) ->
  wt_status t = pending ->
  can_decide_task s (u_id u) (u_role u) (wt_id t) = true ->
  pending_filter None None None u (t, d, ty, w) = true.
Proof.
  intros Hk Hin Hst Hc. unfold pending_filter. rewrite Hst. cbn [STATUS_eqb andb].
  unfold can_decide_task in Hc. destruct (u_role u); [reflexivity|].
  apply in_tasks_days_types_workers in Hin as (Hin & _ & _).
  apply in_tasks_days_types in Hin as (Ht & Hd & Hj & _ & _).
  rewrite (task_day_row_unique s t d Hk) in Hc; [exact Hc|].
  apply in_tasks_with_days. auto.
Qed.

(* ------------------------------------------------------------------ *)
(** ** Opening a work day                                              *)
(* ------------------------------------------------------------------ *)

Lemma date_eqb_refl d : date_eqb d d = true.
Proof. unfold date_eqb. rewrite !Z.eqb_refl. reflexivity. Qed.

Lemma date_eqb_eq a b : date_eqb a b = true -> a = b.
Proof.
  unfold date_eqb. intros H.
  apply andb_true_iff in H as [H Hd]. apply andb_true_iff in H as [Hy Hm].
  apply Z.eqb_eq in Hy, Hm, Hd. destruct a, b. cbn in *. congruence.
Qed.

Lemma same_day_key_spec body d :
  same_day_key body d = true ->
  wd_worker_id d = dc_worker_id body /\ wd_work_date d = dc_work_date body.
Proof.
  unfold same_day_key. intros H. apply andb_true_iff in H as [Hw Hd].
  apply N.eqb_eq in Hw. apply date_eqb_eq in Hd. auto.
Qed.

Lemma fetchone_filter_nil {A} (f : A -> bool) (l : list A) :
  fetchone (filter f l) = None -> filter f l = [].
Proof. destruct (filter f l); [reflexivity | discriminate]. Qed.

(** What one call does, by whether the day exists. *)
Lemma create_work_day_run fresh body u s :
  match fetchone (filter (same_day_key body) (work_days s)) with
  | Some d =>
    create_work_day fresh body u s
    = (inr (wd_id d),
       set_audit_logs s
         (audit_logs s ++
          [mkaudit (u_id u) (u_role u) "WORKDAY_UPSERT" "work_day" (Some (wd_id d))]))
  | None =>
    create_work_day fresh body u s
    = (inr fresh,
       set_audit_logs
         (set_work_days s
            (work_days s ++
             [mkworkday fresh (dc_worker_id body) (dc_work_date body) (u_id u) false]))
         (audit_logs s ++
          [mkaudit (u_id u) (u_role u) "WORKDAY_UPSERT" "work_day" (Some fresh)]))
  end.
Proof.
  unfold create_work_day, begin, bind, gets.
  destruct (fetchone (filter (same_day_key body) (work_days s))) as [d|]; reflexivity.
Qed.

Lemma create_work_day_again f1 f2 body u u' s i s1 :
  create_work_day f1 body u s = (inr i, s1) ->
  exists s2 d,
    create_work_day f2 body u' s1 = (inr i, s2) /\
    work_days s2 = work_days s1 /\ work_tasks s2 = work_tasks s1 /\
    In d (work_days s1) /\ wd_id d = i /\
    wd_worker_id d = dc_worker_id body /\ wd_work_date d = dc_work_date body.
Proof.
  intros H1. pose proof (create_work_day_run f1 body u s) as R1.
  destruct (fetchone (filter (same_day_key body) (work_days s))) as [d|] eqn:F.
  - rewrite R1 in H1. injection H1 as <- <-.
    pose proof (create_work_day_run f2 body u' (set_audit_logs s
         (audit_logs s ++
          [mkaudit (u_id u) (u_role u) "WORKDAY_UPSERT" "work_day" (Some (wd_id d))])))
      as R2.
    cbn [work_days set_audit_logs] in R2. rewrite F in R2.
    eexists. exists d. split; [exact R2|].
    apply fetchone_in, filter_In in F as [Hin Hk].
    apply same_day_key_spec in Hk as [Hw Hd].
    cbn [work_days work_tasks set_audit_logs].
    split; [reflexivity|]. split; [reflexivity|]. split; [exact Hin|].
    split; [reflexivity|]. split; assumption.
  - rewrite R1 in H1. injection H1 as <- <-.
    set (new := mkworkday f1 (dc_worker_id body) (dc_work_date body) (u_id u) false).
    pose proof (create_work_day_run f2 body u' (set_audit_logs
         (set_work_days s (work_days s ++ [new]))
         (audit_logs s ++
          [mkaudit (u_id u) (u_role u) "WORKDAY_UPSERT" "work_day" (Some f1)])))
      as R2.
    cbn [work_days set_audit_logs set_work_days] in R2.
    rewrite filter_app, (fetchone_filter_nil _ _ F) in R2.
    assert (Hk : same_day_key body new = true).
    { unfold same_day_key, new. cbn [wd_worker_id wd_work_date].
      rewrite N.eqb_refl, date_eqb_refl. reflexivity. }
    cbn [filter app] in R2. rewrite Hk in R2. cbn [fetchone hd_error] in R2.
    eexists. exists new. split; [exact R2|].
    cbn [work_days work_tasks set_audit_logs set_work_days].
    split; [reflexivity|]. split; [reflexivity|].
    split; [apply in_or_app; right; left; reflexivity|].
    split; [reflexivity|]. split; reflexivity.
Qed.

(* ------------------------------------------------------------------ *)
(** ** The payroll-due listing                                         *)
(* ------------------------------------------------------------------ *)

Lemma date_leb_antisym a b : date_ltb a b = false -> date_leb a b = true -> a = b.
Proof.
  intros H1 H2. apply date_leb_iff in H2.
  assert (N : ~ (year a < year b \/
               (year a = year b /\
                (month a < month b \/ (month a = month b /\ day a < day b))))).
  { intros C. apply date_ltb_iff in C. congruence. }
  destruct a as [y1 m1 d1], b as [y2 m2 d2]. cbn [year month day] in *.
  assert (y1 = y2) by lia. assert (m1 = m2) by lia. assert (d1 = d2) by lia.
  congruence.
Qed.

(** The period [compute_period] returns reaches [as_of]. *)
Lemma compute_period_reaches_as_of freq anchor as_of :
  valid_date anchor -> valid_date as_of -> (freq = monthly -> day anchor <= 28) ->
  date_leb as_of (snd (compute_period freq anchor as_of)) = true.
Proof.
  intros Ha Hs Hm. destruct (FREQ_monthly_dec freq) as [->|Hf].
  - apply (compute_period_monthly_small_anchor anchor as_of Ha Hs (Hm eq_refl)).
  - destruct (compute_period_fixed_block freq anchor as_of Hf Ha Hs)
      as (_ & Hv & _ & _ & Hle).
    apply date_leb_ord; assumption.
Qed.

Lemma due_entry_on_period_end s as_of r e :
  valid_date as_of ->
  (forall a, w_payout_anchor_date r = Some a ->
             valid_date a /\ (w_payout r = monthly -> day a <= 28)) ->
  In e (due_entry s as_of r) -> due_period_end e = as_of.
Proof.
  intros Hs Hr. unfold due_entry.
  destruct (w_payout_anchor_date r) as [a|] eqn:Ea; [|intros []].
  destruct (Hr a eq_refl) as [Ha Hm].
  destruct (date_ltb as_of (snd (compute_period (w_payout r) a as_of))) eqn:L;
    [intros []|].
  destruct (Qlt_bool 0 _); [|intros []].
  intros [<-|[]]. cbn [due_period_end]. symmetry.
  apply date_leb_antisym; [exact L|].
  apply compute_period_reaches_as_of; assumption.
Qed.

(* ------------------------------------------------------------------ *)
(** ** Rounding to two places                                          *)
(* ------------------------------------------------------------------ *)

(** Any integer [k] within half a unit of [100 * |n| / d] gives a value
    within 1/200 of [n / d]. *)
Lemma hundredths_within_half (n : Z) (d : positive) (k : Z) :
  2 * Zpos d * k <= 2 * (Z.abs n * 100) + Zpos d ->
  2 * (Z.abs n * 100) <= 2 * Zpos d * k + Zpos d ->
  ((n # d) - (1 # 200) <= (Z.sgn n * k) # 100)%Q /\
  ((Z.sgn n * k) # 100 <= (n # d) + (1 # 200))%Q.
Proof.
  intros H1 H2. unfold Qle, Qminus, Qplus, Qopp. cbn [Qnum Qden].
  rewrite !Pos2Z.inj_mul.
  destruct n as [|p|p]; cbn [Z.sgn Z.abs] in *; lia.
Qed.

Lemma quantize_half_up_within x :
  (x - (1 # 200) <= quantize_half_up x)%Q /\ (quantize_half_up x <= x + (1 # 200))%Q.
Proof.
  destruct x as [n d]. unfold quantize_half_up. cbn [Qnum Qden].
  apply hundredths_within_half.
  - pose proof (Z.mul_div_le (2 * (Z.abs n * 100) + Zpos d) (2 * Zpos d)). lia.
  - pose proof (Z.mul_succ_div_gt (2 * (Z.abs n * 100) + Zpos d) (2 * Zpos d)). lia.
Qed.

Lemma quantize_half_even_within x :
  (x - (1 # 200) <= quantize_half_even x)%Q /\
  (quantize_half_even x <= x + (1 # 200))%Q.
Proof.
  destruct x as [n d]. unfold quantize_half_even. cbn [Qnum Qden].
  pose proof (Z.div_mod (Z.abs n * 100) (Zpos d)) as E.
  pose proof (Z.mod_pos_bound (Z.abs n * 100) (Zpos d)) as B.
  apply hundredths_within_half;
    destruct (2 * ((Z.abs n * 100) mod Zpos d) <? Zpos d) eqn:L1;
    try apply Z.ltb_lt in L1; try apply Z.ltb_ge in L1;
    try (destruct (Zpos d <? 2 * ((Z.abs n * 100) mod Zpos d)) eqn:L2;
         try apply Z.ltb_lt in L2; try apply Z.ltb_ge in L2;
         try destruct (Z.even (Z.abs n * 100 / Zpos d)));
    lia.
Qed.

Lemma quantize_half_up_nonneg x : (0 <= x)%Q -> (0 <= quantize_half_up x)%Q.
Proof.
  destruct x as [n d]. unfold quantize_half_up, Qle. cbn [Qnum Qden].
  intros H. rewrite Z.mul_1_r in *.
  assert (0 <= (2 * (Z.abs n * 100) + Zpos d) / (2 * Zpos d))
    by (apply Z.div_pos; lia).
  destruct n as [|p|p]; cbn [Z.sgn]; lia.
Qed.

(* ------------------------------------------------------------------ *)
(** ** The single-worker payroll view                                  *)
(* ------------------------------------------------------------------ *)

(** A sum started from a decimal is a decimal. *)
Lemma py_sum_decimal xs : forall q,
  py_sum (PyDecimal q) xs = PyDecimal (pynum_value (py_sum (PyDecimal q) xs)).
Proof.
  unfold py_sum. induction xs as [|x xs IH]; intros q; cbn [fold_left].
  - reflexivity.
  - unfold py_add at 2 4. apply IH.
Qed.

Lemma py_quantize_decimal xs q s :
  py_quantize (py_sum (PyDecimal q) xs) s
  = (inr (quantize_half_even (pynum_value (py_sum (PyDecimal q) xs))), s).
Proof. rewrite py_sum_decimal at 1. reflexivity. Qed.

Lemma payroll_run worker_id as_of u s w a :
  fetchone (filter (fun w => (w_id w =? worker_id)%N) (workers s)) = Some w ->
  w_payout_anchor_date w = Some a ->
  let p := period_for_worker (w_payout w) a as_of in
  let rows := payroll_rows s worker_id (fst p) (snd p) in
  payroll worker_id as_of u s
  = (inr (mkpayrollout (w_id w) (w_full_name w) (w_payout w) (fst p) (snd p)
            (quantize_half_even (pynum_value (py_sum (PyDecimal 0) (map col2 rows))))
            (pynum_value (py_sum (PyDecimal 0)
               (map col1 (filter (fun r => String.eqb (col0 r) "COMBING") rows))))
            (pynum_value (py_sum (PyDecimal 0)
               (map col1 (filter (fun r => String.eqb (col0 r) "WEAVING") rows))))),
     s).
Proof.
  intros Hw Ha p rows. unfold payroll, begin, bind, gets. rewrite Hw.
  unfold call_period_for_worker. rewrite Ha. cbn [ret fst snd].
  fold p. fold rows. rewrite py_quantize_decimal. reflexivity.
Qed.
(* ------------------------------------------------------------------ *)
(** ** Claims on the period calculators                                *)
(* ------------------------------------------------------------------ *)




(** C6 (as the code has it): for a monthly worker [period_for_worker] returns
    the first day of [as_of]'s calendar month through [as_of], whatever the
    anchor.  [compute_period] starts on the most recent occurrence of the
    anchor's day-of-month (clamped to the month's last day) on or before
    [as_of]; when that start carries the anchor's own day-of-month, the period
    ends the day before the following month's clamped anchor day.  All
    boundaries are valid calendar dates. *)
Theorem monthly_period_boundaries anchor as_of :
  valid_date anchor -> valid_date as_of ->
  (period_for_worker monthly anchor as_of
     = (mkdate (year as_of) (month as_of) 1, as_of) /\
   valid_date (fst (period_for_worker monthly anchor as_of)) /\
   valid_date (snd (period_for_worker monthly anchor as_of))) /\
  (valid_date (fst (compute_period monthly anchor as_of)) /\
   valid_date (snd (compute_period monthly anchor as_of)) /\
   fst (compute_period monthly anchor as_of)
     = anchor_day_in (year (fst (compute_period monthly anchor as_of)))
                     (month (fst (compute_period monthly anchor as_of)))
                     (day anchor) /\
   date_leb (fst (compute_period monthly anchor as_of)) as_of = true /\
   (forall y m, 1 <= m <= 12 ->
      date_leb (anchor_day_in y m (day anchor)) as_of = true ->
      date_leb (anchor_day_in y m (day anchor))
               (fst (compute_period monthly anchor as_of)) = true) /\
   (day (fst (compute_period monthly anchor as_of)) = day anchor ->
    exists y' m',
      (month (fst (compute_period monthly anchor as_of)) < 12 /\
       y' = year (fst (compute_period monthly anchor as_of)) /\
       m' = month (fst (compute_period monthly anchor as_of)) + 1
       \/
       month (fst (compute_period monthly anchor as_of)) = 12 /\
       y' = year (fst (compute_period monthly anchor as_of)) + 1 /\
       m' = 1) /\
      snd (compute_period monthly anchor as_of)
        = add_days (anchor_day_in y' m' (day anchor)) (-1) /\
      toordinal (snd (compute_period monthly anchor as_of))
        = toordinal (anchor_day_in y' m' (day anchor)) - 1)).
Proof.
  intros Ha Hs. split.
  - rewrite period_for_worker_monthly. cbn [fst snd].
    split; [reflexivity|]. split; [|exact Hs].
    destruct Hs as [Hm Hd]. unfold valid_date. cbn [year month day].
    pose proof (monthrange_last_bounds (year as_of) (month as_of)). lia.
  - destruct (monthly_start_shape anchor as_of Ha Hs) as (Hv & Hshape & Hle & Hrecent).
    destruct (compute_period_monthly_end anchor as_of Ha Hs) as (Hend & Hve & _).
    set (p := compute_period monthly anchor as_of) in *.
    split; [exact Hv|]. split; [exact Hve|]. split; [exact Hshape|].
    split; [exact Hle|]. split; [exact Hrecent|].
    intros Hday.
    destruct (add_month_after (fst p) Hv) as (Hv2 & _ & Hnext).
    exists (year (add_month (fst p))), (month (add_month (fst p))).
    assert (Hadd : add_month (fst p)
                   = anchor_day_in (year (add_month (fst p)))
                                   (month (add_month (fst p))) (day anchor)).
    { unfold add_month, anchor_day_in. cbn [year month day]. rewrite Hday. reflexivity. }
    split; [lia|]. rewrite <- Hadd. split; [exact Hend|].
    rewrite Hend. apply (add_days_spec (add_month (fst p)) (-1) Hv2).
Qed.

(** C6, instance: anchor day 31, asked for 2024-02-10. *)
Lemma monthly_period_boundaries_witness :
  period_for_worker monthly (mkdate 2023 1 31) (mkdate 2024 2 10)
    = (mkdate 2024 2 1, mkdate 2024 2 10) /\
  fst (compute_period monthly (mkdate 2023 1 31) (mkdate 2024 2 10))
    = mkdate 2024 1 31 /\
  snd (compute_period monthly (mkdate 2023 1 31) (mkdate 2024 2 10))
    = mkdate 2024 2 28.
Proof.
  assert (Ha : valid_date (mkdate 2023 1 31)) by (apply valid_dateb_spec; reflexivity).
  assert (Hs : valid_date (mkdate 2024 2 10)) by (apply valid_dateb_spec; reflexivity).
  destruct (monthly_period_boundaries (mkdate 2023 1 31) (mkdate 2024 2 10) Ha Hs)
    as [[Hp _] _].
  split; [exact Hp|]. split; reflexivity.
Defined.

(** C6, counterexample: anchor day 15, [as_of] 2024-03-20.  The most recent
    anchor day on or before [as_of] is 2024-03-15 and the day before the next
    one is 2024-04-14, but [period_for_worker] answers 2024-03-01 through
    2024-03-20. *)
Lemma period_for_worker_monthly_ignores_anchor :
  valid_date (mkdate 2024 1 15) /\ valid_date (mkdate 2024 3 20) /\
  anchor_day_in 2024 3 (day (mkdate 2024 1 15)) = mkdate 2024 3 15 /\
  date_leb (mkdate 2024 3 15) (mkdate 2024 3 20) = true /\
  fst (period_for_worker monthly (mkdate 2024 1 15) (mkdate 2024 3 20))
    <> mkdate 2024 3 15 /\
  snd (period_for_worker monthly (mkdate 2024 1 15) (mkdate 2024 3 20))
    <> mkdate 2024 4 14.
Proof.
  split; [apply valid_dateb_spec; reflexivity|].
  split; [apply valid_dateb_spec; reflexivity|].
  split; [reflexivity|]. split; [reflexivity|].
  split; cbn; discriminate.
Qed.

(* ------------------------------------------------------------------ *)
(** ** Claims on the rubric evaluator                                  *)
(* ------------------------------------------------------------------ *)

(** C9 (as the code has it): for all quantities the evaluator returns
    progress = combed + woven / 60 and target_met iff progress >= 1; the
    weaving still needed is (1 - combed) * 60 below one kilogram and 0 from
    there on, the combing still needed is (60 - woven) / 60 below sixty metres
    and 0 from there on, so neither is ever negative.  For combed = 0 and
    woven = 30: progress 1/2, target not met, 60 metres of weaving and 1/2
    kilogram of combing still needed. *)
Theorem rubric_from_logged_spec (combed_kg woven_m : Q) :
  (progress_kg_equiv (rubric_from_logged combed_kg woven_m)
     == combed_kg + woven_m / 60)%Q /\
  (target_met (rubric_from_logged combed_kg woven_m) = true <->
   (1 <= progress_kg_equiv (rubric_from_logged combed_kg woven_m))%Q) /\
  (0 <= weaving_needed_m (rubric_from_logged combed_kg woven_m))%Q /\
  (0 <= combing_needed_kg (rubric_from_logged combed_kg woven_m))%Q /\
  (weaving_needed_m (rubric_from_logged combed_kg woven_m)
     == (if Qlt_bool combed_kg 1 then (1 - combed_kg) * 60 else 0))%Q /\
  (combing_needed_kg (rubric_from_logged combed_kg woven_m)
     == (if Qlt_bool woven_m 60 then (60 - woven_m) / 60 else 0))%Q /\
  (progress_kg_equiv (rubric_from_logged 0 30) == 1 # 2)%Q /\
  target_met (rubric_from_logged 0 30) = false /\
  (weaving_needed_m (rubric_from_logged 0 30) == 60)%Q /\
  (combing_needed_kg (rubric_from_logged 0 30) == 1 # 2)%Q.
Proof.
  destruct (weaving_needed_cases combed_kg woven_m) as [Hw1 Hw2].
  destruct (combing_needed_cases combed_kg woven_m) as [Hc1 Hc2].
  split; [reflexivity|]. split; [apply Qle_bool_iff|].
  assert (W : (weaving_needed_m (rubric_from_logged combed_kg woven_m)
     == (if Qlt_bool combed_kg 1 then (1 - combed_kg) * 60 else 0))%Q).
  { destruct (Qlt_bool combed_kg 1) eqn:E.
    - apply Qlt_bool_iff in E. rewrite (Hw1 E). reflexivity.
    - apply Qlt_bool_false_iff in E. rewrite (Hw2 E). reflexivity. }
  assert (C : (combing_needed_kg (rubric_from_logged combed_kg woven_m)
     == (if Qlt_bool woven_m 60 then (60 - woven_m) / 60 else 0))%Q).
  { destruct (Qlt_bool woven_m 60) eqn:E.
    - apply Qlt_bool_iff in E. rewrite (Hc1 E). reflexivity.
    - apply Qlt_bool_false_iff in E. rewrite (Hc2 E). reflexivity. }
  split; [|split; [|split; [exact W | split; [exact C|]]]].
  - rewrite W. destruct (Qlt_bool combed_kg 1) eqn:E; [|apply Qle_refl].
    apply Qlt_bool_iff in E.
    apply Qmult_le_0_compat; [|discriminate].
    apply Qlt_le_weak in E. unfold Qminus. rewrite <- (Qplus_opp_r combed_kg).
    apply Qplus_le_compat; [exact E | apply Qle_refl].
  - rewrite C. destruct (Qlt_bool woven_m 60) eqn:E; [|apply Qle_refl].
    apply Qlt_bool_iff in E. unfold Qdiv.
    apply Qmult_le_0_compat; [|discriminate].
    apply Qlt_le_weak in E. unfold Qminus. rewrite <- (Qplus_opp_r woven_m).
    apply Qplus_le_compat; [exact E | apply Qle_refl].
  - repeat split; reflexivity.
Qed.

(** C9, counterexample: with no combing and 30 metres woven, neither of the
    two remaining figures is zero: 60 metres of weaving and half a kilogram
    of combing are still needed. *)
Lemma rubric_remaining_not_zero :
  (weaving_needed_m (rubric_from_logged 0 30) == 60)%Q /\
  ~ (weaving_needed_m (rubric_from_logged 0 30) == 0)%Q /\
  (combing_needed_kg (rubric_from_logged 0 30) == 1 # 2)%Q /\
  ~ (combing_needed_kg (rubric_from_logged 0 30) == 0)%Q.
Proof.
  split; [reflexivity|]. split; [intro H; vm_compute in H; discriminate|].
  split; [reflexivity|]. intro H; vm_compute in H; discriminate.
Qed.

(* ------------------------------------------------------------------ *)
(** ** Claims on the day lock and the approval endpoints               *)
(* ------------------------------------------------------------------ *)

(** C8 (as the code has it): when the work day [day_id] is closed and task
    [tid] lies on a closed day, creating a task on that day, editing the task,
    deleting it and deciding it each raise an HTTP 400 error, not 409, and
    leave the whole store as it was; the bulk decision skips such a task
    without an error and without a write. *)
Theorem closed_day_rejects_mutations s day_id tid :
  day_closed s day_id -> task_on_closed_day s tid ->
  (forall fresh body u, c_work_day_id body = day_id ->
     add_work_task fresh body u s
     = (inl (HTTPException 400
               (if Qlt_bool (c_quantity body) 0
                then "Quantity cannot be negative" else "Work day is closed")), s)) /\
  (forall now body u,
     update_pending_task now tid body u s
     = (inl (HTTPException 400 "Work day is closed"), s)) /\
  (forall u,
     delete_pending_task tid u s = (inl (HTTPException 400 "Work day is closed"), s)) /\
  (forall now body u,
     decide_task now tid body u s = (inl (HTTPException 400 "Work day is closed"), s)) /\
  (forall now d reason u,
     bulk_decide now (mkbulk [tid] d reason) u s = (inr 0, s)).
Proof.
  intros Hday Htask. repeat split.
  - intros fresh body u E. apply add_work_task_closed. rewrite E. exact Hday.
  - intros. apply update_pending_task_closed, Htask.
  - intros. apply delete_pending_task_closed, Htask.
  - intros. apply decide_task_closed, Htask.
  - intros. apply bulk_decide_closed. cbn [b_task_ids].
    intros t [<-|[]]. exact Htask.
Qed.

(** The sample day 20, once closed, and the pending task 30 logged on it. *)
Lemma sample_day_closed :
  day_closed (Sample.factory [] Sample.wednesday_closed
                [Sample.task 30 2 pending 0 None]) 20.
Proof.
  split.
  - exists Sample.wednesday_closed. split; [left; reflexivity | reflexivity].
  - intros d [<-|[]] _. reflexivity.
Defined.

Lemma sample_task_on_closed_day :
  task_on_closed_day (Sample.factory [] Sample.wednesday_closed
                        [Sample.task 30 2 pending 0 None]) 30.
Proof.
  split.
  - exists (Sample.task 30 2 pending 0 None), Sample.wednesday_closed.
    repeat split; left; reflexivity.
  - intros t d _ _ [<-|[]] _. reflexivity.
Defined.

(** C8, instance: deciding task 30 of the closed sample day. *)
Lemma closed_day_rejects_mutations_witness :
  decide_task 5 30 (mkdecision decide_approved None) Sample.boss
    (Sample.factory [] Sample.wednesday_closed [Sample.task 30 2 pending 0 None])
  = (inl (HTTPException 400 "Work day is closed"),
     Sample.factory [] Sample.wednesday_closed [Sample.task 30 2 pending 0 None]).
Proof.
  exact (proj1 (proj2 (proj2 (proj2
    (closed_day_rejects_mutations _ 20%N 30%N
       sample_day_closed sample_task_on_closed_day))))
    5 (mkdecision decide_approved None) Sample.boss).
Defined.

(** C8, counterexample: deciding a task of a closed day raises status 400;
    the error is not the 409 Conflict that the already-paid check raises. *)
Lemma closed_day_error_is_not_conflict :
  fst (decide_task 5 30 (mkdecision decide_approved None) Sample.boss
         (Sample.factory [] Sample.wednesday_closed [Sample.task 30 2 pending 0 None]))
  = inl (HTTPException 400 "Work day is closed") /\
  is_conflict (HTTPException 400 "Work day is closed") = false /\
  fst (add_work_task 31 (mkcreate None 20 10 1 None) Sample.boss
         (Sample.factory [] Sample.wednesday_closed [Sample.task 30 2 pending 0 None]))
  = inl (HTTPException 400 "Work day is closed").
Proof. repeat split. Qed.


(** C4, evaluated.  Worker 1 has an override of 150 for combing, whose type
    rate is 100: the single decision on one unit settles 100.00, the bulk
    decision 150.00.  With a rate of 1 and a quantity of 1/8 the bulk decision
    settles 0.12, where rounding half up gives 0.13.  A rejection settles 0 on
    both paths. *)
Theorem decide_task_ignores_override_and_bulk_rounds_half_even :
  effective_rate (Sample.factory [mkworkerrate 1 10 150] Sample.wednesday
                    [Sample.task 30 1 pending 0 None]) 1 10 = 150%Q /\
  fst (decide_task 5 30 (mkdecision decide_approved None) Sample.boss
         (Sample.factory [mkworkerrate 1 10 150] Sample.wednesday
            [Sample.task 30 1 pending 0 None]))
  = inr (10000 # 100) /\
  map wt_approved_pay_ngn
      (work_tasks
         (snd (decide_task 5 30 (mkdecision decide_approved None) Sample.boss
                 (Sample.factory [mkworkerrate 1 10 150] Sample.wednesday
                    [Sample.task 30 1 pending 0 None]))))
  = [10000 # 100] /\
  quantize_half_up (1 * 150) = 15000 # 100 /\
  map wt_approved_pay_ngn
      (work_tasks
         (snd (bulk_decide 5 (mkbulk [30%N] decide_approved None) Sample.boss
                 (Sample.factory [mkworkerrate 1 10 150] Sample.wednesday
                    [Sample.task 30 1 pending 0 None]))))
  = [15000 # 100] /\
  map wt_approved_pay_ngn
      (work_tasks
         (snd (bulk_decide 5 (mkbulk [30%N] decide_approved None) Sample.boss
                 (Sample.factory [mkworkerrate 1 10 1] Sample.wednesday
                    [Sample.task 30 (1 # 8) pending 0 None]))))
  = [12 # 100] /\
  quantize_half_up ((1 # 8) * 1) = 13 # 100 /\
  map wt_approved_pay_ngn
      (work_tasks
         (snd (decide_task 5 30 (mkdecision decide_rejected None) Sample.boss
                 (Sample.factory [mkworkerrate 1 10 150] Sample.wednesday
                    [Sample.task 30 1 pending 0 None]))))
  = [0%Q] /\
  map wt_approved_pay_ngn
      (work_tasks
         (snd (bulk_decide 5 (mkbulk [30%N] decide_rejected None) Sample.boss
                 (Sample.factory [mkworkerrate 1 10 150] Sample.wednesday
                    [Sample.task 30 1 pending 0 None]))))
  = [0%Q].
Proof. repeat split. Qed.

(* ------------------------------------------------------------------ *)
(** ** Claims on the payroll run and the payroll views                 *)
(* ------------------------------------------------------------------ *)


(** C7: a payroll run adds no run item for any worker, so none for a worker
    without eligible tasks; in the loop body a worker whose selection is empty
    makes the run raise before the insert; and the payroll-due listing never
    raises, writes nothing, and lists only active workers whose period ended
    on or before [as_of] and whose total pay is positive. *)
Theorem run_items_only_when_something_to_pay s :
  (forall run now body u,
     payroll_run_items (snd (create_payroll_run run now body u s))
     = payroll_run_items s) /\
  (forall run now w wid st en q,
     run_rows s (col0 q) (col1 q) (col2 q) = [] ->
     settle_worker run now w wid st en q s
     = (inl (AttributeError "'int' object has no attribute 'quantize'"), s)) /\
  (forall as_of u,
     exists due,
       payroll_due as_of u s = (inr due, s) /\
       forall e, In e due ->
         (0 < due_approved_total_pay_ngn e)%Q /\
         date_leb (due_period_end e) as_of = true /\
         exists w, In w (workers s) /\ w_is_active w = true /\
                   due_worker_id e = w_id w /\
                   due_approved_total_pay_ngn e
                   = col2 (due_totals s (w_id w) (due_period_start e)
                                      (due_period_end e))).
Proof.
  split; [|split].
  - intros. apply create_payroll_run_keeps_tasks_and_items.
  - intros. apply settle_worker_nothing_selected. assumption.
  - intros as_of u. eexists. split; [apply payroll_due_value|].
    intros e He. apply in_flat_map in He. destruct He as (w & Hw & He).
    apply due_workers_active in Hw.
    destruct (due_entry_positive s as_of w e He) as (H1 & H2 & H3 & H4).
    split; [exact H1|]. split; [exact H2|]. exists w. tauto.
Qed.

(** C3, evaluated.  Ada has one approved, unpaid combing task of quantity 2
    settled at 200.00 in her week.  The payroll run raises [NameError] on the
    query parameters and stores nothing.  The loop body, given the parameters
    the loop had computed, stores a run item whose total pay is 2.00, the sum
    of the quantities, and whose two category totals are 0. *)
Theorem create_payroll_run_totals_evaluated :
  period_for_worker weekly (mkdate 2024 1 1) (mkdate 2024 1 5)
  = (mkdate 2024 1 1, mkdate 2024 1 5) /\
  payroll_rows (Sample.factory [] Sample.wednesday [Sample.task 30 2 approved 200 None])
               1 (mkdate 2024 1 1) (mkdate 2024 1 5)
  = [("COMBING"%string, 2%Q, 200%Q)] /\
  create_payroll_run 77 9 (mkruncreate (mkdate 2024 1 5) None) Sample.boss
    (Sample.factory [] Sample.wednesday [Sample.task 30 2 approved 200 None])
  = (inl (NameError "worker_id"),
     Sample.factory [] Sample.wednesday [Sample.task 30 2 approved 200 None]) /\
  payroll_run_items
    (snd (settle_worker 77 9 Sample.ada 1 (mkdate 2024 1 1) (mkdate 2024 1 5)
            (1%N, mkdate 2024 1 1, mkdate 2024 1 5)
            (Sample.factory [] Sample.wednesday [Sample.task 30 2 approved 200 None])))
  = [mkrunitem 77 1 "Ada" weekly (mkdate 2024 1 1) (mkdate 2024 1 5) (200 # 100) 0 0].
Proof. repeat split. Qed.


(* ------------------------------------------------------------------ *)
(** ** Further properties of the period calculators                    *)
(* ------------------------------------------------------------------ *)

(** X1: for every frequency, anchor and as-of date, the period returned by
    [period_for_worker] ends on [as_of] itself: the views and the payroll run
    never look past the as-of date, and never stop short of it. *)
Theorem period_for_worker_ends_at_as_of freq anchor as_of :
  valid_date anchor -> valid_date as_of ->
  snd (period_for_worker freq anchor as_of) = as_of.
Proof. apply period_for_worker_end. Qed.

(** X1, instance. *)
Lemma period_for_worker_ends_at_as_of_witness :
  snd (period_for_worker biweekly (mkdate 2024 1 10) (mkdate 2024 3 1))
  = mkdate 2024 3 1.
Proof.
  assert (Ha : valid_date (mkdate 2024 1 10)) by (apply valid_dateb_spec; reflexivity).
  assert (Hs : valid_date (mkdate 2024 3 1)) by (apply valid_dateb_spec; reflexivity).
  exact (period_for_worker_ends_at_as_of biweekly (mkdate 2024 1 10) (mkdate 2024 3 1)
           Ha Hs).
Defined.

(** X2: for a weekly or biweekly worker [compute_period] returns a block of
    exactly 7 or 14 days that contains [as_of] and starts a whole number of
    blocks away from the anchor, before the anchor as well as after it; and
    every day of that block is given the same block. *)
Theorem compute_period_fixed_block_tiles freq anchor as_of :
  freq <> monthly -> valid_date anchor -> valid_date as_of ->
  date_leb (fst (compute_period freq anchor as_of)) as_of = true /\
  date_leb as_of (snd (compute_period freq anchor as_of)) = true /\
  days_between (snd (compute_period freq anchor as_of))
               (fst (compute_period freq anchor as_of)) = block_of freq - 1 /\
  (days_between (fst (compute_period freq anchor as_of)) anchor) mod block_of freq = 0 /\
  (forall x, valid_date x ->
     date_leb (fst (compute_period freq anchor as_of)) x = true ->
     date_leb x (snd (compute_period freq anchor as_of)) = true ->
     compute_period freq anchor x = compute_period freq anchor as_of).
Proof.
  intros Hf Ha Hs.
  destruct (compute_period_fixed_block freq anchor as_of Hf Ha Hs) as (Hv & Hve & Hl & Hc).
  destruct (compute_period_fixed_start freq anchor as_of Hf Ha Hs) as (_ & Ho & _).
  split; [apply date_leb_ord; try assumption; lia|].
  split; [apply date_leb_ord; try assumption; lia|].
  split; [unfold days_between; lia|].
  split.
  - unfold days_between. rewrite Ho.
    replace (toordinal anchor
             + (toordinal as_of - toordinal anchor) / block_of freq * block_of freq
             - toordinal anchor)
      with ((toordinal as_of - toordinal anchor) / block_of freq * block_of freq) by lia.
    apply Z.mod_mul. destruct freq; cbn; lia.
  - intros x Hx H1 H2. apply compute_period_fixed_stable; assumption.
Qed.

(** X2, instance: an as-of date before the anchor. *)
Lemma compute_period_fixed_block_tiles_witness :
  compute_period weekly (mkdate 2024 1 10) (mkdate 2023 12 30)
  = compute_period weekly (mkdate 2024 1 10) (mkdate 2023 12 27).
Proof.
  assert (Hf : weekly <> monthly) by discriminate.
  assert (Ha : valid_date (mkdate 2024 1 10)) by (apply valid_dateb_spec; reflexivity).
  assert (Hs : valid_date (mkdate 2023 12 27)) by (apply valid_dateb_spec; reflexivity).
  assert (Hx : valid_date (mkdate 2023 12 30)) by (apply valid_dateb_spec; reflexivity).
  apply (proj2 (proj2 (proj2 (proj2
    (compute_period_fixed_block_tiles weekly (mkdate 2024 1 10) (mkdate 2023 12 27)
       Hf Ha Hs)))) (mkdate 2023 12 30) Hx); vm_compute; reflexivity.
Defined.

(** X3: for a weekly or biweekly worker and an as-of date on or after the
    anchor, the two period calculators start on the same day;
    [period_for_worker] returns the block of [compute_period] cut at
    [as_of]. *)
Theorem period_for_worker_is_block_cut_at_as_of freq anchor as_of :
  freq <> monthly -> valid_date anchor -> valid_date as_of ->
  date_leb anchor as_of = true ->
  period_for_worker freq anchor as_of = (fst (compute_period freq anchor as_of), as_of).
Proof.
  intros Hf Ha Hs Hle.
  rewrite (surjective_pairing (period_for_worker freq anchor as_of)).
  rewrite (period_for_worker_end freq anchor as_of Ha Hs).
  rewrite (period_for_worker_start freq anchor as_of Hf Ha Hs Hle). reflexivity.
Qed.

(** X3, instance. *)
Lemma period_for_worker_is_block_cut_at_as_of_witness :
  period_for_worker weekly (mkdate 2024 1 1) (mkdate 2024 1 17)
  = (fst (compute_period weekly (mkdate 2024 1 1) (mkdate 2024 1 17)), mkdate 2024 1 17).
Proof.
  assert (Hf : weekly <> monthly) by discriminate.
  assert (Ha : valid_date (mkdate 2024 1 1)) by (apply valid_dateb_spec; reflexivity).
  assert (Hs : valid_date (mkdate 2024 1 17)) by (apply valid_dateb_spec; reflexivity).
  apply (period_for_worker_is_block_cut_at_as_of weekly (mkdate 2024 1 1)
           (mkdate 2024 1 17) Hf Ha Hs). vm_compute. reflexivity.
Defined.

(** X4: with an anchor on day 1 to 28, the monthly period of [compute_period]
    starts on the anchor's day-of-month, contains [as_of], and the day after
    its end is the anchor day of the following month, where the next period
    starts: such periods follow one another without gap or overlap. *)
Theorem compute_period_monthly_small_anchor_tiles anchor as_of :
  valid_date anchor -> valid_date as_of -> day anchor <= 28 ->
  day (fst (compute_period monthly anchor as_of)) = day anchor /\
  date_leb (fst (compute_period monthly anchor as_of)) as_of = true /\
  date_leb as_of (snd (compute_period monthly anchor as_of)) = true /\
  day (add_days (snd (compute_period monthly anchor as_of)) 1) = day anchor /\
  fst (compute_period monthly anchor
         (add_days (snd (compute_period monthly anchor as_of)) 1))
  = add_days (snd (compute_period monthly anchor as_of)) 1.
Proof.
  intros Ha Hs Hd.
  destruct (compute_period_monthly_small_anchor anchor as_of Ha Hs Hd)
    as (H1 & H2 & H3 & H4 & H5).
  split; [exact H1|]. split; [exact H2|]. split; [exact H3|].
  rewrite H4. split; [exact H5|].
  set (n := add_month (fst (compute_period monthly anchor as_of))) in *.
  replace n with (mkdate (year n) (month n) (day anchor))
    by (rewrite <- H5; destruct n; reflexivity).
  apply compute_period_monthly_on_anchor_day. destruct Ha as [_ Hda]. lia.
Qed.

(** X4, instance: anchor day 15, as-of 2024-02-20. *)
Lemma compute_period_monthly_small_anchor_tiles_witness :
  date_leb (mkdate 2024 2 20)
           (snd (compute_period monthly (mkdate 2023 5 15) (mkdate 2024 2 20))) = true.
Proof.
  assert (Ha : valid_date (mkdate 2023 5 15)) by (apply valid_dateb_spec; reflexivity).
  assert (Hs : valid_date (mkdate 2024 2 20)) by (apply valid_dateb_spec; reflexivity).
  assert (Hd : day (mkdate 2023 5 15) <= 28) by (cbn; lia).
  exact (proj1 (proj2 (proj2
    (compute_period_monthly_small_anchor_tiles (mkdate 2023 5 15) (mkdate 2024 2 20)
       Ha Hs Hd)))).
Defined.

(* ------------------------------------------------------------------ *)
(** ** Further properties of the rate resolver and the approval        *)
(* ------------------------------------------------------------------ *)

(** X5: after [upsert_worker_rate] for a worker and a task type, the rate
    resolver returns the given rate for that pair, whether an override was
    stored before or not, and returns what it returned before for every other
    pair; the call never raises. *)
Theorem upsert_worker_rate_then_effective_rate body s :
  fst (upsert_worker_rate body s) = inr tt /\
  effective_rate (snd (upsert_worker_rate body s))
                 (ru_worker_id body) (ru_task_type_id body) = ru_rate_ngn body /\
  (forall w t, (w, t) <> (ru_worker_id body, ru_task_type_id body) ->
     effective_rate (snd (upsert_worker_rate body s)) w t = effective_rate s w t).
Proof.
  split; [reflexivity|]. split.
  - rewrite effective_rate_unfold.
    cbn [upsert_worker_rate begin modify snd worker_rates set_worker_rates].
    destruct (upsert_rate_rows_hit (ru_worker_id body) (ru_task_type_id body)
                (ru_rate_ngn body) (worker_rates s)) as (x & -> & Hx). exact Hx.
  - intros w t Hne. rewrite !effective_rate_unfold.
    cbn [upsert_worker_rate begin modify snd worker_rates set_worker_rates task_types].
    rewrite (upsert_rate_rows_other _ _ _ w t _ Hne). reflexivity.
Qed.

(** X6: a single decision on a task that carries a paid-run reference always
    raises (404, 400 from the day lock, or 409) and leaves the whole store as
    it was, whatever the requested status, the caller and the state of the
    day. *)
Theorem decide_task_never_changes_paid_task now tid body u s :
  task_paid s tid ->
  snd (decide_task now tid body u s) = s /\
  exists e, fst (decide_task now tid body u s) = inl e /\
            (status_code_of e = Some 404 \/ status_code_of e = Some 400 \/
             status_code_of e = Some 409).
Proof.
  intros H. destruct (decide_task_paid_unchanged now tid body u s H) as (e & -> & He).
  split; [reflexivity|]. exists e. split; [reflexivity|].
  destruct He as [->|[->| ->]]; cbn; auto.
Qed.

(** X6, instance: the paid sample task. *)
Lemma decide_task_never_changes_paid_task_witness :
  snd (decide_task 5 30 (mkdecision decide_rejected None) Sample.boss
         (Sample.factory [] Sample.wednesday
            [Sample.task 30 2 approved 200 (Some 77%N)]))
  = Sample.factory [] Sample.wednesday [Sample.task 30 2 approved 200 (Some 77%N)].
Proof.
  refine (proj1 (decide_task_never_changes_paid_task 5 30
                   (mkdecision decide_rejected None) Sample.boss _ _)).
  intros t [<-|[]] _. discriminate.
Defined.


(** X8: a decision, single or bulk, writes nothing but the decision columns
    of tasks and the audit log: workers, task types, rates, days, runs and run
    items are unchanged, and every task keeps its identifier, day, task type,
    quantity, note, paid-run reference and edit stamps, in the same order. *)
Theorem decisions_keep_task_skeleton s :
  (forall now tid body u, decision_frame s (snd (decide_task now tid body u s))) /\
  (forall now body u, decision_frame s (snd (bulk_decide now body u s))).
Proof.
  split; intros.
  - apply (keeps_decide_task (decision_frame s)).
    + intros. apply decision_frame_audit. assumption.
    + intros. apply decision_frame_update. assumption.
    + apply decision_frame_refl.
  - apply (keeps_bulk_decide (decision_frame s)).
    + intros. apply decision_frame_audit. assumption.
    + intros. apply decision_frame_update. assumption.
    + apply decision_frame_refl.
Qed.

(** X9: [create_payroll_run] returns a run identifier only when no worker is
    active, and then stores just the run header and one audit event; as soon
    as one worker is active it raises ([NameError] on the query parameters, or
    [TypeError] for a fixed-block worker without anchor) and leaves the store
    as it was. *)
Theorem create_payroll_run_needs_no_active_worker run now body u s :
  (filter w_is_active (workers s) = [] ->
   create_payroll_run run now body u s
   = (inr run,
      set_audit_logs
        (set_payroll_runs s
           (payroll_runs s ++ [mkrun run (rc_as_of body) (u_id u) (rc_note body)]))
        (audit_logs s
         ++ [mkaudit (u_id u) (u_role u) "PAYROLL_RUN_CREATE" "payroll_run"
                     (Some run)]))) /\
  (filter w_is_active (workers s) <> [] ->
   exists e, create_payroll_run run now body u s = (inl e, s) /\
             (e = NameError "worker_id" \/ exists m, e = TypeError m)).
Proof.
  destruct (create_payroll_run_outcome run now body u s) as [[H1 H2] | [H1 H2]].
  - split; [intros _; exact H2 | intros N; contradiction].
  - split; [intros N; contradiction | intros _; exact H2].
Qed.

(* ------------------------------------------------------------------ *)
(** ** Further properties of work logging                              *)
(* ------------------------------------------------------------------ *)

(** X10: no endpoint that writes tasks ever stores a negative quantity: if
    all stored quantities are non-negative, they still are after a creation,
    an edit, a deletion, a single decision or a bulk decision, whether the call
    returns or raises. *)
Theorem quantities_stay_nonneg s :
  quantities_nonneg s ->
  (forall fresh body u, quantities_nonneg (snd (add_work_task fresh body u s))) /\
  (forall now tid body u,
     quantities_nonneg (snd (update_pending_task now tid body u s))) /\
  (forall tid u, quantities_nonneg (snd (delete_pending_task tid u s))) /\
  (forall now tid body u, quantities_nonneg (snd (decide_task now tid body u s))) /\
  (forall now body u, quantities_nonneg (snd (bulk_decide now body u s))).
Proof.
  intros H. repeat split; intros.
  - apply keeps_nonneg_add_work_task, H.
  - apply keeps_nonneg_update_pending_task, H.
  - apply keeps_nonneg_delete_pending_task, H.
  - apply (keeps_decide_task quantities_nonneg); [| |exact H]; intros.
    + apply quantities_nonneg_audit. assumption.
    + apply quantities_nonneg_update_decision. assumption.
  - apply (keeps_bulk_decide quantities_nonneg); [| |exact H]; intros.
    + apply quantities_nonneg_audit. assumption.
    + apply quantities_nonneg_update_decision. assumption.
Qed.

(** X10, instance: an edit of the pending sample task. *)
Lemma quantities_stay_nonneg_witness :
  quantities_nonneg
    (snd (update_pending_task 5 30 (mkupdate (Some (Some 3%Q)) None None) Sample.boss
            (Sample.factory [] Sample.wednesday [Sample.task 30 2 pending 0 None]))).
Proof.
  refine (proj1 (proj2 (quantities_stay_nonneg
            (Sample.factory [] Sample.wednesday [Sample.task 30 2 pending 0 None]) _))
            5 30%N (mkupdate (Some (Some 3%Q)) None None) Sample.boss).
  intros t [<-|[]]. cbn. discriminate.
Defined.

(** X11: a task that has been decided (approved or rejected) can be neither
    edited nor deleted: both calls raise (404, or 400) and leave the store as
    it was, for every caller and every requested change. *)
Theorem decided_task_cannot_be_edited_or_deleted s tid :
  task_decided s tid ->
  (forall now body u,
     snd (update_pending_task now tid body u s) = s /\
     exists e, fst (update_pending_task now tid body u s) = inl e /\
               (status_code_of e = Some 404 \/ status_code_of e = Some 400)) /\
  (forall u,
     snd (delete_pending_task tid u s) = s /\
     exists e, fst (delete_pending_task tid u s) = inl e /\
               (status_code_of e = Some 404 \/ status_code_of e = Some 400)).
Proof.
  intros Hd. split; intros.
  - destruct (update_pending_task_decided now tid body u s Hd) as (e & -> & He).
    split; [reflexivity|]. exists e. split; [reflexivity|].
    destruct He as [->|[->| ->]]; cbn; auto.
  - destruct (delete_pending_task_decided tid u s Hd) as (e & -> & He).
    split; [reflexivity|]. exists e. split; [reflexivity|].
    destruct He as [->|[->| ->]]; cbn; auto.
Qed.

(** X11, instance: the approved sample task. *)
Lemma decided_task_cannot_be_edited_or_deleted_witness :
  snd (delete_pending_task 30 Sample.boss
         (Sample.factory [] Sample.wednesday [Sample.task 30 2 approved 200 None]))
  = Sample.factory [] Sample.wednesday [Sample.task 30 2 approved 200 None].
Proof.
  refine (proj1 (proj2 (decided_task_cannot_be_edited_or_deleted
            (Sample.factory [] Sample.wednesday [Sample.task 30 2 approved 200 None])
            30%N _) Sample.boss)).
  intros t [<-|[]] _. discriminate.
Defined.

(** X12: replaying a creation is safe: once [add_work_task] has returned an
    identifier, any later creation that carries this identifier, whatever its
    quantity, task type or day, leaves the stored tasks exactly as they
    are. *)
Theorem add_work_task_replay_is_safe fresh body u s tid s1 :
  add_work_task fresh body u s = (inr tid, s1) ->
  forall fresh' body' u',
    c_id body' = Some tid ->
    work_tasks (snd (add_work_task fresh' body' u' s1)) = work_tasks s1.
Proof.
  intros H fresh' body' u' Hid.
  apply (add_work_task_replay fresh' body' u' s1 tid Hid).
  apply add_work_task_success in H. destruct H as (_ & _ & _ & ->).
  destruct (insert_work_task_present tid body s) as (t & Ht & Hi).
  exists t. split; [exact Ht | exact Hi].
Qed.

(** X12, instance: the same client identifier sent twice, the second time
    with another quantity. *)
Lemma add_work_task_replay_is_safe_witness :
  work_tasks
    (snd (add_work_task 41 (mkcreate (Some 40%N) 20 10 9 None) Sample.boss
            (snd (add_work_task 41 (mkcreate (Some 40%N) 20 10 1 None) Sample.boss
                    (Sample.factory [] Sample.wednesday [])))))
  = work_tasks
      (snd (add_work_task 41 (mkcreate (Some 40%N) 20 10 1 None) Sample.boss
              (Sample.factory [] Sample.wednesday []))).
Proof.
  exact (add_work_task_replay_is_safe 41 (mkcreate (Some 40%N) 20 10 1 None)
           Sample.boss (Sample.factory [] Sample.wednesday []) 40%N _ eq_refl
           41%N (mkcreate (Some 40%N) 20 10 9 None) Sample.boss eq_refl).
Defined.

(* ------------------------------------------------------------------ *)
(** ** Further properties of decisions                                 *)
(* ------------------------------------------------------------------ *)

(** X13: re-deciding is idempotent on the pay.  If approving a task goes
    through and settles [p], then rejecting it afterwards goes through and
    settles 0, and approving it again goes through and settles [p] again,
    whoever decides and whenever; the task then is approved with pay [p]. *)
Theorem approve_reject_approve_settles_same_pay now1 tid reason1 u1 s p s1 :
  decide_task now1 tid (mkdecision decide_approved reason1) u1 s = (inr p, s1) ->
  forall now2 reason2 u2 now3 reason3 u3,
  exists s2 s3,
    decide_task now2 tid (mkdecision decide_rejected reason2) u2 s1 = (inr 0%Q, s2) /\
    decide_task now3 tid (mkdecision decide_approved reason3) u3 s2 = (inr p, s3) /\
    (forall t, In t (work_tasks s3) -> wt_id t = tid ->
       wt_status t = approved /\ wt_approved_pay_ngn t = p).
Proof.
  intros H now2 reason2 u2 now3 reason3 u3.
  destruct (open_for_decision_of_success _ _ _ _ _ _ _ H) as (q & r & Hopen & ->).
  assert (Hopen1 : open_for_decision s1 tid q r).
  { destruct (decide_task_when_open now1 tid (mkdecision decide_approved reason1) u1 s
                q r Hopen) as (sx & Ex & Ho & _).
    rewrite H in Ex. injection Ex as <-. exact Ho. }
  destruct (decide_task_when_open now2 tid (mkdecision decide_rejected reason2) u2 s1
              q r Hopen1) as (s2 & E2 & Hopen2 & _).
  destruct (decide_task_when_open now3 tid (mkdecision decide_approved reason3) u3 s2
              q r Hopen2) as (s3 & E3 & _ & Hrows).
  exists s2, s3. split; [exact E2|]. split; [exact E3|]. exact Hrows.
Qed.

(** X13, instance: the pending sample task. *)
Lemma approve_reject_approve_settles_same_pay_witness :
  exists s2 s3,
    decide_task 6 30 (mkdecision decide_rejected None) Sample.boss
      (snd (decide_task 5 30 (mkdecision decide_approved None) Sample.boss
              (Sample.factory [] Sample.wednesday [Sample.task 30 2 pending 0 None])))
    = (inr 0%Q, s2) /\
    decide_task 7 30 (mkdecision decide_approved None) Sample.boss s2
    = (inr (20000 # 100), s3) /\
    (forall t, In t (work_tasks s3) -> wt_id t = 30%N ->
       wt_status t = approved /\ wt_approved_pay_ngn t = 20000 # 100).
Proof.
  exact (approve_reject_approve_settles_same_pay 5 30 None Sample.boss
           (Sample.factory [] Sample.wednesday [Sample.task 30 2 pending 0 None])
           (20000 # 100) _ eq_refl 6 None Sample.boss 7 None Sample.boss).
Defined.

(* ------------------------------------------------------------------ *)
(** ** Further properties of the day lock                              *)
(* ------------------------------------------------------------------ *)

(** X14: closing a day locks it.  For a stored day (day identifiers being
    unique) [close_day] returns, leaves the tasks as they are, and from then on
    the day is closed: closing it again changes nothing, and deciding, editing
    or deleting a task logged on it, or adding a task to it, raises 400 and
    changes nothing. *)
Theorem close_day_locks_the_day day_id u s :
  NoDup (map wd_id (work_days s)) ->
  (exists d, In d (work_days s) /\ wd_id d = day_id) ->
  exists s',
    close_day day_id u s = (inr tt, s') /\
    work_tasks s' = work_tasks s /\
    (forall u', close_day day_id u' s' = (inr tt, s')) /\
    (forall tid, task_on_day s tid day_id ->
       (forall now body u',
          decide_task now tid body u' s'
          = (inl (HTTPException 400 "Work day is closed"), s')) /\
       (forall now body u',
          update_pending_task now tid body u' s'
          = (inl (HTTPException 400 "Work day is closed"), s')) /\
       (forall u',
          delete_pending_task tid u' s'
          = (inl (HTTPException 400 "Work day is closed"), s'))) /\
    (forall fresh body u',
       c_work_day_id body = day_id -> Qlt_bool (c_quantity body) 0 = false ->
       add_work_task fresh body u' s'
       = (inl (HTTPException 400 "Work day is closed"), s')).
Proof.
  intros Hn Hex.
  destruct (close_day_result day_id u s Hn Hex) as (s' & E & Hc & Ht).
  exists s'. split; [exact E|]. split; [exact Ht|]. split; [|split].
  - intros u'. apply close_day_again, Hc.
  - intros tid Hon.
    assert (Hl : task_on_closed_day s' tid).
    { apply (task_on_closed_day_of s' tid day_id Hc).
      destruct Hon as [H1 H2]. split; rewrite Ht; assumption. }
    repeat split; intros.
    + apply decide_task_closed, Hl.
    + apply update_pending_task_closed, Hl.
    + apply delete_pending_task_closed, Hl.
  - intros fresh body u' Hid Hq.
    rewrite (add_work_task_closed fresh body u' s') by (rewrite Hid; exact Hc).
    rewrite Hq. reflexivity.
Qed.

(** X14, instance: closing the open sample day. *)
Lemma close_day_locks_the_day_witness :
  exists s',
    close_day 20 Sample.boss
      (Sample.factory [] Sample.wednesday [Sample.task 30 2 pending 0 None])
    = (inr tt, s') /\
    decide_task 5 30 (mkdecision decide_approved None) Sample.boss s'
    = (inl (HTTPException 400 "Work day is closed"), s').
Proof.
  assert (Hn : NoDup (map wd_id (work_days
            (Sample.factory [] Sample.wednesday [Sample.task 30 2 pending 0 None])))).
  { cbn. constructor; [intros [] | constructor]. }
  assert (Hex : exists d, In d (work_days
            (Sample.factory [] Sample.wednesday [Sample.task 30 2 pending 0 None]))
            /\ wd_id d = 20%N).
  { exists Sample.wednesday. split; [left; reflexivity | reflexivity]. }
  destruct (close_day_locks_the_day 20 Sample.boss _ Hn Hex)
    as (s' & E & _ & _ & Hlock & _).
  exists s'. split; [exact E|].
  refine (proj1 (Hlock 30%N _) 5 (mkdecision decide_approved None) Sample.boss).
  split.
  - exists (Sample.task 30 2 pending 0 None). split; [left; reflexivity | reflexivity].
  - intros t [<-|[]] _. reflexivity.
Defined.

(** X15: reopening undoes closing.  For an open stored day, [close_day]
    followed by [reopen_day] both return, and the work days and the tasks are
    afterwards what they were before (two audit events are added). *)
Theorem reopen_day_undoes_close_day day_id u1 u2 s :
  day_open s day_id ->
  exists s1 s2,
    close_day day_id u1 s = (inr tt, s1) /\
    reopen_day day_id u2 s1 = (inr tt, s2) /\
    work_days s2 = work_days s /\ work_tasks s2 = work_tasks s.
Proof. apply close_then_reopen. Qed.

(** X15, instance: the open sample day. *)
Lemma reopen_day_undoes_close_day_witness :
  exists s1 s2,
    close_day 20 Sample.boss (Sample.factory [] Sample.wednesday []) = (inr tt, s1) /\
    reopen_day 20 Sample.boss s1 = (inr tt, s2) /\
    work_days s2 = work_days (Sample.factory [] Sample.wednesday []) /\
    work_tasks s2 = work_tasks (Sample.factory [] Sample.wednesday []).
Proof.
  apply (reopen_day_undoes_close_day 20 Sample.boss Sample.boss).
  split.
  - exists Sample.wednesday. split; [left; reflexivity | reflexivity].
  - intros d [<-|[]] _. reflexivity.
Defined.

(* ------------------------------------------------------------------ *)
(** ** Further properties of the listing, of deletion and of scoping   *)
(* ------------------------------------------------------------------ *)



(** X17: deleting undoes creating.  When [add_work_task] has returned an
    identifier that no stored task carried before, [delete_pending_task] on
    that identifier, by an admin or by the supervisor who logged the day,
    returns and leaves the stored tasks and days exactly as they were before
    the creation. *)
Theorem delete_pending_task_undoes_add_work_task fresh body u s tid s1 u' :
  add_work_task fresh body u s = (inr tid, s1) ->
  (forall t, In t (work_tasks s) -> wt_id t <> tid) ->
  (u_role u' = admin \/
   forall d, In d (work_days s) -> wd_id d = c_work_day_id body ->
             wd_logged_by d = u_id u') ->
  exists s2, delete_pending_task tid u' s1 = (inr tt, s2) /\
             work_tasks s2 = work_tasks s /\ work_days s2 = work_days s.
Proof. apply delete_after_add. Qed.

(** X17, instance: one more task on the sample day, created and deleted. *)
Lemma delete_pending_task_undoes_add_work_task_witness :
  exists s2,
    delete_pending_task 41 Sample.boss
      (snd (add_work_task 41 (mkcreate None 20 11 3 None) Sample.boss
              (Sample.factory [] Sample.wednesday [Sample.task 30 2 pending 0 None])))
    = (inr tt, s2) /\
    work_tasks s2 = [Sample.task 30 2 pending 0 None] /\
    work_days s2 = [Sample.wednesday].
Proof.
  apply (delete_pending_task_undoes_add_work_task 41 (mkcreate None 20 11 3 None)
           Sample.boss
           (Sample.factory [] Sample.wednesday [Sample.task 30 2 pending 0 None])
           41%N _ Sample.boss eq_refl).
  - intros t [<-|[]]. discriminate.
  - left. reflexivity.
Defined.

(** X18: a supervisor's bulk decision never touches a task of a day that
    somebody else logged: with unique task identifiers, every such task is
    stored afterwards exactly as before, whatever identifiers the request
    lists. *)
Theorem supervisor_bulk_decide_leaves_foreign_tasks now body u s t :
  u_role u = supervisor ->
  NoDup (map wt_id (work_tasks s)) ->
  In t (work_tasks s) ->
  (forall d, In d (work_days s) -> wd_id d = wt_work_day_id t ->
             wd_logged_by d <> u_id u) ->
  In t (work_tasks (snd (bulk_decide now body u s))).
Proof.
  intros Hsup Hn Ht Hf.
  apply (bulk_decide_leaves_foreign_task s u t Hsup Hf now body Hn Ht).
Qed.

(** X18, instance: supervisor 901 asks for the sample task, logged by 900. *)
Lemma supervisor_bulk_decide_leaves_foreign_tasks_witness :
  In (Sample.task 30 2 pending 0 None)
     (work_tasks
        (snd (bulk_decide 5 (mkbulk [30%N] decide_approved None)
                (mkuser 901 supervisor None)
                (Sample.factory [] Sample.wednesday [Sample.task 30 2 pending 0 None])))).
Proof.
  apply (supervisor_bulk_decide_leaves_foreign_tasks 5 (mkbulk [30%N] decide_approved None)
           (mkuser 901 supervisor None)
           (Sample.factory [] Sample.wednesday [Sample.task 30 2 pending 0 None])).
  - reflexivity.
  - cbn. constructor; [intros [] | constructor].
  - left. reflexivity.
  - intros d [<-|[]] _. cbn. discriminate.
Defined.

(** X19: the single decision does not look at its caller: for any two
    callers it raises the same error or returns the same pay, and leaves every
    task with the same status and pay; the caller only shows in [decided_by]
    and in the audit log.  In particular it makes no ownership check. *)
Theorem decide_task_outcome_independent_of_caller now tid body u u' s :
  fst (decide_task now tid body u s) = fst (decide_task now tid body u' s) /\
  map (fun t => (wt_id t, wt_status t, wt_approved_pay_ngn t))
      (work_tasks (snd (decide_task now tid body u s)))
  = map (fun t => (wt_id t, wt_status t, wt_approved_pay_ngn t))
        (work_tasks (snd (decide_task now tid body u' s))).
Proof. apply decide_task_any_caller. Qed.

(* ------------------------------------------------------------------ *)
(** ** Further properties: the day listing and its two rubrics         *)
(* ------------------------------------------------------------------ *)

(** X20: the day listing of a worker always returns and only reads; and when
    no stored quantity is negative, in every day it lists the rubric of the
    approved totals is bounded by the rubric of the logged totals: no more
    progress, a target met on approved work is met on logged work, and
    nothing less is still needed (weaving metres, combing kilograms). *)
Theorem get_worker_days_approved_rubric_within_logged worker_id start end_ u s :
  quantities_nonneg s ->
  exists views,
    get_worker_days worker_id start end_ u s = (inr views, s) /\
    forall v, In v views ->
      (progress_kg_equiv (dv_rubric_approved v)
         <= progress_kg_equiv (dv_rubric_logged v))%Q /\
      (target_met (dv_rubric_approved v) = true ->
       target_met (dv_rubric_logged v) = true) /\
      (weaving_needed_m (dv_rubric_logged v)
         <= weaving_needed_m (dv_rubric_approved v))%Q /\
      (combing_needed_kg (dv_rubric_logged v)
         <= combing_needed_kg (dv_rubric_approved v))%Q.
Proof.
  intros Hq. eexists. split; [apply get_worker_days_run|].
  intros v Hv. apply in_map_iff in Hv as [d [<- _]].
  exact (day_view_of_rubrics s d Hq).
Qed.

(** X20, instance: a day with half a kilogram approved and one more logged. *)
Lemma get_worker_days_approved_rubric_within_logged_witness :
  exists views,
    get_worker_days 1 None None Sample.boss
      (Sample.factory [] Sample.wednesday
         [Sample.task 30 (1 # 2) approved 50 None; Sample.task 31 1 pending 0 None])
    = (inr views,
       Sample.factory [] Sample.wednesday
         [Sample.task 30 (1 # 2) approved 50 None; Sample.task 31 1 pending 0 None]) /\
    forall v, In v views ->
      (progress_kg_equiv (dv_rubric_approved v)
         <= progress_kg_equiv (dv_rubric_logged v))%Q /\
      (target_met (dv_rubric_approved v) = true ->
       target_met (dv_rubric_logged v) = true) /\
      (weaving_needed_m (dv_rubric_logged v)
         <= weaving_needed_m (dv_rubric_approved v))%Q /\
      (combing_needed_kg (dv_rubric_logged v)
         <= combing_needed_kg (dv_rubric_approved v))%Q.
Proof.
  refine (get_worker_days_approved_rubric_within_logged 1%N None None Sample.boss
            (Sample.factory [] Sample.wednesday
               [Sample.task 30 (1 # 2) approved 50 None;
                Sample.task 31 1 pending 0 None]) _).
  intros t [<-|[<-|[]]]; cbn; discriminate.
Defined.

(* ------------------------------------------------------------------ *)
(** ** Further properties: the approval queue                          *)
(* ------------------------------------------------------------------ *)

(** X21: the approval queue shows a caller only what that caller may decide.
    With unique task and day identifiers, [pending_tasks] returns without
    changing the store, and every entry is a stored pending task for which
    [can_decide_task] answers yes for the caller, whatever the worker and
    date parameters. *)
Theorem pending_tasks_within_decision_scope worker_id start end_ u s :
  keys_unique s ->
  exists rows,
    pending_tasks worker_id start end_ u s = (inr rows, s) /\
    forall r, In r rows ->
      pq_status r = pending /\
      can_decide_task s (u_id u) (u_role u) (pq_task_id r) = true /\
      exists t, In t (work_tasks s) /\ wt_id t = pq_task_id r /\
                wt_status t = pending /\ wt_quantity t = pq_quantity r.
Proof.
  intros Hk. eexists. split; [apply pending_tasks_run|].
  intros r Hr. apply in_map_iff in Hr as ([[[t d] ty] w] & <- & Hin).
  apply filter_In in Hin as [Hin Hf].
  destruct (pending_filter_scope _ _ _ _ _ _ _ _ _ Hk Hin Hf) as [Hst Hc].
  cbn [pending_out pq_status pq_task_id pq_quantity].
  split; [exact Hst|]. split; [exact Hc|].
  exists t. apply in_tasks_days_types_workers in Hin as (Hin & _ & _).
  apply in_tasks_days_types in Hin as (Ht & _). auto.
Qed.

(** X21, instance: the supervisor who logged the sample day and its one
    pending task. *)
Lemma pending_tasks_within_decision_scope_witness :
  exists rows,
    pending_tasks None None None (mkuser 900 supervisor None)
      (Sample.factory [] Sample.wednesday [Sample.task 30 2 pending 0 None])
    = (inr rows,
       Sample.factory [] Sample.wednesday [Sample.task 30 2 pending 0 None]) /\
    forall r, In r rows ->
      pq_status r = pending /\
      can_decide_task
        (Sample.factory [] Sample.wednesday [Sample.task 30 2 pending 0 None])
        900 supervisor (pq_task_id r) = true /\
      exists t,
        In t (work_tasks
                (Sample.factory [] Sample.wednesday [Sample.task 30 2 pending 0 None])) /\
        wt_id t = pq_task_id r /\ wt_status t = pending /\
        wt_quantity t = pq_quantity r.
Proof.
  refine (pending_tasks_within_decision_scope None None None
            (mkuser 900 supervisor None)
            (Sample.factory [] Sample.wednesday [Sample.task 30 2 pending 0 None]) _).
  split; cbn; repeat constructor; intros [].
Defined.

(** X22: the unnarrowed approval queue misses nothing the caller may decide:
    with unique identifiers, every stored pending task whose day, worker and
    task type rows exist and for which [can_decide_task] answers yes for the
    caller has an entry in [pending_tasks] called without worker or date
    parameters. *)
Theorem pending_tasks_lists_all_in_scope u s t d w ty :
  keys_unique s ->
  In t (work_tasks s) -> wt_status t = pending ->
  In d (work_days s) -> wd_id d = wt_work_day_id t ->
  In w (workers s) -> w_id w = wd_worker_id d ->
  In ty (task_types s) -> tt_id ty = wt_task_type_id t ->
  can_decide_task s (u_id u) (u_role u) (wt_id t) = true ->
  exists rows r,
    pending_tasks None None None u s = (inr rows, s) /\
    In r rows /\ pq_task_id r = wt_id t /\ pq_worker_id r = w_id w.
Proof.
  intros Hk Ht Hst Hd Hj Hw Hjw Hty Hjt Hc.
  eexists. exists (pending_out (t, d, ty, w)).
  split; [apply pending_tasks_run|].
  assert (Hin : In (t, d, ty, w) (tasks_days_types_workers s)).
  { apply in_tasks_days_types_workers. split; [|auto].
    apply in_tasks_days_types. auto. }
  split.
  - apply in_map, filter_In. split; [exact Hin|].
    exact (pending_filter_of_scope u s t d ty w Hk Hin Hst Hc).
  - cbn [pending_out pq_task_id pq_worker_id]. auto.
Qed.

(** X22, instance: the admin and the pending sample task. *)
Lemma pending_tasks_lists_all_in_scope_witness :
  exists rows r,
    pending_tasks None None None Sample.boss
      (Sample.factory [] Sample.wednesday [Sample.task 30 2 pending 0 None])
    = (inr rows,
       Sample.factory [] Sample.wednesday [Sample.task 30 2 pending 0 None]) /\
    In r rows /\ pq_task_id r = wt_id (Sample.task 30 2 pending 0 None) /\
    pq_worker_id r = w_id Sample.ada.
Proof.
  refine (pending_tasks_lists_all_in_scope Sample.boss
            (Sample.factory [] Sample.wednesday [Sample.task 30 2 pending 0 None])
            (Sample.task 30 2 pending 0 None) Sample.wednesday Sample.ada
            Sample.combing _ _ _ _ _ _ _ _ _ _).
  - split; cbn; repeat constructor; intros [].
  - left; reflexivity.
  - reflexivity.
  - left; reflexivity.
  - reflexivity.
  - left; reflexivity.
  - reflexivity.
  - left; reflexivity.
  - reflexivity.
  - reflexivity.
Defined.

(* ------------------------------------------------------------------ *)
(** ** Further properties: opening a work day                          *)
(* ------------------------------------------------------------------ *)

(** X23: opening a day is an upsert on (worker, date): once a call has
    returned an identifier, the same request by any caller returns the same
    identifier and leaves the stored days and tasks as they are, so the day
    keeps its first logger and its closed flag; and that identifier names a
    stored day of the requested worker and date. *)
Theorem create_work_day_is_idempotent f1 f2 body u u' s i s1 :
  create_work_day f1 body u s = (inr i, s1) ->
  exists s2 d,
    create_work_day f2 body u' s1 = (inr i, s2) /\
    work_days s2 = work_days s1 /\ work_tasks s2 = work_tasks s1 /\
    In d (work_days s1) /\ wd_id d = i /\
    wd_worker_id d = dc_worker_id body /\ wd_work_date d = dc_work_date body.
Proof. apply create_work_day_again. Qed.

(** X23, instance: a new day for the sample worker, asked for twice. *)
Lemma create_work_day_is_idempotent_witness :
  exists s2 d,
    create_work_day 22 (mkdaycreate 1 (mkdate 2024 1 4)) (mkuser 901 supervisor None)
      (snd (create_work_day 21 (mkdaycreate 1 (mkdate 2024 1 4)) Sample.boss
              (Sample.factory [] Sample.wednesday [])))
    = (inr 21%N, s2) /\
    work_days s2
    = work_days (snd (create_work_day 21 (mkdaycreate 1 (mkdate 2024 1 4)) Sample.boss
                        (Sample.factory [] Sample.wednesday []))) /\
    work_tasks s2
    = work_tasks (snd (create_work_day 21 (mkdaycreate 1 (mkdate 2024 1 4)) Sample.boss
                         (Sample.factory [] Sample.wednesday []))) /\
    In d (work_days (snd (create_work_day 21 (mkdaycreate 1 (mkdate 2024 1 4))
                            Sample.boss (Sample.factory [] Sample.wednesday [])))) /\
    wd_id d = 21%N /\
    wd_worker_id d = dc_worker_id (mkdaycreate 1 (mkdate 2024 1 4)) /\
    wd_work_date d = dc_work_date (mkdaycreate 1 (mkdate 2024 1 4)).
Proof.
  refine (create_work_day_is_idempotent 21%N 22%N (mkdaycreate 1 (mkdate 2024 1 4))
            Sample.boss (mkuser 901 supervisor None)
            (Sample.factory [] Sample.wednesday []) 21%N _ _).
  reflexivity.
Defined.

(* ------------------------------------------------------------------ *)
(** ** Further properties: the payroll-due listing                     *)
(* ------------------------------------------------------------------ *)

(** X24: a worker is listed as due only on the last day of a period.  When
    [as_of] and the stored anchors are calendar dates and monthly anchors fall
    on a day no later than the 28th, every entry of [payroll_due] has
    [period_end] equal to [as_of]: [compute_period] returns the period that
    contains [as_of] and the listing skips periods ending after it, so unpaid
    work of a period that ended earlier is not listed.  A supervisor with a
    factory sees workers of that factory only. *)
Theorem payroll_due_lists_only_periods_ending_as_of as_of u s :
  valid_date as_of -> anchors_regular s ->
  exists due,
    payroll_due as_of u s = (inr due, s) /\
    forall e, In e due ->
      due_period_end e = as_of /\
      exists w, In w (workers s) /\ due_worker_id e = w_id w /\
                (forall fid, u_role u = supervisor -> u_factory_id u = Some fid ->
                             w_factory_id w = Some fid).
Proof.
  intros Hs Hreg. eexists. split; [apply payroll_due_value|].
  intros e He. apply in_flat_map in He as (w & Hw & He).
  assert (Hin : In w (workers s)) by (apply (due_workers_active s u w Hw)).
  split.
  - apply (due_entry_on_period_end s as_of w e Hs); [|exact He].
    intros a Ea. exact (Hreg w a Hin Ea).
  - exists w. split; [exact Hin|]. split.
    + apply (due_entry_positive s as_of w e He).
    + intros fid Hr Hf. unfold due_workers in Hw. rewrite Hr, Hf in Hw.
      apply filter_In in Hw as [_ Hw]. apply andb_true_iff in Hw as [_ Hw].
      destruct (w_factory_id w) as [f|]; [|discriminate].
      apply N.eqb_eq in Hw. congruence.
Qed.

(** X24, instance: the sample worker's week from Monday 2024-01-01, asked for
    on its Sunday. *)
Lemma payroll_due_lists_only_periods_ending_as_of_witness :
  exists due,
    payroll_due (mkdate 2024 1 7) Sample.boss
      (Sample.factory [] Sample.wednesday [Sample.task 30 2 approved 200 None])
    = (inr due,
       Sample.factory [] Sample.wednesday [Sample.task 30 2 approved 200 None]) /\
    forall e, In e due ->
      due_period_end e = mkdate 2024 1 7 /\
      exists w,
        In w (workers (Sample.factory [] Sample.wednesday
                         [Sample.task 30 2 approved 200 None])) /\
        due_worker_id e = w_id w /\
        (forall fid, u_role Sample.boss = supervisor ->
                     u_factory_id Sample.boss = Some fid ->
                     w_factory_id w = Some fid).
Proof.
  assert (Hs : valid_date (mkdate 2024 1 7)) by (apply valid_dateb_spec; reflexivity).
  assert (Hreg : anchors_regular
            (Sample.factory [] Sample.wednesday [Sample.task 30 2 approved 200 None])).
  { intros w a [<-|[]] E. cbn in E. injection E as <-.
    split; [apply valid_dateb_spec; reflexivity | discriminate]. }
  exact (payroll_due_lists_only_periods_ending_as_of (mkdate 2024 1 7) Sample.boss
           (Sample.factory [] Sample.wednesday [Sample.task 30 2 approved 200 None])
           Hs Hreg).
Defined.

(* ------------------------------------------------------------------ *)
(** ** Further properties: rounding of the settled pay                 *)
(* ------------------------------------------------------------------ *)

(** X25: the pay a single approval settles is the product of the task's
    quantity and its type's rate rounded to two places: it lies within half a
    hundredth of the exact product, is not negative when the product is not,
    and is what every stored row of the task carries afterwards. *)
Theorem decide_task_pay_within_half_hundredth now tid reason u s p s1 :
  decide_task now tid (mkdecision decide_approved reason) u s = (inr p, s1) ->
  exists q r,
    open_for_decision s tid q r /\
    (q * r - (1 # 200) <= p)%Q /\ (p <= q * r + (1 # 200))%Q /\
    ((0 <= q * r)%Q -> (0 <= p)%Q) /\
    (forall t, In t (work_tasks s1) -> wt_id t = tid ->
       wt_status t = approved /\ wt_approved_pay_ngn t = p).
Proof.
  intros H.
  destruct (open_for_decision_of_success _ _ _ _ _ _ _ H) as (q & r & Hopen & ->).
  exists q, r. cbn [d_status settled_pay].
  split; [exact Hopen|].
  split; [apply quantize_half_up_within|].
  split; [apply quantize_half_up_within|].
  split; [apply quantize_half_up_nonneg|].
  destruct (decide_task_when_open now tid (mkdecision decide_approved reason) u s
              q r Hopen) as (sx & Ex & _ & Hrows).
  rewrite H in Ex. injection Ex as <-. exact Hrows.
Qed.

(** X25, instance: an eighth of a unit at the rate 100 settles 12.50. *)
Lemma decide_task_pay_within_half_hundredth_witness :
  exists q r,
    open_for_decision
      (Sample.factory [] Sample.wednesday [Sample.task 30 (1 # 8) pending 0 None])
      30 q r /\
    (q * r - (1 # 200) <= 1250 # 100)%Q /\ (1250 # 100 <= q * r + (1 # 200))%Q /\
    ((0 <= q * r)%Q -> (0 <= 1250 # 100)%Q) /\
    (forall t,
       In t (work_tasks
               (snd (decide_task 5 30 (mkdecision decide_approved None) Sample.boss
                       (Sample.factory [] Sample.wednesday
                          [Sample.task 30 (1 # 8) pending 0 None])))) ->
       wt_id t = 30%N ->
       wt_status t = approved /\ wt_approved_pay_ngn t = 1250 # 100).
Proof.
  refine (decide_task_pay_within_half_hundredth 5 30%N None Sample.boss
            (Sample.factory [] Sample.wednesday [Sample.task 30 (1 # 8) pending 0 None])
            (1250 # 100)
            (snd (decide_task 5 30 (mkdecision decide_approved None) Sample.boss
                    (Sample.factory [] Sample.wednesday
                       [Sample.task 30 (1 # 8) pending 0 None]))) _).
  reflexivity.
Defined.

(* ------------------------------------------------------------------ *)
(** ** Further properties: the single-worker payroll view              *)
(* ------------------------------------------------------------------ *)

(** X26: the single-worker view returns for every stored worker with an
    anchor and only reads.  Its period is the one [period_for_worker] gives;
    its total lies within half a hundredth of the exact sum of the settled
    pays of the worker's approved, unpaid tasks of that period; its combing
    and weaving figures are the exact sums of their quantities; and with no
    such task the total is zero (its sums start from a decimal zero, where the
    all-workers listing fails). *)
Theorem payroll_total_is_rounded_sum worker_id as_of u s w a :
  fetchone (filter (fun w => (w_id w =? worker_id)%N) (workers s)) = Some w ->
  w_payout_anchor_date w = Some a ->
  exists out,
    payroll worker_id as_of u s = (inr out, s) /\
    (po_period_start out, po_period_end out)
    = period_for_worker (w_payout w) a as_of /\
    let rows := payroll_rows s worker_id (po_period_start out) (po_period_end out) in
    (sumQ (map col2 rows) - (1 # 200) <= po_approved_total_pay_ngn out)%Q /\
    (po_approved_total_pay_ngn out <= sumQ (map col2 rows) + (1 # 200))%Q /\
    (po_approved_combed_kg out
     == sumQ (map col1 (filter (fun r => String.eqb (col0 r) "COMBING") rows)))%Q /\
    (po_approved_woven_m out
     == sumQ (map col1 (filter (fun r => String.eqb (col0 r) "WEAVING") rows)))%Q /\
    (rows = [] -> po_approved_total_pay_ngn out = 0 # 100).
Proof.
  intros Hw Ha. eexists. split; [apply (payroll_run worker_id as_of u s w a Hw Ha)|].
  cbn [po_period_start po_period_end po_approved_total_pay_ngn po_approved_combed_kg
       po_approved_woven_m].
  split; [destruct (period_for_worker (w_payout w) a as_of); reflexivity|].
  cbv zeta.
  set (rows := payroll_rows s worker_id _ _).
  pose proof (py_sum_value (map col2 rows) (PyDecimal 0)) as E. cbn [pynum_value] in E.
  destruct (quantize_half_even_within
              (pynum_value (py_sum (PyDecimal 0) (map col2 rows)))) as [L U].
  split; [lra|]. split; [lra|].
  split; [rewrite py_sum_value; cbn [pynum_value]; lra|].
  split; [rewrite py_sum_value; cbn [pynum_value]; lra|].
  intros ->. reflexivity.
Qed.

(** X26, instance: the sample worker with one approved task of pay 200. *)
Lemma payroll_total_is_rounded_sum_witness :
  exists out,
    payroll 1 (mkdate 2024 1 5) Sample.boss
      (Sample.factory [] Sample.wednesday [Sample.task 30 2 approved 200 None])
    = (inr out,
       Sample.factory [] Sample.wednesday [Sample.task 30 2 approved 200 None]) /\
    (po_period_start out, po_period_end out)
    = period_for_worker (w_payout Sample.ada) (mkdate 2024 1 1) (mkdate 2024 1 5) /\
    let rows :=
      payroll_rows
        (Sample.factory [] Sample.wednesday [Sample.task 30 2 approved 200 None])
        1 (po_period_start out) (po_period_end out) in
    (sumQ (map col2 rows) - (1 # 200) <= po_approved_total_pay_ngn out)%Q /\
    (po_approved_total_pay_ngn out <= sumQ (map col2 rows) + (1 # 200))%Q /\
    (po_approved_combed_kg out
     == sumQ (map col1 (filter (fun r => String.eqb (col0 r) "COMBING") rows)))%Q /\
    (po_approved_woven_m out
     == sumQ (map col1 (filter (fun r => String.eqb (col0 r) "WEAVING") rows)))%Q /\
    (rows = [] -> po_approved_total_pay_ngn out = 0 # 100).
Proof.
  refine (payroll_total_is_rounded_sum 1%N (mkdate 2024 1 5) Sample.boss
            (Sample.factory [] Sample.wednesday [Sample.task 30 2 approved 200 None])
            Sample.ada (mkdate 2024 1 1) _ _); reflexivity.
Defined.
